(** * Chat platform (app.py): data model, page scripts and their properties

    The program is a Streamlit script.  Every user interaction re-runs
    [main] from the top against the persistent [st.session_state]; the
    widgets ([st.text_input], [st.button], ...) return the values the
    browser holds for that run.  A run ends when the script falls off its
    end, when [st.rerun()] is called, or when a Python exception escapes.

    The embedding follows that shape: the session state is a record, the
    widget values of one run are a record [UI] the scripts read from, and
    a script is a function from the session state to an outcome and the
    session state it leaves behind. *)

From Stdlib Require Import ZArith List String Ascii Bool Lia.
From Stdlib Require Import Sorting.Sorted Sorting.Permutation.
From stdpp Require Import base gmap sets strings list relations.

Import ListNotations.
Set Warnings "-clear-no-such-hyp".
Local Open Scope string_scope.
Local Open Scope Z_scope.

(** ** Python values *)

(** [datetime.datetime] values are only created by [now()] and compared
    by [sorted]; a timestamp is its number of microseconds. *)
Abbreviation datetime := Z (only parsing).

(** Truth value of a [str] and of a [list]: empty is false. *)
Definition str_truthy (x : string) : bool :=
  match x with EmptyString => false | String _ _ => true end.

Definition list_truthy {A} (l : list A) : bool :=
  match l with [] => false | _ :: _ => true end.

(** [x in l] for a list of strings. *)
Fixpoint str_in (x : string) (l : list string) : bool :=
  match l with
  | [] => false
  | y :: l' => String.eqb x y || str_in x l'
  end.

(** [s.startswith(p)] and the slice [s[n:]]. *)
Definition startswith (s p : string) : bool := String.prefix p s.

Fixpoint str_from (n : nat) (s : string) : string :=
  match n, s with
  | O, _ => s
  | S n', String _ s' => str_from n' s'
  | S _, EmptyString => EmptyString
  end.

(** A [dict] with [str] keys keeps its items in insertion order;
    assigning to a key that is present replaces the value in place. *)
Definition dict (V : Type) := list (string * V).

Fixpoint dict_get {V} (k : string) (d : dict V) : option V :=
  match d with
  | [] => None
  | (k', v) :: d' => if String.eqb k k' then Some v else dict_get k d'
  end.

Fixpoint dict_set {V} (k : string) (v : V) (d : dict V) : dict V :=
  match d with
  | [] => [(k, v)]
  | (k', v') :: d' =>
      if String.eqb k k' then (k, v) :: d' else (k', v') :: dict_set k v d'
  end.

Definition dict_keys {V} (d : dict V) : list string := map fst d.

(** [sorted(l, key=...)] is a stable sort; a stable sort by a total
    order has one possible result, computed here by insertion. *)
Section Sorted.
Context {A : Type} (key : A -> Z).

Fixpoint insert_by (x : A) (l : list A) : list A :=
  match l with
  | [] => [x]
  | y :: l' => if key x <=? key y then x :: y :: l' else y :: insert_by x l'
  end.

Fixpoint sorted (l : list A) : list A :=
  match l with
  | [] => []
  | x :: l' => insert_by x (sorted l')
  end.
End Sorted.

(** ** Data models *)

Module User.
Record t := mk {
  id : string;
  name : string;
  age : Z;
  gender : string;
  online : bool;
  last_active : datetime
}.
End User.

Module Message.
Record t := mk {
  id : string;
  sender_id : string;
  receiver_id : string;
  content : string;
  timestamp : datetime;
  is_read : bool
}.
End Message.

Module Group.
Record t := mk {
  id : string;
  name : string;
  creator_id : string;
  members : list string;
  created_at : datetime
}.
End Group.

(** [st.session_state] once [init_session_state] has run. *)
Record Session := mkSession {
  users : dict User.t;
  current_user : option User.t;
  messages : list Message.t;
  groups : dict Group.t;
  active_chats : gset string;
  unread_counts : dict Z;
  current_page : string
}.

(** [st.session_state] as the framework hands it to a run: a key is
    present or not. *)
Record SessionState := mkSessionState {
  users_key : option (dict User.t);
  current_user_key : option (option User.t);
  messages_key : option (list Message.t);
  groups_key : option (dict Group.t);
  active_chats_key : option (gset string);
  unread_counts_key : option (dict Z);
  current_page_key : option string
}.

Definition empty_session_state : SessionState :=
  mkSessionState None None None None None None None.

Definition stored (s : Session) : SessionState :=
  mkSessionState (Some (users s)) (Some (current_user s)) (Some (messages s))
    (Some (groups s)) (Some (active_chats s)) (Some (unread_counts s))
    (Some (current_page s)).

(** [init_session_state]: each key that is missing gets its default. *)
Definition init_session_state (raw : SessionState) : Session :=
  {| users := default [] (users_key raw);
     current_user := default None (current_user_key raw);
     messages := default [] (messages_key raw);
     groups := default [] (groups_key raw);
     active_chats := default ∅ (active_chats_key raw);
     unread_counts := default [] (unread_counts_key raw);
     current_page := default "login" (current_page_key raw) |}.

(** Assignments to one key of the session state. *)
Definition set_users (f : dict User.t -> dict User.t) (s : Session) : Session :=
  mkSession (f (users s)) (current_user s) (messages s) (groups s)
    (active_chats s) (unread_counts s) (current_page s).

Definition set_current_user (u : option User.t) (s : Session) : Session :=
  mkSession (users s) u (messages s) (groups s)
    (active_chats s) (unread_counts s) (current_page s).

Definition set_messages (f : list Message.t -> list Message.t) (s : Session) : Session :=
  mkSession (users s) (current_user s) (f (messages s)) (groups s)
    (active_chats s) (unread_counts s) (current_page s).

Definition set_groups (f : dict Group.t -> dict Group.t) (s : Session) : Session :=
  mkSession (users s) (current_user s) (messages s) (f (groups s))
    (active_chats s) (unread_counts s) (current_page s).

Definition set_active_chats (f : gset string -> gset string) (s : Session) : Session :=
  mkSession (users s) (current_user s) (messages s) (groups s)
    (f (active_chats s)) (unread_counts s) (current_page s).

Definition set_current_page (p : string) (s : Session) : Session :=
  mkSession (users s) (current_user s) (messages s) (groups s)
    (active_chats s) (unread_counts s) p.

(** ** Scripts *)

(** What ends a run before the end of the script: [st.rerun()], a failed
    lookup of the script, or the framework refusing a call. *)
Inductive Exit :=
| RerunException
| KeyError (k : string)
| AttributeError
| StreamlitAPIException.

Inductive Outcome (A : Type) :=
| Ok (a : A)
| Stop (e : Exit).
Arguments Ok {A} a.
Arguments Stop {A} e.

Definition Script (A : Type) := Session -> Outcome A * Session.

Definition ret {A} (a : A) : Script A := fun s => (Ok a, s).

Definition bind {A B} (m : Script A) (f : A -> Script B) : Script B :=
  fun s => match m s with
           | (Ok a, s') => f a s'
           | (Stop e, s') => (Stop e, s')
           end.

Definition get : Script Session := fun s => (Ok s, s).
Definition modify (f : Session -> Session) : Script unit := fun s => (Ok tt, f s).
Definition raise {A} (e : Exit) : Script A := fun s => (Stop e, s).

Declare Scope script_scope.
Delimit Scope script_scope with script.
Notation "x <- m ; k" := (bind m (fun x => k))
  (at level 20, m at level 100, k at level 200, only parsing) : script_scope.
Notation "m ;; k" := (bind m (fun _ => k))
  (at level 100, k at level 200, only parsing, right associativity) : script_scope.
Local Open Scope script_scope.

Definition when (b : bool) (m : Script unit) : Script unit :=
  if b then m else ret tt.

(** [for x in l: body] *)
Fixpoint for_each {A} (l : list A) (body : A -> Script unit) : Script unit :=
  match l with
  | [] => ret tt
  | x :: l' => body x ;; for_each l' body
  end.

(** [[x for x in l if cond(x)]] where [cond] may raise. *)
Fixpoint comprehension_if {A} (l : list A) (cond : A -> Script bool) : Script (list A) :=
  match l with
  | [] => ret []
  | x :: l' =>
      b <- cond x ;
      r <- comprehension_if l' cond ;
      ret (if b then x :: r else r)
  end.

(** A loop that collects what each round renders. *)
Fixpoint for_each_yield {A B} (l : list A) (body : A -> Script B) : Script (list B) :=
  match l with
  | [] => ret []
  | x :: l' =>
      y <- body x ;
      r <- for_each_yield l' body ;
      ret (y :: r)
  end.

(** [st.rerun()] *)
Definition rerun {A} : Script A := raise RerunException.

(** [d[k]] *)
Definition getitem {V} (d : dict V) (k : string) : Script V :=
  match dict_get k d with
  | Some v => ret v
  | None => raise (KeyError k)
  end.

(** [st.session_state.current_user.<attr>] *)
Definition current_user_attr {A} (attr : User.t -> A) : Script A :=
  s <- get ;
  match current_user s with
  | Some u => ret (attr u)
  | None => raise AttributeError
  end.

(** [st.session_state.active_chats.add(k)] and [.remove(k)] *)
Definition active_chats_add (k : string) : Script unit :=
  modify (set_active_chats (fun a => {[k]} ∪ a)).

Definition active_chats_remove (k : string) : Script unit :=
  s <- get ;
  if decide (k ∈ active_chats s)
  then modify (set_active_chats (fun a => a ∖ {[k]}))
  else raise (KeyError k).

(** ** Widgets of one run *)

(** What the widgets and the environment return in one run.  Every call
    of [uuid.uuid4()] and of [datetime.datetime.now()] in the script is
    followed by [st.rerun()] in the same branch, so a run makes at most
    one call of each.

    The script imports [streamlit] and nothing says which release: up to
    Streamlit 1.45 an [st.expander] entered inside another one raises
    [StreamlitAPIException], from 1.46 on it is drawn.
    [nested_expanders] says which of the two the run is made on. *)
Record UI := mkUI {
  text_input : string -> string;          (* by key, or by label *)
  number_input : string -> Z;
  selectbox : string -> string;
  multiselect : string -> list string;
  button : string -> bool;                (* by key, or by label *)
  form_submit_button : string -> bool;    (* by the key of its form *)
  uuid4 : string;                         (* str(uuid.uuid4()) of this run *)
  now : datetime;                         (* datetime.datetime.now() of this run *)
  class_loaded : datetime;                (* now() when the User class body ran *)
  nested_expanders : bool                 (* an expander may hold an expander *)
}.

(** ** The program *)

(** [get_unread_messages_count]: [sum(1 for msg in ... if ...)]. *)
Definition get_unread_messages_count (s : Session) (user_id : string) : Z :=
  fold_right Z.add 0
    (map (fun _ => 1)
       (List.filter (fun msg => String.eqb (Message.receiver_id msg) user_id
                           && negb (Message.is_read msg))
          (messages s))).

Section Run.
Variable ui : UI.

(** The widgets of the login form are read first, as the script does;
    [age] is whatever the number field holds. *)
Definition login_page : Script unit :=
  let name := text_input ui "Full Name" in
  let age := number_input ui "Age" in
  let gender := selectbox ui "Gender" in
  let submit := form_submit_button ui "login_form" in
  if submit && str_truthy name && negb (String.eqb gender "Select Gender") then
    let user_id := uuid4 ui in
    let new_user := User.mk user_id name age gender true (class_loaded ui) in
    modify (set_users (dict_set user_id new_user)) ;;
    modify (set_current_user (Some new_user)) ;;
    modify (set_current_page "main") ;;
    rerun
  else ret tt.

(** The list comprehension of lines 88-92. *)
Definition chat_messages (other_user_id : string) : Script (list Message.t) :=
  s <- get ;
  comprehension_if (messages s) (fun msg =>
    me <- current_user_attr User.id ;
    ret (str_in (Message.sender_id msg) [me; other_user_id]
         && str_in (Message.receiver_id msg) [me; other_user_id])).

(** The display loop of a chat container: one row per message, made of
    the sender's name and the message. *)
Definition display (msgs : list Message.t) : Script (list (string * Message.t)) :=
  for_each_yield (sorted Message.timestamp msgs) (fun msg =>
    s <- get ;
    sender <- getitem (users s) (Message.sender_id msg) ;
    ret (User.name sender, msg)).

(** [render_chat_window] returns the rows it displays. *)
Definition render_chat_window (other_user_id : string)
  : Script (list (string * Message.t)) :=
  s <- get ;
  other_user <- getitem (users s) other_user_id ;
  chat <- chat_messages other_user_id ;
  let message := text_input ui ("message_input_" ++ other_user_id) in
  let submit := form_submit_button ui ("chat_form_" ++ other_user_id) in
  (if submit && str_truthy message then
     me <- current_user_attr User.id ;
     let new_message :=
       Message.mk (uuid4 ui) me other_user_id message (now ui) false in
     modify (set_messages (fun l => (l ++ [new_message])%list)) ;;
     rerun
   else ret tt) ;;
  display chat.

(** [with st.expander(...)] entered while the body of another expander
    is being drawn. *)
Definition nested_expander : Script unit :=
  if nested_expanders ui then ret tt else raise StreamlitAPIException.

(** [render_group_chat] returns the rows it displays; the loop over the
    members looks each of them up in [users].  Its only call is the one
    of line 258, in the body of the expander of line 256, so its own
    expander of line 143 is a nested one. *)
Definition render_group_chat (group_id : string)
  : Script (list (string * Message.t)) :=
  s <- get ;
  group <- getitem (groups s) group_id ;
  let group_messages :=
    List.filter (fun msg => String.eqb (Message.receiver_id msg) group_id)
      (messages s) in
  nested_expander ;;
  for_each (Group.members group) (fun member_id =>
    s <- get ;
    member <- getitem (users s) member_id ;
    ret tt) ;;
  let message := text_input ui ("group_message_input_" ++ group_id) in
  let submit := form_submit_button ui ("group_chat_form_" ++ group_id) in
  (if submit && str_truthy message then
     me <- current_user_attr User.id ;
     let new_message :=
       Message.mk (uuid4 ui) me group_id message (now ui) false in
     modify (set_messages (fun l => (l ++ [new_message])%list)) ;;
     rerun
   else ret tt) ;;
  display group_messages.

(** The user list of the sidebar of [main_page], lines 188-195. *)
Definition sidebar_users : Script unit :=
  s <- get ;
  for_each (users s) (fun item =>
    let user_id := fst item in
    me <- current_user_attr User.id ;
    when (negb (String.eqb user_id me))
      (when (button ui ("chat_btn_" ++ user_id))
         (active_chats_add user_id))).

(** The group form, lines 201-227; [member_ids] grows by [append] in
    the loop over [available_users]. *)
Definition create_group_form : Script unit :=
  let group_name := text_input ui "Group Name" in
  s <- get ;
  available <- comprehension_if (users s) (fun item =>
    me <- current_user_attr User.id ;
    ret (negb (String.eqb (fst item) me))) ;
  let available_users := map snd available in
  let selected_users := multiselect ui "Add Members" in
  when (form_submit_button ui "create_group_form")
    (if str_truthy group_name && list_truthy selected_users then
       let group_id := uuid4 ui in
       me <- current_user_attr User.id ;
       let member_ids :=
         fold_left (fun ids user =>
                      if str_in (User.name user) selected_users
                      then (ids ++ [User.id user])%list else ids)
           available_users [me] in
       creator <- current_user_attr User.id ;
       let new_group :=
         Group.mk group_id group_name creator member_ids (now ui) in
       modify (set_groups (dict_set group_id new_group)) ;;
       rerun
     else ret tt).

(** The group list, lines 230-236. *)
Definition sidebar_groups : Script unit :=
  s <- get ;
  when (list_truthy (groups s))
    (for_each (groups s) (fun item =>
       let group_id := fst item in
       let group := snd item in
       me <- current_user_attr User.id ;
       when (str_in me (Group.members group))
         (when (button ui ("group_btn_" ++ group_id))
            (active_chats_add ("group_" ++ group_id))))).

(** Lines 239-252: the welcome column and the logout button. *)
Definition header : Script Z :=
  welcome <- current_user_attr User.name ;
  me <- current_user_attr User.id ;
  s <- get ;
  let unread_count := get_unread_messages_count s me in
  (if button ui "🚪 Logout" then
     modify (set_current_user None) ;;
     modify (set_current_page "login") ;;
     rerun
   else ret tt) ;;
  ret unread_count.

(** One round of the loop over the active chats, lines 256-264: the
    title of the expander, then its body. *)
Definition chat_panel (chat_id : string) : Script unit :=
  s <- get ;
  title <- (if negb (startswith chat_id "group_")
            then u <- getitem (users s) chat_id ; ret (User.name u)
            else g <- getitem (groups s) (str_from 6 chat_id) ; ret (Group.name g)) ;
  rows <- (if startswith chat_id "group_"
           then render_group_chat (str_from 6 chat_id)
           else render_chat_window chat_id) ;
  (if button ui ("close_" ++ chat_id) then
     active_chats_remove chat_id ;;
     rerun
   else ret tt).

(** [list(active_chats)] lists the keys of a Python set in an order the
    language leaves open; [elements] is one such order. *)
Definition main_page : Script unit :=
  sidebar_users ;;
  create_group_form ;;
  sidebar_groups ;;
  header ;;
  s <- get ;
  for_each (elements (active_chats s)) chat_panel.

(** [main]: set up the session state, then draw the page it names. *)
Definition main (raw : SessionState) : Outcome unit * Session :=
  let s := init_session_state raw in
  if String.eqb (current_page s) "login" then login_page s else main_page s.

End Run.

(** One run of the script against a session that is already set up. *)
Definition run (ui : UI) (s : Session) : Outcome unit * Session :=
  main ui (stored s).

(** The session of a fresh browser tab. *)
Definition initial : Session := init_session_state empty_session_state.

(** ** Widget values of particular interactions *)

(** The interactions below are written for a Streamlit that draws nested
    expanders; [on_streamlit] moves one to either kind of release. *)
Definition on_streamlit (nest : bool) (ui : UI) : UI :=
  {| text_input := text_input ui;
     number_input := number_input ui;
     selectbox := selectbox ui;
     multiselect := multiselect ui;
     button := button ui;
     form_submit_button := form_submit_button ui;
     uuid4 := uuid4 ui;
     now := now ui;
     class_loaded := class_loaded ui;
     nested_expanders := nest |}.

(** Nothing is pressed and every field is empty or at its default. *)
Definition idle : UI :=
  {| text_input := fun _ => "";
     number_input := fun _ => 25;
     selectbox := fun _ => "Select Gender";
     multiselect := fun _ => [];
     button := fun _ => false;
     form_submit_button := fun _ => false;
     uuid4 := "";
     now := 0;
     class_loaded := 0;
     nested_expanders := true |}.

(** The login form submitted with the given fields. *)
Definition ui_login (name : string) (age : Z) (gender uid : string) : UI :=
  {| text_input := fun k => if String.eqb k "Full Name" then name else "";
     number_input := fun _ => age;
     selectbox := fun _ => gender;
     multiselect := fun _ => [];
     button := fun _ => false;
     form_submit_button := fun k => String.eqb k "login_form";
     uuid4 := uid;
     now := 0;
     class_loaded := 0;
     nested_expanders := true |}.

(** One button pressed, by key. *)
Definition ui_button (key : string) : UI :=
  {| text_input := fun _ => "";
     number_input := fun _ => 25;
     selectbox := fun _ => "Select Gender";
     multiselect := fun _ => [];
     button := fun k => String.eqb k key;
     form_submit_button := fun _ => false;
     uuid4 := "";
     now := 0;
     class_loaded := 0;
     nested_expanders := true |}.

(** One form submitted with one text field and, for the group form, a
    selection. *)
Definition ui_form (form field content : string) (selected : list string)
    (uid : string) (t : datetime) : UI :=
  {| text_input := fun k => if String.eqb k field then content else "";
     number_input := fun _ => 25;
     selectbox := fun _ => "Select Gender";
     multiselect := fun _ => selected;
     button := fun _ => false;
     form_submit_button := fun k => String.eqb k form;
     uuid4 := uid;
     now := t;
     class_loaded := 0;
     nested_expanders := true |}.

Definition ui_open_chat (user_id : string) : UI := ui_button ("chat_btn_" ++ user_id).
Definition ui_open_group (group_id : string) : UI := ui_button ("group_btn_" ++ group_id).
Definition ui_close_chat (chat_id : string) : UI := ui_button ("close_" ++ chat_id).
Definition ui_logout : UI := ui_button "🚪 Logout".

Definition ui_send (other_user_id content uid : string) (t : datetime) : UI :=
  ui_form ("chat_form_" ++ other_user_id) ("message_input_" ++ other_user_id)
    content [] uid t.

Definition ui_send_group (group_id content uid : string) (t : datetime) : UI :=
  ui_form ("group_chat_form_" ++ group_id) ("group_message_input_" ++ group_id)
    content [] uid t.

Definition ui_create_group (name : string) (selected : list string)
    (uid : string) (t : datetime) : UI :=
  ui_form "create_group_form" "Group Name" name selected uid t.

(** A sequence of runs, oldest first. *)
Definition runs (l : list UI) (s : Session) : Session :=
  fold_left (fun s ui => snd (run ui s)) l s.

(** ** Notions the statements are written in *)

(** The order [sorted] puts a list in. *)
Definition le_by {A} (key : A -> Z) (a b : A) : Prop := key a <= key b.

(** A script that leaves the session state as it is, however it ends. *)
Definition quiet {A} (m : Script A) : Prop := forall s, snd (m s) = s.

(** The test of the comprehension in [render_chat_window], for the
    current user [me] and the peer [other]. *)
Definition between (me other : string) (msg : Message.t) : bool :=
  str_in (Message.sender_id msg) [me; other]
  && str_in (Message.receiver_id msg) [me; other].

(** The row displayed for a message. *)
Definition row_of (s : Session) (msg : Message.t) : string * Message.t :=
  (match dict_get (Message.sender_id msg) (users s) with
   | Some sender => User.name sender
   | None => ""
   end, msg).

(** Every stored message was sent by a user of the [users] dictionary. *)
Definition senders_known (s : Session) : Prop :=
  forall msg, In msg (messages s) -> dict_get (Message.sender_id msg) (users s) <> None.

(** [st.session_state.messages.append(msg)] *)
Definition append_message (msg : Message.t) (s : Session) : Session :=
  set_messages (fun l => (l ++ [msg])%list) s.

(** The reading of the specification: the endpoints of the message, as a
    set, are the two users. *)
Definition exact_pair (a b : string) (msg : Message.t) : Prop :=
  ({[Message.sender_id msg; Message.receiver_id msg]} : gset string) = {[a; b]}.

(** A list of messages that is the history of [a] and [b] in that reading. *)
Definition exact_pair_history (s : Session) (a b : string) (shown : list Message.t) : Prop :=
  forall msg, In msg shown <-> In msg (messages s) /\ exact_pair a b msg.

Module Notebook.
(** A store written by hand, in which Alice's note to herself stands
    next to her message to Bob. *)
Definition alice := User.mk "a" "Alice" 30 "Female" true 0.
Definition bob := User.mk "b" "Bob" 31 "Male" true 0.
Definition note := Message.mk "m0" "a" "a" "remember the milk" 1 false.
Definition hi := Message.mk "m1" "a" "b" "hi" 2 false.
Definition session : Session :=
  {| users := [("a", alice); ("b", bob)];
     current_user := Some alice;
     messages := [note; hi];
     groups := [];
     active_chats := {["b"]};
     unread_counts := [];
     current_page := "main" |}.
End Notebook.

(** The session after a successful login. *)
Definition logged_in (u : User.t) (s : Session) : Session :=
  set_current_page "main"
    (set_current_user (Some u) (set_users (dict_set (User.id u) u) s)).

(** The chat buttons pressed in this run, among those the sidebar shows. *)
Definition pressed_chats (ui : UI) (s : Session) (me : string) : list string :=
  List.filter (fun k => negb (String.eqb k me) && button ui ("chat_btn_" ++ k))
    (dict_keys (users s)).

(** [active_chats.add(k)] for each [k] of [ks]. *)
Definition open_chats (ks : list string) (s : Session) : Session :=
  set_active_chats (fun a => list_to_set ks ∪ a) s.

(** The users the form offers: everyone but the current user, in the
    order of the [users] dictionary. *)
Definition available_users (s : Session) (me : string) : list User.t :=
  map snd (List.filter (fun item => negb (String.eqb (fst item) me)) (users s)).

(** The members the form resolves from the selected names. *)
Definition resolved_members (s : Session) (me : string) (selected : list string)
  : list string :=
  me :: map User.id
          (List.filter (fun user => str_in (User.name user) selected)
             (available_users s me)).

(** The group the form builds for the current user [me]. *)
Definition created_group (ui : UI) (s : Session) (me : string) : Group.t :=
  Group.mk (uuid4 ui) (text_input ui "Group Name") me
    (resolved_members s me (multiselect ui "Add Members")) (now ui).

(** The group form is submitted with a name and a selection. *)
Definition group_request (ui : UI) : bool :=
  form_submit_button ui "create_group_form"
  && (str_truthy (text_input ui "Group Name")
      && list_truthy (multiselect ui "Add Members")).

(** The chat keys of the group buttons pressed in this run, among those
    the sidebar shows. *)
Definition pressed_groups (ui : UI) (s : Session) (me : string) : list string :=
  map (fun item => "group_" ++ fst item)
    (List.filter (fun item => str_in me (Group.members (snd item))
                              && button ui ("group_btn_" ++ fst item))
       (groups s)).

(** The session after the logout button. *)
Definition logged_out (s : Session) : Session :=
  set_current_page "login" (set_current_user None s).

(** The send form of the panel of [chat_id] is submitted with a text. *)
Definition sends (ui : UI) (chat_id : string) : bool :=
  if startswith chat_id "group_"
  then form_submit_button ui ("group_chat_form_" ++ str_from 6 chat_id)
       && str_truthy (text_input ui ("group_message_input_" ++ str_from 6 chat_id))
  else form_submit_button ui ("chat_form_" ++ chat_id)
       && str_truthy (text_input ui ("message_input_" ++ chat_id)).

(** The message the panel of [chat_id] sends for the user [me]. *)
Definition sent_message (ui : UI) (me chat_id : string) : Message.t :=
  if startswith chat_id "group_"
  then Message.mk (uuid4 ui) me (str_from 6 chat_id)
         (text_input ui ("group_message_input_" ++ str_from 6 chat_id)) (now ui) false
  else Message.mk (uuid4 ui) me chat_id
         (text_input ui ("message_input_" ++ chat_id)) (now ui) false.

(** The key of a panel names a user, or a group whose members are users. *)
Definition panel_target (s : Session) (chat_id : string) : Prop :=
  if startswith chat_id "group_"
  then exists g, dict_get (str_from 6 chat_id) (groups s) = Some g
                 /\ Forall (fun member => dict_get member (users s) <> None)
                      (Group.members g)
  else dict_get chat_id (users s) <> None.

(** [active_chats.remove(chat_id)] for a key that is present. *)
Definition close_chat (chat_id : string) (s : Session) : Session :=
  set_active_chats (fun a => a ∖ {[chat_id]}) s.

(** The user the login form builds. *)
Definition new_user (ui : UI) : User.t :=
  User.mk (uuid4 ui) (text_input ui "Full Name") (number_input ui "Age")
    (selectbox ui "Gender") true (class_loaded ui).

(** The assignments the script can make to the session state, with what
    the script has checked when it makes them. *)
Inductive effect (ui : UI) : Session -> Session -> Prop :=
| eff_login s :
    current_page s = "login" ->
    effect ui s (logged_in (new_user ui) s)
| eff_open_chat s me k :
    current_user s = Some me ->
    In k (dict_keys (users s)) ->
    k <> User.id me ->
    effect ui s (set_active_chats (fun a => {[k]} ∪ a) s)
| eff_create_group s me :
    current_user s = Some me ->
    effect ui s
      (set_groups (dict_set (uuid4 ui) (created_group ui s (User.id me))) s)
| eff_open_group s me gid g :
    current_user s = Some me ->
    In (gid, g) (groups s) ->
    In (User.id me) (Group.members g) ->
    effect ui s (set_active_chats (fun a => {["group_" ++ gid]} ∪ a) s)
| eff_logout s me :
    current_user s = Some me ->
    effect ui s (logged_out s)
| eff_send s me c :
    current_user s = Some me ->
    c ∈ active_chats s ->
    effect ui s (append_message (sent_message ui (User.id me) c) s)
| eff_close s me c :
    current_user s = Some me ->
    c ∈ active_chats s ->
    effect ui s (close_chat c s).

(** Nobody is logged in exactly on the login page. *)
Definition page_invariant (s : Session) : Prop :=
  current_user s = None <-> current_page s = "login".

(** No stored message has been marked as read. *)
Definition all_unread (s : Session) : Prop :=
  Forall (fun msg => Message.is_read msg = false) (messages s).

(** The messages of the store addressed to [user_id]. *)
Definition sent_to (s : Session) (user_id : string) : list Message.t :=
  List.filter (fun msg => String.eqb (Message.receiver_id msg) user_id) (messages s).

Module Scenario.
(** U joins and leaves; A joins, opens the chat with U and sends three
    messages. *)
Definition three_messages : list UI :=
  [ ui_login "U" 40 "Other" "u";
    ui_logout;
    ui_login "A" 30 "Female" "a";
    ui_open_chat "u";
    ui_send "u" "one" "m1" 1;
    ui_send "u" "two" "m2" 2;
    ui_send "u" "three" "m3" 3 ].

(** U and V join and leave; A joins, opens the chats with both and
    writes to U, to V, and twice more to U, her clock jumping back
    before the last message. *)
Definition two_peers : list UI :=
  [ ui_login "U" 40 "Other" "u"; ui_logout;
    ui_login "V" 41 "Other" "v"; ui_logout;
    ui_login "A" 30 "Female" "a";
    ui_open_chat "u"; ui_open_chat "v";
    ui_send "u" "one" "m1" 5;
    ui_send "v" "aside" "m2" 6;
    ui_send "u" "two" "m3" 7;
    ui_send "u" "three" "m4" 5 ].

Definition one := Message.mk "m1" "a" "u" "one" 5 false.
Definition aside := Message.mk "m2" "a" "v" "aside" 6 false.
Definition two := Message.mk "m3" "a" "u" "two" 7 false.
Definition three := Message.mk "m4" "a" "u" "three" 5 false.
End Scenario.



Module Team.
(** Alice, Bob and Carol join in turn, and Carol creates a group with
    Alice and Bob. *)
Definition alice_first : list UI :=
  [ ui_login "Alice" 30 "Female" "a"; ui_logout;
    ui_login "Bob" 31 "Male" "b"; ui_logout;
    ui_login "Carol" 32 "Other" "c";
    ui_create_group "Team" ["Alice"; "Bob"] "g" 9 ].


(** Two users named Bob, one joining before Alice and one after; Carol
    selects Alice, then Bob. *)
Definition namesakes : list UI :=
  [ ui_login "Bob" 31 "Male" "b1"; ui_logout;
    ui_login "Alice" 30 "Female" "a"; ui_logout;
    ui_login "Bob" 45 "Male" "b2"; ui_logout;
    ui_login "Carol" 32 "Other" "c";
    ui_create_group "Team" ["Alice"; "Bob"] "g" 9 ].

(** Carol's session when only Alice joined before her. *)
Definition carol_after_alice : Session :=
  runs [ ui_login "Alice" 30 "Female" "a"; ui_logout;
         ui_login "Carol" 32 "Other" "c" ] initial.

(** Carol's session when two users named Bob joined before her. *)
Definition carol_after_bobs : Session :=
  runs [ ui_login "Bob" 31 "Male" "b1"; ui_logout;
         ui_login "Bob" 45 "Male" "b2"; ui_logout;
         ui_login "Carol" 32 "Other" "c" ] initial.

(** Alice's session when only Bob joined before her; no chat is open. *)
Definition alice_after_bob : Session :=
  runs [ ui_login "Bob" 31 "Male" "b"; ui_logout;
         ui_login "Alice" 30 "Female" "a" ] initial.

(** The same once Alice has opened her chat with Bob. *)
Definition alice_chatting : Session :=
  runs [ ui_login "Bob" 31 "Male" "b"; ui_logout;
         ui_login "Alice" 30 "Female" "a";
         ui_open_chat "b" ] initial.


(** Bob and Dan join and leave; Alice joins and opens her chats with
    both. *)
Definition two_chats : list UI :=
  [ ui_login "Bob" 31 "Male" "b"; ui_logout;
    ui_login "Dan" 33 "Male" "d"; ui_logout;
    ui_login "Alice" 30 "Female" "a";
    ui_open_chat "b"; ui_open_chat "d" ].
End Team.

(** The entries of [users] the group form turns into members. *)
Definition named_members (s : Session) (me : string) (selected : list string)
  : dict User.t :=
  List.filter (fun item => negb (String.eqb (fst item) me)
                           && str_in (User.name (snd item)) selected)
    (users s).

(** The run in which the chat button of a user, or the close button of a
    panel, is the widget that fired, on a Streamlit that draws nested
    expanders. *)
Definition openChat (k : string) (s : Session) : Session :=
  snd (run (ui_open_chat k) s).

Definition closeChat (k : string) (s : Session) : Session :=
  snd (run (ui_close_chat k) s).

(** The sidebar shows a chat button for [k]. *)
Definition offers_chat (s : Session) (k : string) : bool :=
  negb (String.eqb (current_page s) "login")
  && match current_user s with
     | Some me => negb (String.eqb k (User.id me)) && str_in k (dict_keys (users s))
     | None => false
     end.

(** [active_chats.add(k)] *)
Definition open_chat (k : string) (s : Session) : Session :=
  set_active_chats (fun a => {[k]} ∪ a) s.

(** Every lookup the panels of the page make finds its key. *)
Definition renders (s : Session) : Prop :=
  senders_known s /\ forall c, c ∈ active_chats s -> panel_target s c.

Module Lobby.
(** Carol's session once the team exists. *)
Definition session : Session := runs Team.alice_first initial.

(** Carol writes to Alice, then three times to the team; her clock
    jumps back after the first message to the team. *)
Definition chatter : list UI :=
  (Team.alice_first
   ++ [ ui_open_chat "a"; ui_send "a" "psst" "m0" 4;
        ui_open_group "g";
        ui_send_group "g" "hello" "m1" 7;
        ui_send_group "g" "anyone" "m2" 5;
        ui_send_group "g" "there" "m3" 5 ])%list.

Definition psst := Message.mk "m0" "c" "a" "psst" 4 false.
Definition hello := Message.mk "m1" "c" "g" "hello" 7 false.
Definition anyone := Message.mk "m2" "c" "g" "anyone" 5 false.
Definition there := Message.mk "m3" "c" "g" "there" 5 false.
End Lobby.

(** What the pages rely on when they index [users] and [groups]. *)
Record well_formed (s : Session) : Prop := {
  wf_keys : Forall (fun item => User.id (snd item) = fst item) (users s);
  wf_plain : Forall (fun item => startswith (fst item) "group_" = false) (users s);
  wf_current : forall me, current_user s = Some me ->
                          dict_get (User.id me) (users s) <> None;
  wf_senders : senders_known s;
  wf_members : Forall (fun item =>
                         Forall (fun member => dict_get member (users s) <> None)
                           (Group.members (snd item)))
                 (groups s);
  wf_targets : forall c, c ∈ active_chats s -> panel_target s c
}.

(** [uuid4()] never returns a string that starts with [group_]. *)
Definition plain_uuid (ui : UI) : Prop := startswith (uuid4 ui) "group_" = false.

(** A panel the Streamlit of the run draws: every panel where expanders
    nest, the panels of direct chats where they do not. *)
Definition draws (ui : UI) (chat_id : string) : bool :=
  nested_expanders ui || negb (startswith chat_id "group_").

(** No group chat is open. *)
Definition direct_only (s : Session) : Prop :=
  forall c, c ∈ active_chats s -> startswith c "group_" = false.

(** The run in which the close button of a panel is the widget that
    fired, on a Streamlit that draws nested expanders or on one that
    does not. *)
Definition closeChatOn (nest : bool) (k : string) (s : Session) : Session :=
  snd (run (on_streamlit nest (ui_close_chat k)) s).

(** The contract of [uuid4()]: the id of a run is none of the ids under
    which a user or a group is stored. *)
Definition fresh_uuid (ui : UI) (s : Session) : Prop :=
  dict_get (uuid4 ui) (users s) = None
  /\ dict_get (uuid4 ui) (groups s) = None
  /\ plain_uuid ui.

(** A sequence of runs from [s] in each of which [uuid4()] keeps to it. *)
Fixpoint fresh_runs (l : list UI) (s : Session) : Prop :=
  match l with
  | [] => True
  | ui :: l' => fresh_uuid ui s /\ fresh_runs l' (snd (run ui s))
  end.

(** The effects that leave [users] and [groups] alone. *)
Definition opening (ui : UI) (s s' : Session) : Prop :=
  effect ui s s' /\ users s' = users s /\ groups s' = groups s.

(** What sessions built with fresh ids have on top of [well_formed]: no
    id names both a user and a group, no open direct chat is with the
    current user, and no message went from a user to that same user. *)
Record tidy (s : Session) : Prop := {
  tidy_wf : well_formed s;
  tidy_ids : forall k, dict_get k (users s) <> None -> dict_get k (groups s) = None;
  tidy_peers : forall c me, c ∈ active_chats s -> startswith c "group_" = false ->
                            current_user s = Some me -> c <> User.id me;
  tidy_messages : forall msg, In msg (messages s) ->
                              Message.sender_id msg <> Message.receiver_id msg
}.

(** The run in which the button of a group is the widget that fired, on
    a Streamlit that draws nested expanders. *)
Definition openGroupChat (gid : string) (s : Session) : Session :=
  snd (run (ui_open_group gid) s).

(** The sidebar shows a button for a group stored under [gid]: the page
    is the main page and the current user is among its members. *)
Definition offers_group (s : Session) (gid : string) : bool :=
  negb (String.eqb (current_page s) "login")
  && match current_user s with
     | Some me =>
         existsb (fun item => str_in (User.id me) (Group.members (snd item))
                              && String.eqb (fst item) gid)
           (groups s)
     | None => false
     end.

(** Every stored user has [online] set. *)
Definition all_online (s : Session) : Prop :=
  Forall (fun item => User.online (snd item) = true) (users s).

(** ** Reasoning about scripts *)

Lemma bind_ok {A B} (m : Script A) (f : A -> Script B) s a s' :
  m s = (Ok a, s') -> bind m f s = f a s'.
Proof. unfold bind. now intros ->. Qed.

Lemma bind_stop {A B} (m : Script A) (f : A -> Script B) s e s' :
  m s = (Stop e, s') -> bind m f s = (Stop e, s').
Proof. unfold bind. now intros ->. Qed.

Lemma bind_get {B} (f : Session -> Script B) s : bind get f s = f s s.
Proof. reflexivity. Qed.

Lemma bind_ret {A B} (a : A) (f : A -> Script B) s : bind (ret a) f s = f a s.
Proof. reflexivity. Qed.

Lemma current_user_attr_some {A} (attr : User.t -> A) s me :
  current_user s = Some me -> current_user_attr attr s = (Ok (attr me), s).
Proof. unfold current_user_attr, bind, get, ret. now intros ->. Qed.

Lemma current_user_attr_none {A} (attr : User.t -> A) s :
  current_user s = None -> current_user_attr attr s = (Stop AttributeError, s).
Proof. unfold current_user_attr, bind, get, raise. now intros ->. Qed.

Lemma getitem_some {V} (d : dict V) k v s :
  dict_get k d = Some v -> getitem d k s = (Ok v, s).
Proof. unfold getitem. now intros ->. Qed.

Lemma getitem_none {V} (d : dict V) k s :
  dict_get k d = None -> getitem d k s = (Stop (KeyError k), s).
Proof. unfold getitem. now intros ->. Qed.

(** *** Scripts that leave the session state as it is *)

Lemma quiet_ret {A} (a : A) : quiet (ret a).
Proof. now intros s. Qed.

Lemma quiet_raise {A} e : quiet (@raise A e).
Proof. now intros s. Qed.

Lemma quiet_get : quiet get.
Proof. now intros s. Qed.

Lemma quiet_bind {A B} (m : Script A) (f : A -> Script B) :
  quiet m -> (forall a, quiet (f a)) -> quiet (bind m f).
Proof.
  intros Hm Hf s. unfold bind. specialize (Hm s).
  destruct (m s) as [[a|e] s']; cbn in *; subst; [apply Hf | reflexivity].
Qed.

Lemma quiet_getitem {V} (d : dict V) k : quiet (getitem d k).
Proof. intros s. unfold getitem. now destruct (dict_get k d). Qed.

Lemma quiet_current_user_attr {A} (attr : User.t -> A) : quiet (current_user_attr attr).
Proof.
  intros s. unfold current_user_attr, bind, get. cbn. now destruct (current_user s).
Qed.

Lemma quiet_for_each {A} (l : list A) body :
  (forall x, In x l -> quiet (body x)) -> quiet (for_each l body).
Proof.
  induction l as [|x l IH]; intros H; cbn.
  - apply quiet_ret.
  - apply quiet_bind; [apply H; now left | intros _; apply IH].
    intros y Hy. apply H. now right.
Qed.

Lemma quiet_comprehension_if {A} (l : list A) cond :
  (forall x, quiet (cond x)) -> quiet (comprehension_if l cond).
Proof.
  intros H. induction l as [|x l IH]; cbn.
  - apply quiet_ret.
  - apply quiet_bind; [apply H | intros b].
    apply quiet_bind; [apply IH | intros r; apply quiet_ret].
Qed.

Lemma quiet_for_each_yield {A B} (l : list A) (body : A -> Script B) :
  (forall x, quiet (body x)) -> quiet (for_each_yield l body).
Proof.
  intros H. induction l as [|x l IH]; cbn.
  - apply quiet_ret.
  - apply quiet_bind; [apply H | intros b].
    apply quiet_bind; [apply IH | intros r; apply quiet_ret].
Qed.

Create HintDb quiet.

Ltac quiet_step :=
  first
    [ apply quiet_ret | apply quiet_raise | apply quiet_get
    | apply quiet_getitem | apply quiet_current_user_attr
    | apply quiet_bind; [| intros ?]
    | apply quiet_comprehension_if; intros ?
    | apply quiet_for_each_yield; intros ?
    | solve [auto with quiet] ].

Ltac quiet_auto := repeat quiet_step.

(** *** Loops whose tests and bodies do not raise *)

Lemma comprehension_if_filter {A} (l : list A) cond (p : A -> bool) s :
  (forall x, In x l -> cond x s = (Ok (p x), s)) ->
  comprehension_if l cond s = (Ok (List.filter p l), s).
Proof.
  induction l as [|x l IH]; intros H; cbn; [reflexivity|].
  rewrite (bind_ok _ _ _ _ _ (H x (or_introl eq_refl))).
  rewrite (bind_ok _ _ _ _ _ (IH (fun y Hy => H y (or_intror Hy)))).
  unfold ret. now destruct (p x).
Qed.

Lemma for_each_yield_map {A B} (l : list A) (body : A -> Script B) (g : A -> B) s :
  (forall x, In x l -> body x s = (Ok (g x), s)) ->
  for_each_yield l body s = (Ok (map g l), s).
Proof.
  induction l as [|x l IH]; intros H; cbn; [reflexivity|].
  rewrite (bind_ok _ _ _ _ _ (H x (or_introl eq_refl))).
  now rewrite (bind_ok _ _ _ _ _ (IH (fun y Hy => H y (or_intror Hy)))).
Qed.

Lemma for_each_ok {A} (l : list A) body s :
  (forall x, In x l -> body x s = (Ok tt, s)) ->
  for_each l body s = (Ok tt, s).
Proof.
  induction l as [|x l IH]; intros H; cbn; [reflexivity|].
  rewrite (bind_ok _ _ _ _ _ (H x (or_introl eq_refl))).
  apply IH. intros y Hy. apply H. now right.
Qed.

(** ** [sorted] *)

Section SortedFacts.
Context {A : Type} (key : A -> Z).

Lemma insert_by_perm x l : Permutation (insert_by key x l) (x :: l).
Proof.
  induction l as [|y l IH]; cbn; [reflexivity|].
  destruct (key x <=? key y); [reflexivity|].
  rewrite IH. apply perm_swap.
Qed.

Lemma sorted_perm l : Permutation (sorted key l) l.
Proof.
  induction l as [|x l IH]; cbn; [reflexivity|].
  rewrite insert_by_perm. now constructor.
Qed.

Lemma sorted_In l x : In x (sorted key l) <-> In x l.
Proof.
  split; apply Permutation_in; [| symmetry]; apply sorted_perm.
Qed.

Lemma insert_by_sorted x l :
  StronglySorted (le_by key) l -> StronglySorted (le_by key) (insert_by key x l).
Proof.
  induction 1 as [|y l Hl IH Hy]; cbn.
  - repeat constructor.
  - destruct (Z.leb_spec (key x) (key y)) as [Hxy|Hxy].
    + constructor; [now constructor|].
      constructor; [exact Hxy|].
      eapply List.Forall_impl; [|exact Hy]. intros z Hz. unfold le_by in *. lia.
    + constructor; [exact IH|].
      apply List.Forall_forall. intros z Hz.
      apply (Permutation_in _ (insert_by_perm x l)) in Hz.
      destruct Hz as [<-|Hz]; [unfold le_by; lia|].
      now apply (proj1 (List.Forall_forall _ _) Hy).
Qed.

Lemma sorted_sorted l : StronglySorted (le_by key) (sorted key l).
Proof.
  induction l as [|x l IH]; cbn; [constructor | now apply insert_by_sorted].
Qed.

(** Stability: messages with the same timestamp keep their order. *)
Lemma insert_by_stable k x l :
  List.filter (fun y => key y =? k) (insert_by key x l)
  = List.filter (fun y => key y =? k) (x :: l).
Proof.
  induction l as [|y l IH]; [reflexivity|].
  cbn [insert_by]. destruct (Z.leb_spec (key x) (key y)) as [Hxy|Hxy]; [reflexivity|].
  cbn [List.filter] in *. rewrite IH.
  destruct (Z.eqb_spec (key x) k), (Z.eqb_spec (key y) k); try reflexivity. lia.
Qed.

Lemma sorted_stable k l :
  List.filter (fun y => key y =? k) (sorted key l)
  = List.filter (fun y => key y =? k) l.
Proof.
  induction l as [|x l IH]; [reflexivity|].
  cbn [sorted]. rewrite insert_by_stable. cbn. now rewrite IH.
Qed.
End SortedFacts.

(** ** Strings and dictionaries *)

Lemma str_in_In x l : str_in x l = true <-> In x l.
Proof.
  induction l as [|y l IH]; cbn; [easy|].
  rewrite orb_true_iff, IH, String.eqb_eq. intuition congruence.
Qed.

Lemma dict_get_keys {V} k (d : dict V) : In k (dict_keys d) <-> dict_get k d <> None.
Proof.
  induction d as [|[k' v'] d IH]; cbn; [easy|].
  destruct (String.eqb_spec k k') as [->|Hne].
  - split; [discriminate | now left].
  - rewrite <- IH. intuition congruence.
Qed.


Lemma dict_get_set {V} k (v : V) d k' :
  dict_get k' (dict_set k v d) = if String.eqb k' k then Some v else dict_get k' d.
Proof.
  induction d as [|[k0 v0] d IH]; cbn.
  - reflexivity.
  - destruct (String.eqb_spec k k0) as [->|Hne]; cbn.
    + now destruct (String.eqb k' k0).
    + rewrite IH. destruct (String.eqb_spec k' k0) as [->|Hne'].
      * destruct (String.eqb_spec k0 k); [congruence | reflexivity].
      * reflexivity.
Qed.

(** ** Chat windows *)

Lemma chat_messages_some s me other :
  current_user s = Some me ->
  chat_messages other s
  = (Ok (List.filter (between (User.id me) other) (messages s)), s).
Proof.
  intros Hme. unfold chat_messages. rewrite bind_get.
  apply comprehension_if_filter. intros msg _.
  now rewrite (bind_ok _ _ _ _ _ (current_user_attr_some _ _ _ Hme)).
Qed.

Lemma quiet_chat_messages other : quiet (chat_messages other).
Proof. unfold chat_messages. quiet_auto. Qed.

Lemma quiet_display msgs : quiet (display msgs).
Proof. unfold display. quiet_auto. Qed.

#[local] Hint Resolve quiet_chat_messages quiet_display : quiet.

Lemma display_ok msgs s :
  (forall msg, In msg msgs -> dict_get (Message.sender_id msg) (users s) <> None) ->
  display msgs s = (Ok (map (row_of s) (sorted Message.timestamp msgs)), s).
Proof.
  intros H. unfold display. apply for_each_yield_map. intros msg Hin.
  apply sorted_In in Hin. specialize (H msg Hin).
  rewrite bind_get. unfold row_of.
  destruct (dict_get (Message.sender_id msg) (users s)) as [u|] eqn:Hu; [|easy].
  now rewrite (bind_ok _ _ _ _ _ (getitem_some _ _ _ _ Hu)).
Qed.

(** A chat window whose form is not submitted with a text changes nothing. *)
Lemma quiet_render_chat_window ui other :
  form_submit_button ui ("chat_form_" ++ other)
  && str_truthy (text_input ui ("message_input_" ++ other)) = false ->
  quiet (render_chat_window ui other).
Proof.
  intros H. unfold render_chat_window. rewrite H.
  quiet_auto.
Qed.

Lemma quiet_nested_expander ui : quiet (nested_expander ui).
Proof. unfold nested_expander. destruct (nested_expanders ui); quiet_auto. Qed.

#[local] Hint Resolve quiet_nested_expander : quiet.

Lemma quiet_render_group_chat ui gid :
  form_submit_button ui ("group_chat_form_" ++ gid)
  && str_truthy (text_input ui ("group_message_input_" ++ gid)) = false ->
  quiet (render_group_chat ui gid).
Proof.
  intros H. unfold render_group_chat. rewrite H.
  quiet_auto.
  apply quiet_for_each. intros member _. quiet_auto.
Qed.

Lemma nested_expander_ok ui s :
  nested_expanders ui = true -> nested_expander ui s = (Ok tt, s).
Proof. unfold nested_expander. now intros ->. Qed.

Lemma nested_expander_refused ui s :
  nested_expanders ui = false ->
  nested_expander ui s = (Stop StreamlitAPIException, s).
Proof. unfold nested_expander. now intros ->. Qed.

Lemma render_chat_window_send ui s me other other_user :
  current_user s = Some me ->
  dict_get other (users s) = Some other_user ->
  form_submit_button ui ("chat_form_" ++ other)
  && str_truthy (text_input ui ("message_input_" ++ other)) = true ->
  render_chat_window ui other s
  = (Stop RerunException,
     append_message
       (Message.mk (uuid4 ui) (User.id me) other
          (text_input ui ("message_input_" ++ other)) (now ui) false) s).
Proof.
  intros Hme Hother Hsend. unfold render_chat_window.
  rewrite bind_get.
  rewrite (bind_ok _ _ _ _ _ (getitem_some _ _ _ _ Hother)).
  rewrite (bind_ok _ _ _ _ _ (chat_messages_some _ _ other Hme)).
  rewrite Hsend. cbv iota.
  unfold bind at 1 2. now rewrite (current_user_attr_some _ _ _ Hme).
Qed.

Lemma render_chat_window_show ui s me other other_user :
  current_user s = Some me ->
  dict_get other (users s) = Some other_user ->
  senders_known s ->
  form_submit_button ui ("chat_form_" ++ other)
  && str_truthy (text_input ui ("message_input_" ++ other)) = false ->
  render_chat_window ui other s
  = (Ok (map (row_of s)
           (sorted Message.timestamp
              (List.filter (between (User.id me) other) (messages s)))), s).
Proof.
  intros Hme Hother Hknown Hquiet. unfold render_chat_window.
  rewrite bind_get.
  rewrite (bind_ok _ _ _ _ _ (getitem_some _ _ _ _ Hother)).
  rewrite (bind_ok _ _ _ _ _ (chat_messages_some _ _ other Hme)).
  rewrite Hquiet. cbv iota. rewrite bind_ret.
  apply display_ok. intros msg Hin. apply Hknown.
  now apply List.filter_In in Hin.
Qed.

Lemma members_loop_ok s (l : list string) :
  Forall (fun member => dict_get member (users s) <> None) l ->
  for_each l (fun member_id =>
    s <- get ; member <- getitem (users s) member_id ; ret tt) s = (Ok tt, s).
Proof.
  intros H. apply for_each_ok. intros member Hin.
  rewrite bind_get.
  pose proof (proj1 (List.Forall_forall _ _) H member Hin) as Hm.
  destruct (dict_get member (users s)) as [u|] eqn:Hu; [|easy].
  now rewrite (bind_ok _ _ _ _ _ (getitem_some _ _ _ _ Hu)).
Qed.

Lemma render_group_chat_send ui s me gid g :
  current_user s = Some me ->
  dict_get gid (groups s) = Some g ->
  Forall (fun member => dict_get member (users s) <> None) (Group.members g) ->
  nested_expanders ui = true ->
  form_submit_button ui ("group_chat_form_" ++ gid)
  && str_truthy (text_input ui ("group_message_input_" ++ gid)) = true ->
  render_group_chat ui gid s
  = (Stop RerunException,
     append_message
       (Message.mk (uuid4 ui) (User.id me) gid
          (text_input ui ("group_message_input_" ++ gid)) (now ui) false) s).
Proof.
  intros Hme Hg Hmem Hnest Hsend. unfold render_group_chat.
  rewrite bind_get.
  rewrite (bind_ok _ _ _ _ _ (getitem_some _ _ _ _ Hg)).
  rewrite (bind_ok _ _ _ _ _ (nested_expander_ok _ _ Hnest)).
  rewrite (bind_ok _ _ _ _ _ (members_loop_ok _ _ Hmem)).
  rewrite Hsend. cbv iota.
  unfold bind at 1 2. now rewrite (current_user_attr_some _ _ _ Hme).
Qed.

Lemma render_group_chat_show ui s gid g :
  dict_get gid (groups s) = Some g ->
  Forall (fun member => dict_get member (users s) <> None) (Group.members g) ->
  senders_known s ->
  nested_expanders ui = true ->
  form_submit_button ui ("group_chat_form_" ++ gid)
  && str_truthy (text_input ui ("group_message_input_" ++ gid)) = false ->
  render_group_chat ui gid s
  = (Ok (map (row_of s)
           (sorted Message.timestamp
              (List.filter (fun msg => String.eqb (Message.receiver_id msg) gid)
                 (messages s)))), s).
Proof.
  intros Hg Hmem Hknown Hnest Hquiet. unfold render_group_chat.
  rewrite bind_get.
  rewrite (bind_ok _ _ _ _ _ (getitem_some _ _ _ _ Hg)).
  rewrite (bind_ok _ _ _ _ _ (nested_expander_ok _ _ Hnest)).
  rewrite (bind_ok _ _ _ _ _ (members_loop_ok _ _ Hmem)).
  rewrite Hquiet. cbv iota. rewrite bind_ret.
  apply display_ok. intros msg Hin. apply Hknown.
  now apply List.filter_In in Hin.
Qed.

(** Where expanders do not nest, the group chat of a stored group stops
    at its list of members, before its form and its history. *)
Lemma render_group_chat_refused ui s gid g :
  dict_get gid (groups s) = Some g ->
  nested_expanders ui = false ->
  render_group_chat ui gid s = (Stop StreamlitAPIException, s).
Proof.
  intros Hg Hnest. unfold render_group_chat.
  rewrite bind_get.
  rewrite (bind_ok _ _ _ _ _ (getitem_some _ _ _ _ Hg)).
  now rewrite (bind_stop _ _ _ _ _ (nested_expander_refused _ _ Hnest)).
Qed.

(** *** C1: the history a chat window shows *)

Lemma between_spec a b msg :
  between a b msg = true
  <-> In (Message.sender_id msg) [a; b] /\ In (Message.receiver_id msg) [a; b].
Proof. unfold between. now rewrite andb_true_iff, !str_in_In. Qed.

Lemma between_exact a b msg :
  Message.sender_id msg <> Message.receiver_id msg ->
  between a b msg = true <-> exact_pair a b msg.
Proof.
  intros Hne. rewrite between_spec. unfold exact_pair. cbn [In].
  split.
  - intros [[Hs|[Hs|[]]] [Hr|[Hr|[]]]];
      try (exfalso; congruence); rewrite <- Hs, <- Hr; set_solver.
  - intros H.
    assert (Hs : Message.sender_id msg ∈ ({[a; b]} : gset string)) by (rewrite <- H; set_solver).
    assert (Hr : Message.receiver_id msg ∈ ({[a; b]} : gset string)) by (rewrite <- H; set_solver).
    apply elem_of_union in Hs as [Hs|Hs]; apply elem_of_union in Hr as [Hr|Hr];
      apply elem_of_singleton in Hs, Hr; auto.
Qed.

(** *** C5: sending *)

Lemma str_truthy_ne x : x <> "" -> str_truthy x = true.
Proof. now destruct x. Qed.

(** C5: a chat window whose send form is submitted with a text that is
    not empty ends the run in a rerun with exactly one message appended
    to the store: unread, stamped with the time of the run, sent by the
    current user, and received by the peer of a direct chat or by the
    group of a group chat; with an empty text, or with its form not
    submitted, either window leaves the session as it is.  The direct
    window needs its peer stored; the group window needs its group and
    the members stored, and a Streamlit that draws its list of
    members. *)
Theorem send_message ui s me :
  current_user s = Some me ->
  (forall other other_user,
     dict_get other (users s) = Some other_user ->
     form_submit_button ui ("chat_form_" ++ other) = true ->
     text_input ui ("message_input_" ++ other) <> "" ->
     render_chat_window ui other s
     = (Stop RerunException,
        append_message
          (Message.mk (uuid4 ui) (User.id me) other
             (text_input ui ("message_input_" ++ other)) (now ui) false) s)
     /\ messages (snd (render_chat_window ui other s))
        = (messages s
           ++ [Message.mk (uuid4 ui) (User.id me) other
                 (text_input ui ("message_input_" ++ other)) (now ui) false])%list)
  /\ (forall gid g,
        dict_get gid (groups s) = Some g ->
        Forall (fun member => dict_get member (users s) <> None) (Group.members g) ->
        nested_expanders ui = true ->
        form_submit_button ui ("group_chat_form_" ++ gid) = true ->
        text_input ui ("group_message_input_" ++ gid) <> "" ->
        render_group_chat ui gid s
        = (Stop RerunException,
           append_message
             (Message.mk (uuid4 ui) (User.id me) gid
                (text_input ui ("group_message_input_" ++ gid)) (now ui) false) s)
        /\ messages (snd (render_group_chat ui gid s))
           = (messages s
              ++ [Message.mk (uuid4 ui) (User.id me) gid
                    (text_input ui ("group_message_input_" ++ gid)) (now ui) false])%list)
  /\ (forall other,
        text_input ui ("message_input_" ++ other) = "" ->
        snd (render_chat_window ui other s) = s)
  /\ (forall gid,
        text_input ui ("group_message_input_" ++ gid) = "" ->
        snd (render_group_chat ui gid s) = s)
  /\ (forall other,
        form_submit_button ui ("chat_form_" ++ other) = false ->
        snd (render_chat_window ui other s) = s)
  /\ (forall gid,
        form_submit_button ui ("group_chat_form_" ++ gid) = false ->
        snd (render_group_chat ui gid s) = s).
Proof.
  intros Hme. split; [|split; [|split; [|split; [|split]]]].
  - intros other other_user Hother Hsub Htext.
    rewrite (render_chat_window_send ui s me other other_user Hme Hother);
      [now split|].
    now rewrite Hsub, (str_truthy_ne _ Htext).
  - intros gid g Hg Hmem Hnest Hsub Htext.
    rewrite (render_group_chat_send ui s me gid g Hme Hg Hmem Hnest);
      [now split|].
    now rewrite Hsub, (str_truthy_ne _ Htext).
  - intros other Htext. apply quiet_render_chat_window.
    rewrite Htext. apply andb_false_r.
  - intros gid Htext. apply quiet_render_group_chat.
    rewrite Htext. apply andb_false_r.
  - intros other Hsub. apply quiet_render_chat_window. now rewrite Hsub.
  - intros gid Hsub. apply quiet_render_group_chat. now rewrite Hsub.
Qed.

Lemma send_message_witness :
  render_chat_window (ui_send "b" "hi" "m" 3) "b" Team.alice_chatting
  = (Stop RerunException,
     append_message (Message.mk "m" "a" "b" "hi" 3 false) Team.alice_chatting)
  /\ render_group_chat (ui_send_group "g" "hello" "m" 12) "g" Lobby.session
     = (Stop RerunException,
        append_message (Message.mk "m" "c" "g" "hello" 12 false) Lobby.session)
  /\ snd (render_chat_window (ui_send "b" "" "m" 3) "b" Team.alice_chatting)
     = Team.alice_chatting
  /\ snd (render_chat_window (ui_send "x" "hi" "m" 3) "b" Team.alice_chatting)
     = Team.alice_chatting.
Proof.
  assert (Ha : current_user Team.alice_chatting
               = Some (User.mk "a" "Alice" 30 "Female" true 0))
    by (vm_compute; reflexivity).
  assert (Hb : dict_get "b" (users Team.alice_chatting)
               = Some (User.mk "b" "Bob" 31 "Male" true 0))
    by (vm_compute; reflexivity).
  assert (Hc : current_user Lobby.session
               = Some (User.mk "c" "Carol" 32 "Other" true 0))
    by (vm_compute; reflexivity).
  assert (Hg : dict_get "g" (groups Lobby.session)
               = Some (Group.mk "g" "Team" "c" ["c"; "a"; "b"] 9))
    by (vm_compute; reflexivity).
  assert (Hmembers :
            Forall (fun member => dict_get member (users Lobby.session) <> None)
              ["c"; "a"; "b"]).
  { repeat constructor; vm_compute; discriminate. }
  assert (Hhi : "hi" <> "") by discriminate.
  assert (Hhello : "hello" <> "") by discriminate.
  pose proof (send_message (ui_send "b" "hi" "m" 3) Team.alice_chatting _ Ha)
    as (Hdirect & _).
  pose proof (send_message (ui_send_group "g" "hello" "m" 12) Lobby.session _ Hc)
    as (_ & Hgroup & _).
  pose proof (send_message (ui_send "b" "" "m" 3) Team.alice_chatting _ Ha)
    as (_ & _ & Hempty & _).
  pose proof (send_message (ui_send "x" "hi" "m" 3) Team.alice_chatting _ Ha)
    as (_ & _ & _ & _ & Hidle & _).
  split; [|split; [|split]].
  - exact (proj1 (Hdirect "b" _ Hb eq_refl Hhi)).
  - exact (proj1 (Hgroup "g" _ Hg Hmembers eq_refl eq_refl Hhello)).
  - exact (Hempty "b" eq_refl).
  - exact (Hidle "b" eq_refl).
Defined.

(** An empty text never changes the session, whoever is logged in. *)
Lemma send_empty_noop ui s other gid :
  text_input ui ("message_input_" ++ other) = "" ->
  text_input ui ("group_message_input_" ++ gid) = "" ->
  snd (render_chat_window ui other s) = s /\ snd (render_group_chat ui gid s) = s.
Proof.
  intros H1 H2. split.
  - apply quiet_render_chat_window. rewrite H1. apply andb_false_r.
  - apply quiet_render_group_chat. rewrite H2. apply andb_false_r.
Qed.

(** ** The login form *)

Lemma init_stored s : init_session_state (stored s) = s.
Proof. now destruct s. Qed.

Lemma run_login_page ui s :
  current_page s = "login" -> run ui s = login_page ui s.
Proof. intros H. unfold run, main. rewrite init_stored. now rewrite H. Qed.

Lemma run_main_page ui s :
  current_page s <> "login" -> run ui s = main_page ui s.
Proof.
  intros H. unfold run, main. rewrite init_stored.
  now destruct (String.eqb_spec (current_page s) "login").
Qed.

Lemma login_page_submit ui s :
  form_submit_button ui "login_form" = true ->
  text_input ui "Full Name" <> "" ->
  selectbox ui "Gender" <> "Select Gender" ->
  login_page ui s
  = (Stop RerunException,
     logged_in
       (User.mk (uuid4 ui) (text_input ui "Full Name") (number_input ui "Age")
          (selectbox ui "Gender") true (class_loaded ui)) s).
Proof.
  intros Hsub Hname Hgender. unfold login_page. rewrite Hsub.
  destruct (text_input ui "Full Name") as [|c name] eqn:Hn; [easy|].
  destruct (String.eqb_spec (selectbox ui "Gender") "Select Gender"); [easy|].
  reflexivity.
Qed.

Lemma login_page_invalid ui s :
  text_input ui "Full Name" = "" \/ selectbox ui "Gender" = "Select Gender" ->
  login_page ui s = (Ok tt, s).
Proof.
  intros [H|H]; unfold login_page; rewrite H.
  - cbn. now rewrite andb_false_r.
  - cbn. now rewrite andb_false_r.
Qed.

Lemma dict_set_present_keys {V} k (v : V) d :
  dict_get k d <> None -> dict_keys (dict_set k v d) = dict_keys d.
Proof.
  unfold dict_keys. induction d as [|[k' v'] d IH]; cbn; [easy|].
  destruct (String.eqb_spec k k') as [->|Hne]; [reflexivity|].
  intros H. cbn. now rewrite IH.
Qed.




(** C4: a login form submitted with an empty name or with the gender
    left on its placeholder changes nothing: the run ends normally, with
    no rerun and no exception, in the same session, still on the login
    page. *)
Theorem login_invalid_noop ui s :
  current_page s = "login" ->
  text_input ui "Full Name" = "" \/ selectbox ui "Gender" = "Select Gender" ->
  login_page ui s = (Ok tt, s)
  /\ run ui s = (Ok tt, s)
  /\ current_page (snd (run ui s)) = "login".
Proof.
  intros Hpage Hbad.
  pose proof (login_page_invalid ui s Hbad) as H.
  rewrite (run_login_page _ _ Hpage), H. now repeat split.
Qed.

Lemma login_invalid_noop_witness :
  run (ui_login "" 30 "Female" "a") initial = (Ok tt, initial)
  /\ run (ui_login "Alice" 30 "Select Gender" "a") initial = (Ok tt, initial).
Proof.
  split.
  - apply (login_invalid_noop (ui_login "" 30 "Female" "a") initial eq_refl).
    left. reflexivity.
  - apply (login_invalid_noop (ui_login "Alice" 30 "Select Gender" "a") initial eq_refl).
    right. reflexivity.
Defined.

(** ** The main page, part by part *)

Lemma set_active_chats_id f s :
  f (active_chats s) = active_chats s -> set_active_chats f s = s.
Proof. unfold set_active_chats. intros ->. now destruct s. Qed.

(** *** The user list of the sidebar *)

Lemma open_chats_nil s : open_chats [] s = s.
Proof. apply set_active_chats_id. cbn. set_solver. Qed.

Lemma open_chats_cons k ks s :
  open_chats ks (set_active_chats (fun a => {[k]} ∪ a) s) = open_chats (k :: ks) s.
Proof.
  unfold open_chats, set_active_chats. cbn. f_equal. set_solver.
Qed.

Lemma sidebar_loop ui me (l : dict User.t) s :
  current_user s = Some me ->
  for_each l (fun item =>
    me <- current_user_attr User.id ;
    when (negb (String.eqb (fst item) me))
      (when (button ui ("chat_btn_" ++ fst item)) (active_chats_add (fst item)))) s
  = (Ok tt,
     open_chats
       (List.filter (fun k => negb (String.eqb k (User.id me))
                              && button ui ("chat_btn_" ++ k)) (dict_keys l)) s).
Proof.
  revert s. induction l as [|[k u] l IH]; intros s Hme.
  - cbn. now rewrite open_chats_nil.
  - cbn [for_each dict_keys map List.filter fst].
    unfold bind at 1 2. rewrite (current_user_attr_some _ _ _ Hme).
    destruct (negb (String.eqb k (User.id me))); cbn [when andb].
    + destruct (button ui ("chat_btn_" ++ k)); cbn [when].
      * unfold active_chats_add, modify. rewrite IH by exact Hme.
        now rewrite open_chats_cons.
      * unfold ret. now rewrite IH.
    + unfold ret. now rewrite IH.
Qed.

Lemma sidebar_users_some ui s me :
  current_user s = Some me ->
  sidebar_users ui s = (Ok tt, open_chats (pressed_chats ui s (User.id me)) s).
Proof.
  intros Hme. unfold sidebar_users. rewrite bind_get. now apply sidebar_loop.
Qed.

Lemma sidebar_users_none ui s :
  current_user s = None -> snd (sidebar_users ui s) = s.
Proof.
  intros Hme. unfold sidebar_users. rewrite bind_get.
  destruct (users s) as [|item l]; [reflexivity|].
  cbn [for_each]. unfold bind at 1 2.
  now rewrite (current_user_attr_none _ _ Hme).
Qed.

(** *** The group form *)

Lemma member_ids_loop selected (l : list User.t) (ids : list string) :
  fold_left (fun ids user =>
               if str_in (User.name user) selected
               then (ids ++ [User.id user])%list else ids) l ids
  = (ids ++ map User.id
              (List.filter (fun user => str_in (User.name user) selected) l))%list.
Proof.
  revert ids. induction l as [|u l IH]; intros ids; cbn.
  - now rewrite app_nil_r.
  - rewrite IH. destruct (str_in (User.name u) selected); [|reflexivity].
    now rewrite <- app_assoc.
Qed.

Lemma available_some s me :
  current_user s = Some me ->
  comprehension_if (users s) (fun item =>
    me <- current_user_attr User.id ;
    ret (negb (String.eqb (fst item) me))) s
  = (Ok (List.filter (fun item => negb (String.eqb (fst item) (User.id me))) (users s)), s).
Proof.
  intros Hme. apply comprehension_if_filter. intros item _.
  now rewrite (bind_ok _ _ _ _ _ (current_user_attr_some _ _ _ Hme)).
Qed.

Lemma create_group_form_some ui s me :
  current_user s = Some me ->
  create_group_form ui s
  = if group_request ui
    then (Stop RerunException,
          set_groups (dict_set (uuid4 ui) (created_group ui s (User.id me))) s)
    else (Ok tt, s).
Proof.
  intros Hme. unfold create_group_form, group_request.
  rewrite bind_get. rewrite (bind_ok _ _ _ _ _ (available_some s me Hme)).
  destruct (form_submit_button ui "create_group_form"); [|reflexivity].
  cbn [when andb].
  destruct (str_truthy (text_input ui "Group Name")
            && list_truthy (multiselect ui "Add Members")); [|reflexivity].
  unfold bind at 1. rewrite (current_user_attr_some _ _ _ Hme).
  unfold bind at 1. rewrite (current_user_attr_some _ _ _ Hme).
  unfold bind, modify, rerun, raise. rewrite member_ids_loop. reflexivity.
Qed.

Lemma quiet_create_group_form ui :
  group_request ui = false -> quiet (create_group_form ui).
Proof.
  unfold group_request. intros H. unfold create_group_form.
  quiet_auto.
  destruct (form_submit_button ui "create_group_form"); cbn [when]; [|quiet_auto].
  cbn in H. rewrite H. quiet_auto.
Qed.

(** *** The group list of the sidebar *)

Lemma groups_loop ui me (l : dict Group.t) s :
  current_user s = Some me ->
  for_each l (fun item =>
    me <- current_user_attr User.id ;
    when (str_in me (Group.members (snd item)))
      (when (button ui ("group_btn_" ++ fst item))
         (active_chats_add ("group_" ++ fst item)))) s
  = (Ok tt,
     open_chats
       (map (fun item => "group_" ++ fst item)
          (List.filter (fun item => str_in (User.id me) (Group.members (snd item))
                                    && button ui ("group_btn_" ++ fst item)) l)) s).
Proof.
  revert s. induction l as [|[k g] l IH]; intros s Hme.
  - cbn. now rewrite open_chats_nil.
  - cbn [for_each List.filter fst snd].
    unfold bind at 1 2. rewrite (current_user_attr_some _ _ _ Hme).
    destruct (str_in (User.id me) (Group.members g)); cbn [when andb].
    + destruct (button ui ("group_btn_" ++ k)); cbn [when map fst].
      * unfold active_chats_add, modify. rewrite IH by exact Hme.
        now rewrite open_chats_cons.
      * unfold ret. now rewrite IH.
    + unfold ret. now rewrite IH.
Qed.

Lemma sidebar_groups_some ui s me :
  current_user s = Some me ->
  sidebar_groups ui s = (Ok tt, open_chats (pressed_groups ui s (User.id me)) s).
Proof.
  intros Hme. unfold sidebar_groups. rewrite bind_get.
  destruct (groups s) as [|item l] eqn:Hg.
  - cbn. unfold pressed_groups. rewrite Hg. cbn. now rewrite open_chats_nil.
  - cbn [list_truthy when]. unfold pressed_groups. rewrite Hg.
    now apply groups_loop.
Qed.

Lemma sidebar_groups_none ui s :
  current_user s = None -> snd (sidebar_groups ui s) = s.
Proof.
  intros Hme. unfold sidebar_groups. rewrite bind_get.
  destruct (groups s) as [|item l]; [reflexivity|].
  cbn [list_truthy when for_each]. unfold bind at 1 2.
  now rewrite (current_user_attr_none _ _ Hme).
Qed.

(** *** The header *)

Lemma header_some ui s me :
  current_user s = Some me ->
  header ui s
  = if button ui "🚪 Logout"
    then (Stop RerunException, logged_out s)
    else (Ok (get_unread_messages_count s (User.id me)), s).
Proof.
  intros Hme. unfold header.
  rewrite (bind_ok _ _ _ _ _ (current_user_attr_some _ _ _ Hme)).
  rewrite (bind_ok _ _ _ _ _ (current_user_attr_some _ _ _ Hme)).
  rewrite bind_get. now destruct (button ui "🚪 Logout").
Qed.

Lemma header_none ui s :
  current_user s = None -> header ui s = (Stop AttributeError, s).
Proof.
  intros Hme. unfold header.
  now rewrite (bind_stop _ _ _ _ _ (current_user_attr_none _ _ Hme)).
Qed.

Lemma quiet_header ui : button ui "🚪 Logout" = false -> quiet (header ui).
Proof. intros H. unfold header. rewrite H. quiet_auto. Qed.

(** *** The chat panels *)

Lemma quiet_chat_panel ui c :
  sends ui c = false -> button ui ("close_" ++ c) = false -> quiet (chat_panel ui c).
Proof.
  unfold sends. intros Hs Hc. unfold chat_panel. rewrite Hc.
  apply quiet_bind; [apply quiet_get | intros s].
  apply quiet_bind.
  { destruct (negb (startswith c "group_")); quiet_auto. }
  intros title. apply quiet_bind; [|intros rows; apply quiet_ret].
  destruct (startswith c "group_").
  - now apply quiet_render_group_chat.
  - now apply quiet_render_chat_window.
Qed.

Lemma active_chats_remove_in c s :
  c ∈ active_chats s -> active_chats_remove c s = (Ok tt, close_chat c s).
Proof.
  intros H. unfold active_chats_remove. rewrite bind_get.
  now destruct (decide (c ∈ active_chats s)).
Qed.

Lemma active_chats_remove_notin c s :
  c ∉ active_chats s -> active_chats_remove c s = (Stop (KeyError c), s).
Proof.
  intros H. unfold active_chats_remove. rewrite bind_get.
  now destruct (decide (c ∈ active_chats s)).
Qed.

Lemma bind_quiet_cases {A B} (m : Script A) (f : A -> Script B) s :
  snd (m s) = s -> (exists a, bind m f s = f a s) \/ snd (bind m f s) = s.
Proof.
  unfold bind. destruct (m s) as [[a|e] s']; cbn; intros ->; eauto.
Qed.

(** Without a send, a panel either leaves the session as it is or closes
    its chat. *)
Lemma chat_panel_cases ui c s :
  sends ui c = false ->
  snd (chat_panel ui c s) = s
  \/ chat_panel ui c s = (Stop RerunException, close_chat c s).
Proof.
  intros Hs.
  destruct (button ui ("close_" ++ c)) eqn:Hc;
    [|left; now apply quiet_chat_panel].
  unfold chat_panel. rewrite Hc, bind_get.
  match goal with |- context [bind ?m ?f s] =>
    destruct (bind_quiet_cases m f s) as [[title ->]|H]; [| |now left]
  end.
  { destruct (negb (startswith c "group_")); apply quiet_bind;
      intros; quiet_auto. }
  match goal with |- context [bind ?m ?f s] =>
    destruct (bind_quiet_cases m f s) as [[rows ->]|H]; [| |now left]
  end.
  { unfold sends in Hs. destruct (startswith c "group_").
    - now apply quiet_render_group_chat.
    - now apply quiet_render_chat_window. }
  destruct (decide (c ∈ active_chats s)) as [Hin|Hout].
  - right. now rewrite (bind_ok _ _ _ _ _ (active_chats_remove_in _ _ Hin)).
  - left. now rewrite (bind_stop _ _ _ _ _ (active_chats_remove_notin _ _ Hout)).
Qed.

Lemma panel_title_ok s c :
  panel_target s c ->
  exists title,
    (if negb (startswith c "group_")
     then u <- getitem (users s) c ; ret (User.name u)
     else g <- getitem (groups s) (str_from 6 c) ; ret (Group.name g)) s
    = (Ok title, s).
Proof.
  unfold panel_target. destruct (startswith c "group_"); cbn [negb].
  - intros (g & Hg & _). exists (Group.name g).
    now rewrite (bind_ok _ _ _ _ _ (getitem_some _ _ _ _ Hg)).
  - intros H. destruct (dict_get c (users s)) as [u|] eqn:Hu; [|easy].
    exists (User.name u).
    now rewrite (bind_ok _ _ _ _ _ (getitem_some _ _ _ _ Hu)).
Qed.

Lemma draws_group ui c :
  draws ui c = true -> startswith c "group_" = true -> nested_expanders ui = true.
Proof.
  unfold draws. intros H Hc. rewrite Hc in H. now rewrite orb_false_r in H.
Qed.

Lemma panel_window_show ui s me c :
  current_user s = Some me ->
  senders_known s ->
  panel_target s c ->
  draws ui c = true ->
  sends ui c = false ->
  exists rows,
    (if startswith c "group_"
     then render_group_chat ui (str_from 6 c)
     else render_chat_window ui c) s = (Ok rows, s).
Proof.
  unfold panel_target, sends. intros Hme Hknown Ht Hd Hs.
  pose proof (draws_group ui c Hd) as Hnest.
  destruct (startswith c "group_").
  - destruct Ht as (g & Hg & Hmem). eexists.
    apply (render_group_chat_show ui s _ g); auto.
  - destruct (dict_get c (users s)) as [u|] eqn:Hu; [|easy]. eexists.
    now apply (render_chat_window_show ui s me c u).
Qed.

Lemma panel_window_send ui s me c :
  current_user s = Some me ->
  panel_target s c ->
  draws ui c = true ->
  sends ui c = true ->
  (if startswith c "group_"
   then render_group_chat ui (str_from 6 c)
   else render_chat_window ui c) s
  = (Stop RerunException, append_message (sent_message ui (User.id me) c) s).
Proof.
  unfold panel_target, sends, sent_message. intros Hme Ht Hd Hs.
  pose proof (draws_group ui c Hd) as Hnest.
  destruct (startswith c "group_").
  - destruct Ht as (g & Hg & Hmem).
    apply (render_group_chat_send ui s me _ g); auto.
  - destruct (dict_get c (users s)) as [u|] eqn:Hu; [|easy].
    now apply (render_chat_window_send ui s me c u).
Qed.

Lemma chat_panel_ok ui s me c :
  current_user s = Some me ->
  senders_known s ->
  panel_target s c ->
  draws ui c = true ->
  sends ui c = false ->
  button ui ("close_" ++ c) = false ->
  chat_panel ui c s = (Ok tt, s).
Proof.
  intros Hme Hknown Ht Hd Hs Hc. unfold chat_panel. rewrite bind_get.
  destruct (panel_title_ok s c Ht) as (title & Htitle).
  rewrite (bind_ok _ _ _ _ _ Htitle).
  destruct (panel_window_show ui s me c Hme Hknown Ht Hd Hs) as (rows & Hrows).
  rewrite (bind_ok _ _ _ _ _ Hrows). now rewrite Hc.
Qed.

Lemma chat_panel_close ui s me c :
  current_user s = Some me ->
  senders_known s ->
  panel_target s c ->
  draws ui c = true ->
  sends ui c = false ->
  button ui ("close_" ++ c) = true ->
  c ∈ active_chats s ->
  chat_panel ui c s = (Stop RerunException, close_chat c s).
Proof.
  intros Hme Hknown Ht Hd Hs Hc Hin. unfold chat_panel. rewrite bind_get.
  destruct (panel_title_ok s c Ht) as (title & Htitle).
  rewrite (bind_ok _ _ _ _ _ Htitle).
  destruct (panel_window_show ui s me c Hme Hknown Ht Hd Hs) as (rows & Hrows).
  rewrite (bind_ok _ _ _ _ _ Hrows). rewrite Hc.
  now rewrite (bind_ok _ _ _ _ _ (active_chats_remove_in _ _ Hin)).
Qed.

Lemma chat_panel_send ui s me c :
  current_user s = Some me ->
  panel_target s c ->
  draws ui c = true ->
  sends ui c = true ->
  chat_panel ui c s
  = (Stop RerunException, append_message (sent_message ui (User.id me) c) s).
Proof.
  intros Hme Ht Hd Hs. unfold chat_panel. rewrite bind_get.
  destruct (panel_title_ok s c Ht) as (title & Htitle).
  rewrite (bind_ok _ _ _ _ _ Htitle).
  now rewrite (bind_stop _ _ _ _ _ (panel_window_send ui s me c Hme Ht Hd Hs)).
Qed.

(** Where expanders do not nest, the panel of a group chat stops at the
    list of members: nothing is sent and nothing is closed. *)
Lemma chat_panel_refused ui s c :
  panel_target s c ->
  draws ui c = false ->
  chat_panel ui c s = (Stop StreamlitAPIException, s).
Proof.
  intros Ht Hd. unfold chat_panel. rewrite bind_get.
  destruct (panel_title_ok s c Ht) as (title & Htitle).
  rewrite (bind_ok _ _ _ _ _ Htitle).
  unfold draws in Hd. apply orb_false_iff in Hd as [Hnest Hc].
  apply negb_false_iff in Hc. unfold panel_target in Ht. rewrite Hc in *.
  destruct Ht as (g & Hg & _).
  now rewrite (bind_stop _ _ _ _ _ (render_group_chat_refused ui s _ g Hg Hnest)).
Qed.

(** ** Every run is a sequence of atomic effects *)

Lemma bind_snd {A B} (m : Script A) (f : A -> Script B) s :
  snd (m s) = s -> (forall a, snd (f a s) = s) -> snd (bind m f s) = s.
Proof.
  intros Hm Hf. unfold bind. destruct (m s) as [[a|e] s']; cbn in *; subst; auto.
Qed.

Lemma create_group_form_none ui s :
  current_user s = None -> snd (create_group_form ui s) = s.
Proof.
  intros Hme. unfold create_group_form. rewrite bind_get.
  apply bind_snd.
  - apply quiet_comprehension_if. intros item. quiet_auto.
  - intros available.
    destruct (form_submit_button ui "create_group_form"); [|reflexivity].
    cbn [when].
    destruct (str_truthy (text_input ui "Group Name")
              && list_truthy (multiselect ui "Add Members")); [|reflexivity].
    unfold bind at 1. now rewrite (current_user_attr_none _ _ Hme).
Qed.

Lemma main_page_none ui s :
  current_user s = None -> snd (main_page ui s) = s.
Proof.
  intros Hme. unfold main_page.
  apply bind_snd; [now apply sidebar_users_none | intros _].
  apply bind_snd; [now apply create_group_form_none | intros _].
  apply bind_snd; [now apply sidebar_groups_none | intros _].
  now rewrite (bind_stop _ _ _ _ _ (header_none ui s Hme)).
Qed.

Lemma open_user_chats ui me (ks : list string) s :
  current_user s = Some me ->
  (forall k, In k ks -> In k (dict_keys (users s)) /\ k <> User.id me) ->
  rtc (effect ui) s (open_chats ks s).
Proof.
  revert s. induction ks as [|k ks IH]; intros s Hme Hks.
  - rewrite open_chats_nil. apply rtc_refl.
  - rewrite <- open_chats_cons.
    destruct (Hks k (or_introl eq_refl)) as [Hk Hne].
    eapply rtc_l; [now apply (eff_open_chat ui s me k)|].
    apply IH; [exact Hme|]. intros k' Hk'. apply Hks. now right.
Qed.

Lemma open_group_chats ui me (items : dict Group.t) s :
  current_user s = Some me ->
  (forall item, In item items ->
     In item (groups s) /\ In (User.id me) (Group.members (snd item))) ->
  rtc (effect ui) s
    (open_chats (map (fun item => "group_" ++ fst item) items) s).
Proof.
  revert s. induction items as [|[gid g] items IH]; intros s Hme Hitems.
  - cbn. rewrite open_chats_nil. apply rtc_refl.
  - cbn [map fst]. rewrite <- open_chats_cons.
    destruct (Hitems (gid, g) (or_introl eq_refl)) as [Hin Hmem].
    eapply rtc_l; [now apply (eff_open_group ui s me gid g)|].
    apply IH; [exact Hme|]. intros item Hitem. apply Hitems. now right.
Qed.

Lemma sidebar_users_effects ui s me :
  current_user s = Some me ->
  rtc (effect ui) s (open_chats (pressed_chats ui s (User.id me)) s).
Proof.
  intros Hme. apply (open_user_chats ui me); [exact Hme|].
  intros k Hk. unfold pressed_chats in Hk. apply List.filter_In in Hk as [Hk Hb].
  split; [exact Hk|].
  apply andb_true_iff in Hb as [Hb _].
  now destruct (String.eqb_spec k (User.id me)).
Qed.

Lemma sidebar_groups_effects ui s me :
  current_user s = Some me ->
  rtc (effect ui) s (open_chats (pressed_groups ui s (User.id me)) s).
Proof.
  intros Hme. unfold pressed_groups. apply (open_group_chats ui me); [exact Hme|].
  intros item Hitem. apply List.filter_In in Hitem as [Hitem Hb].
  split; [exact Hitem|].
  apply andb_true_iff in Hb as [Hb _]. now apply str_in_In.
Qed.

(** A panel leaves the session as it is, closes its chat, or sends. *)
Lemma window_send_cases ui s me c :
  current_user s = Some me ->
  sends ui c = true ->
  snd ((if startswith c "group_"
        then render_group_chat ui (str_from 6 c)
        else render_chat_window ui c) s) = s
  \/ (if startswith c "group_"
      then render_group_chat ui (str_from 6 c)
      else render_chat_window ui c) s
     = (Stop RerunException, append_message (sent_message ui (User.id me) c) s).
Proof.
  intros Hme Hs. unfold sends, sent_message in *.
  destruct (startswith c "group_").
  - destruct (dict_get (str_from 6 c) (groups s)) as [g|] eqn:Hg.
    + unfold render_group_chat. rewrite bind_get.
      rewrite (bind_ok _ _ _ _ _ (getitem_some _ _ _ _ Hg)).
      match goal with |- context [bind ?m ?f s] =>
        destruct (bind_quiet_cases m f s) as [[[] ->]|H]; [| |now left]
      end.
      { apply quiet_nested_expander. }
      match goal with |- context [bind ?m ?f s] =>
        destruct (bind_quiet_cases m f s) as [[[] ->]|H]; [| |now left]
      end.
      { apply quiet_for_each. intros member _. quiet_auto. }
      right. rewrite Hs. cbv iota.
      unfold bind at 1 2. now rewrite (current_user_attr_some _ _ _ Hme).
    + left. unfold render_group_chat. rewrite bind_get.
      now rewrite (bind_stop _ _ _ _ _ (getitem_none _ _ _ Hg)).
  - destruct (dict_get c (users s)) as [u|] eqn:Hu.
    + right. now apply (render_chat_window_send ui s me c u).
    + left. unfold render_chat_window. rewrite bind_get.
      now rewrite (bind_stop _ _ _ _ _ (getitem_none _ _ _ Hu)).
Qed.

Lemma chat_panel_step ui s me c :
  current_user s = Some me ->
  snd (chat_panel ui c s) = s
  \/ chat_panel ui c s = (Stop RerunException, close_chat c s)
  \/ chat_panel ui c s
     = (Stop RerunException, append_message (sent_message ui (User.id me) c) s).
Proof.
  intros Hme. destruct (sends ui c) eqn:Hs.
  - unfold chat_panel. rewrite bind_get.
    match goal with |- context [bind ?m ?f s] =>
      destruct (bind_quiet_cases m f s) as [[title ->]|H]; [| |now left]
    end.
    { destruct (negb (startswith c "group_")); apply quiet_bind;
        intros; quiet_auto. }
    destruct (window_send_cases ui s me c Hme Hs) as [Hq|Hsend].
    + match goal with |- context [bind ?m ?f s] =>
        destruct (bind_quiet_cases m f s Hq) as [[rows ->]|H]; [|now left]
      end.
      destruct (button ui ("close_" ++ c)); [|now left].
      destruct (decide (c ∈ active_chats s)) as [Hin|Hout].
      * right. left.
        now rewrite (bind_ok _ _ _ _ _ (active_chats_remove_in _ _ Hin)).
      * left.
        now rewrite (bind_stop _ _ _ _ _ (active_chats_remove_notin _ _ Hout)).
    + right. right. now rewrite (bind_stop _ _ _ _ _ Hsend).
  - destruct (chat_panel_cases ui c s Hs) as [H|H]; auto.
Qed.

Lemma panels_effects ui me (l : list string) s :
  current_user s = Some me ->
  (forall c, In c l -> c ∈ active_chats s) ->
  rtc (effect ui) s (snd (for_each l (chat_panel ui) s)).
Proof.
  intros Hme. induction l as [|c l IH]; intros Hl; [apply rtc_refl|].
  cbn [for_each].
  assert (Hc : c ∈ active_chats s) by (apply Hl; now left).
  destruct (chat_panel_step ui s me c Hme) as [Hq|[Hclose|Hsend]].
  - unfold bind. destruct (chat_panel ui c s) as [[[]|e] s'] eqn:E;
      cbn in Hq; subst s'; cbn [snd].
    + apply IH. intros c' Hc'. apply Hl. now right.
    + apply rtc_refl.
  - rewrite (bind_stop _ _ _ _ _ Hclose). apply rtc_once.
    now apply (eff_close ui s me c).
  - rewrite (bind_stop _ _ _ _ _ Hsend). apply rtc_once.
    now apply (eff_send ui s me c).
Qed.

Lemma main_page_effects ui s : rtc (effect ui) s (snd (main_page ui s)).
Proof.
  destruct (current_user s) as [me|] eqn:Hme;
    [|rewrite (main_page_none ui s Hme); apply rtc_refl].
  unfold main_page.
  rewrite (bind_ok _ _ _ _ _ (sidebar_users_some ui s me Hme)).
  set (s1 := open_chats (pressed_chats ui s (User.id me)) s).
  assert (H1 : rtc (effect ui) s s1) by now apply sidebar_users_effects.
  assert (Hme1 : current_user s1 = Some me) by exact Hme.
  etrans; [exact H1|]. clearbody s1. clear H1 Hme s.
  pose proof (create_group_form_some ui s1 me Hme1) as Hform.
  destruct (group_request ui).
  { rewrite (bind_stop _ _ _ _ _ Hform). apply rtc_once.
    now apply (eff_create_group ui s1 me). }
  rewrite (bind_ok _ _ _ _ _ Hform).
  rewrite (bind_ok _ _ _ _ _ (sidebar_groups_some ui s1 me Hme1)).
  set (s2 := open_chats (pressed_groups ui s1 (User.id me)) s1).
  assert (H2 : rtc (effect ui) s1 s2) by now apply sidebar_groups_effects.
  assert (Hme2 : current_user s2 = Some me) by exact Hme1.
  etrans; [exact H2|]. clearbody s2. clear H2 Hform Hme1 s1.
  pose proof (header_some ui s2 me Hme2) as Hhead.
  destruct (button ui "🚪 Logout").
  { rewrite (bind_stop _ _ _ _ _ Hhead). apply rtc_once.
    now apply (eff_logout ui s2 me). }
  rewrite (bind_ok _ _ _ _ _ Hhead). rewrite bind_get.
  apply (panels_effects ui me); [exact Hme2|].
  intros c Hc. apply elem_of_elements. now apply list_elem_of_In.
Qed.

Lemma login_page_effects ui s :
  current_page s = "login" -> rtc (effect ui) s (snd (login_page ui s)).
Proof.
  intros Hpage. unfold login_page.
  destruct (form_submit_button ui "login_form"
            && str_truthy (text_input ui "Full Name")
            && negb (String.eqb (selectbox ui "Gender") "Select Gender"));
    [|apply rtc_refl].
  apply rtc_once. now apply eff_login.
Qed.

(** The session a run leaves behind is reached from the session it
    started in through atomic effects. *)
Theorem run_effects ui s : rtc (effect ui) s (snd (run ui s)).
Proof.
  destruct (String.eqb_spec (current_page s) "login") as [Hpage|Hpage].
  - rewrite (run_login_page ui s Hpage). now apply login_page_effects.
  - rewrite (run_main_page ui s Hpage). apply main_page_effects.
Qed.

(** ** The main page as a whole, for a logged-in user *)

Lemma main_page_some ui s me :
  current_user s = Some me ->
  main_page ui s
  = let s1 := open_chats (pressed_chats ui s (User.id me)) s in
    if group_request ui
    then (Stop RerunException,
          set_groups (dict_set (uuid4 ui) (created_group ui s1 (User.id me))) s1)
    else
      let s2 := open_chats (pressed_groups ui s1 (User.id me)) s1 in
      if button ui "🚪 Logout"
      then (Stop RerunException, logged_out s2)
      else for_each (elements (active_chats s2)) (chat_panel ui) s2.
Proof.
  intros Hme. unfold main_page.
  rewrite (bind_ok _ _ _ _ _ (sidebar_users_some ui s me Hme)).
  cbv zeta.
  set (s1 := open_chats (pressed_chats ui s (User.id me)) s).
  assert (Hme1 : current_user s1 = Some me) by exact Hme.
  pose proof (create_group_form_some ui s1 me Hme1) as Hform.
  destruct (group_request ui); [now rewrite (bind_stop _ _ _ _ _ Hform)|].
  rewrite (bind_ok _ _ _ _ _ Hform).
  rewrite (bind_ok _ _ _ _ _ (sidebar_groups_some ui s1 me Hme1)).
  set (s2 := open_chats (pressed_groups ui s1 (User.id me)) s1).
  assert (Hme2 : current_user s2 = Some me) by exact Hme1.
  pose proof (header_some ui s2 me Hme2) as Hhead.
  destruct (button ui "🚪 Logout"); [now rewrite (bind_stop _ _ _ _ _ Hhead)|].
  now rewrite (bind_ok _ _ _ _ _ Hhead).
Qed.

Lemma filter_none {A} (p : A -> bool) l :
  (forall x, In x l -> p x = false) -> List.filter p l = [].
Proof.
  induction l as [|x l IH]; intros H; cbn; [reflexivity|].
  rewrite (H x (or_introl eq_refl)). apply IH. intros y Hy. apply H. now right.
Qed.

Lemma pressed_chats_none ui s me :
  (forall k, button ui ("chat_btn_" ++ k) = false) -> pressed_chats ui s me = [].
Proof.
  intros H. apply filter_none. intros k _. now rewrite H, andb_false_r.
Qed.

Lemma pressed_groups_none ui s me :
  (forall k, button ui ("group_btn_" ++ k) = false) -> pressed_groups ui s me = [].
Proof.
  intros H. unfold pressed_groups. rewrite filter_none; [reflexivity|].
  intros item _. now rewrite H, andb_false_r.
Qed.

Lemma quiet_panels ui (l : list string) :
  (forall c, In c l -> sends ui c = false /\ button ui ("close_" ++ c) = false) ->
  quiet (for_each l (chat_panel ui)).
Proof.
  intros H. apply quiet_for_each. intros c Hc.
  destruct (H c Hc). now apply quiet_chat_panel.
Qed.

(** *** C9: logout *)

(** C9: in a run of the main page in which the logout button is the
    widget that fired, the run ends in a rerun with [current_user] set to
    [None] and [current_page] to [login], while [users], [messages],
    [groups] and [active_chats] are what they were. *)
Theorem logout_clears_login ui s me :
  current_page s <> "login" ->
  current_user s = Some me ->
  button ui "🚪 Logout" = true ->
  (forall k, button ui ("chat_btn_" ++ k) = false) ->
  (forall k, button ui ("group_btn_" ++ k) = false) ->
  form_submit_button ui "create_group_form" = false ->
  let s' := snd (run ui s) in
  run ui s = (Stop RerunException, logged_out s)
  /\ current_user s' = None
  /\ current_page s' = "login"
  /\ users s' = users s
  /\ messages s' = messages s
  /\ groups s' = groups s
  /\ active_chats s' = active_chats s.
Proof.
  intros Hpage Hme Hout Hchat Hgroup Hform s'.
  assert (Hrun : run ui s = (Stop RerunException, logged_out s)).
  { rewrite (run_main_page ui s Hpage), (main_page_some ui s me Hme).
    cbv zeta. unfold group_request. rewrite Hform. cbn [andb].
    rewrite (pressed_chats_none _ _ _ Hchat), open_chats_nil.
    rewrite (pressed_groups_none _ _ _ Hgroup), open_chats_nil.
    now rewrite Hout. }
  subst s'. rewrite Hrun. now repeat split.
Qed.

Lemma logout_clears_login_witness :
  run ui_logout Notebook.session = (Stop RerunException, logged_out Notebook.session)
  /\ current_user (snd (run ui_logout Notebook.session)) = None
  /\ current_page (snd (run ui_logout Notebook.session)) = "login".
Proof.
  assert (Hpage : current_page Notebook.session <> "login") by discriminate.
  pose proof (logout_clears_login ui_logout Notebook.session Notebook.alice Hpage eq_refl eq_refl
                (fun k => eq_refl) (fun k => eq_refl) eq_refl)
    as (H1 & H2 & H3 & _).
  split; [exact H1|]. split; [exact H2 | exact H3].
Defined.

(** ** Invariants of the session *)

(** *** C8: the current user and the current page *)

Lemma effect_page_invariant ui s s' :
  effect ui s s' -> page_invariant s -> page_invariant s'.
Proof.
  unfold page_invariant.
  destruct 1; cbn; intros Hinv; try exact Hinv; split; try easy.
Qed.

Lemma effect_page_frame ui s s' :
  effect ui s s' ->
  s' = logged_in (new_user ui) s
  \/ s' = logged_out s
  \/ (current_user s' = current_user s /\ current_page s' = current_page s).
Proof. destruct 1; auto. Qed.

(** C8: [current_user] is [None] exactly when [current_page] is [login]
    in the initial session, and every run of the script, whatever the
    widgets return and however the run ends, takes a session with that
    property to a session with that property; of the atomic effects only
    login and logout touch the two fields. *)
Theorem page_invariant_holds :
  page_invariant initial
  /\ (forall ui s, page_invariant s -> page_invariant (snd (run ui s)))
  /\ (forall ui s s', effect ui s s' ->
        s' = logged_in (new_user ui) s
        \/ s' = logged_out s
        \/ (current_user s' = current_user s /\ current_page s' = current_page s)).
Proof.
  split; [now split|]. split; [|apply effect_page_frame].
  intros ui s Hinv. pose proof (run_effects ui s) as Hrun.
  induction Hrun as [s|s s1 s2 Hstep _ IH]; [exact Hinv|].
  apply IH. now apply (effect_page_invariant ui s s1).
Qed.

Lemma page_invariant_holds_witness :
  page_invariant (snd (run (ui_login "Alice" 30 "Female" "a") initial)).
Proof.
  destruct page_invariant_holds as (Hinit & Hstep & _).
  apply Hstep. exact Hinit.
Defined.

(** *** C2: unread messages *)

Lemma sum_ones {A} (l : list A) :
  fold_right Z.add 0 (map (fun _ => 1) l) = Z.of_nat (length l).
Proof. induction l as [|x l IH]; cbn [map fold_right length]; [reflexivity | lia]. Qed.

Lemma unread_count_spec s user_id :
  get_unread_messages_count s user_id
  = Z.of_nat (length (List.filter
                        (fun msg => String.eqb (Message.receiver_id msg) user_id
                                    && negb (Message.is_read msg))
                        (messages s))).
Proof. unfold get_unread_messages_count. apply sum_ones. Qed.

Lemma sent_message_unread ui me c : Message.is_read (sent_message ui me c) = false.
Proof. unfold sent_message. now destruct (startswith c "group_"). Qed.

(** The store only grows, and by unread messages. *)
Lemma effect_messages ui s s' :
  effect ui s s' ->
  exists new, messages s' = (messages s ++ new)%list
              /\ Forall (fun msg => Message.is_read msg = false) new.
Proof.
  destruct 1; cbn;
    try (exists []; split; [now rewrite app_nil_r | constructor]).
  eexists. split; [reflexivity|].
  constructor; [apply sent_message_unread | constructor].
Qed.

Lemma run_messages ui s :
  exists new, messages (snd (run ui s)) = (messages s ++ new)%list
              /\ Forall (fun msg => Message.is_read msg = false) new.
Proof.
  pose proof (run_effects ui s) as Hrun.
  induction Hrun as [s|s s1 s2 Hstep _ (new2 & E2 & U2)].
  - exists []. split; [now rewrite app_nil_r | constructor].
  - destruct (effect_messages ui s s1 Hstep) as (new1 & E1 & U1).
    exists (new1 ++ new2)%list. split.
    + now rewrite E2, E1, app_assoc.
    + apply Forall_app. now split.
Qed.

Lemma run_all_unread ui s : all_unread s -> all_unread (snd (run ui s)).
Proof.
  unfold all_unread. intros H.
  destruct (run_messages ui s) as (new & -> & Hnew).
  apply Forall_app. now split.
Qed.

Lemma runs_all_unread (l : list UI) s : all_unread s -> all_unread (runs l s).
Proof.
  revert s. induction l as [|ui l IH]; intros s H; [exact H|].
  cbn. apply IH. now apply run_all_unread.
Qed.

Lemma all_unread_count s user_id :
  all_unread s ->
  get_unread_messages_count s user_id = Z.of_nat (length (sent_to s user_id)).
Proof.
  unfold all_unread, sent_to. rewrite unread_count_spec.
  induction (messages s) as [|msg l IH]; intros H; [reflexivity|].
  inversion H as [|? ? Hmsg Hl]; subst. cbn [List.filter]. rewrite Hmsg.
  cbn [negb]. rewrite andb_true_r.
  destruct (String.eqb (Message.receiver_id msg) user_id); cbn [length];
    specialize (IH Hl); lia.
Qed.

(** C2: the unread count of a user is the number of stored messages
    addressed to that user with [is_read] false; in every session reached
    from the initial one by runs of the script each stored message is
    unread and a run only appends to the store, so the count is the
    number of messages sent to the user so far; after three messages to
    U it is 3. *)
Theorem unread_is_received :
  (forall s user_id,
     get_unread_messages_count s user_id
     = Z.of_nat (length (List.filter
                           (fun msg => String.eqb (Message.receiver_id msg) user_id
                                       && negb (Message.is_read msg))
                           (messages s))))
  /\ (forall (l : list UI) user_id,
        all_unread (runs l initial)
        /\ get_unread_messages_count (runs l initial) user_id
           = Z.of_nat (length (sent_to (runs l initial) user_id)))
  /\ (forall ui s,
        exists new, messages (snd (run ui s)) = (messages s ++ new)%list
                    /\ Forall (fun msg => Message.is_read msg = false) new)
  /\ length (sent_to (runs Scenario.three_messages initial) "u") = 3%nat
  /\ get_unread_messages_count (runs Scenario.three_messages initial) "u" = 3.
Proof.
  split; [apply unread_count_spec|].
  assert (Hall : forall l, all_unread (runs l initial)).
  { intros l. apply runs_all_unread. constructor. }
  split; [intros l u; split; [apply Hall | apply all_unread_count, Hall]|].
  split; [apply run_messages|].
  split; vm_compute; reflexivity.
Qed.

(** ** Groups *)

Lemma main_page_sidebar_only ui s me :
  current_user s = Some me ->
  group_request ui = false ->
  button ui "🚪 Logout" = false ->
  (forall k, button ui ("group_btn_" ++ k) = false) ->
  (forall c, sends ui c = false /\ button ui ("close_" ++ c) = false) ->
  snd (main_page ui s) = open_chats (pressed_chats ui s (User.id me)) s.
Proof.
  intros Hme Hreq Hout Hgroup Hpanels.
  rewrite (main_page_some ui s me Hme). cbv zeta. rewrite Hreq, Hout.
  rewrite (pressed_groups_none _ _ _ Hgroup), open_chats_nil.
  apply quiet_panels. intros c _. apply Hpanels.
Qed.



Lemma run_invariant (P : Session -> Prop) :
  (forall ui s s', effect ui s s' -> P s -> P s') ->
  forall ui s, P s -> P (snd (run ui s)).
Proof.
  intros Hstep ui s H. pose proof (run_effects ui s) as Hrun.
  induction Hrun as [s|s s1 s2 Heff _ IH]; [exact H|].
  apply IH. now apply (Hstep ui s s1).
Qed.

Lemma runs_invariant (P : Session -> Prop) :
  (forall ui s s', effect ui s s' -> P s -> P s') ->
  forall l s, P s -> P (runs l s).
Proof.
  intros Hstep l. induction l as [|ui l IH]; intros s H; [exact H|].
  cbn. apply IH. now apply run_invariant.
Qed.

Lemma Forall_dict_set {V} (P : string * V -> Prop) k v (d : dict V) :
  P (k, v) -> Forall P d -> Forall P (dict_set k v d).
Proof.
  intros Hv. induction 1 as [|[k' v'] d Hx Hd IH]; cbn.
  - now repeat constructor.
  - destruct (String.eqb k k'); constructor; auto.
Qed.





(** *** C10: members are resolved by name, in the order of [users] *)

Lemma resolved_members_named s me selected :
  resolved_members s me selected
  = me :: map (fun item => User.id (snd item)) (named_members s me selected).
Proof.
  unfold resolved_members, available_users, named_members. f_equal.
  induction (users s) as [|[k u] l IH]; [reflexivity|].
  simpl. destruct (negb (String.eqb k me)); simpl; [|exact IH].
  destruct (str_in (User.name u) selected); simpl; now rewrite IH.
Qed.

Lemma named_members_In s me selected k u :
  In (k, u) (named_members s me selected)
  <-> In (k, u) (users s) /\ k <> me /\ In (User.name u) selected.
Proof.
  unfold named_members. rewrite List.filter_In. cbn [fst snd].
  rewrite andb_true_iff, negb_true_iff, str_in_In.
  destruct (String.eqb_spec k me); intuition congruence.
Qed.

(** C10: a submitted group form with a name and a selection creates a
    group whose members are the current user followed by the id of every
    entry of [users], other than the current user's, whose name is among
    the selected names, in the order of [users]; so two users with a
    selected name both become members, and the order of the selection
    plays no part. *)
Theorem group_members_by_name ui s me :
  current_page s <> "login" ->
  current_user s = Some me ->
  (forall k, button ui ("chat_btn_" ++ k) = false) ->
  group_request ui = true ->
  let selected := multiselect ui "Add Members" in
  let members :=
    User.id me
    :: map (fun item => User.id (snd item))
         (List.filter (fun item => negb (String.eqb (fst item) (User.id me))
                                   && str_in (User.name (snd item)) selected)
            (users s)) in
  run ui s
  = (Stop RerunException,
     set_groups
       (dict_set (uuid4 ui)
          (Group.mk (uuid4 ui) (text_input ui "Group Name") (User.id me)
             members (now ui))) s)
  /\ (forall k u,
        In (k, u) (users s) -> k <> User.id me -> In (User.name u) selected ->
        In (User.id u) members)
  /\ (forall x,
        In x members ->
        x = User.id me
        \/ exists k u, In (k, u) (users s) /\ k <> User.id me
                       /\ In (User.name u) selected /\ x = User.id u)
  /\ (forall k1 u1 k2 u2,
        In (k1, u1) (users s) -> In (k2, u2) (users s) ->
        k1 <> User.id me -> k2 <> User.id me ->
        User.name u1 = User.name u2 -> In (User.name u1) selected ->
        In (User.id u1) members /\ In (User.id u2) members)
  /\ option_map Group.members
       (dict_get "g" (groups (runs Team.namesakes initial)))
     = Some ["c"; "b1"; "a"; "b2"].
Proof.
  intros Hpage Hme Hchat Hreq selected members.
  fold (named_members s (User.id me) selected) in members.
  assert (Hin : forall k u,
            In (k, u) (users s) -> k <> User.id me -> In (User.name u) selected ->
            In (User.id u) members).
  { intros k u Hu Hk Hn. right.
    apply (in_map (fun item => User.id (snd item)) _ (k, u)).
    now apply named_members_In. }
  split.
  { rewrite (run_main_page ui s Hpage), (main_page_some ui s me Hme).
    cbv zeta. rewrite Hreq.
    rewrite (pressed_chats_none _ _ _ Hchat), open_chats_nil.
    unfold created_group. now rewrite resolved_members_named. }
  split; [exact Hin|].
  split.
  { intros x [<-|Hx]; [now left|]. right.
    apply in_map_iff in Hx as ([k u] & <- & Hitem).
    apply named_members_In in Hitem as (Hu & Hk & Hn).
    now exists k, u. }
  split; [|now vm_compute].
  intros k1 u1 k2 u2 H1 H2 Hk1 Hk2 Hname Hsel. split.
  - now apply (Hin k1 u1).
  - apply (Hin k2 u2); [exact H2 | exact Hk2 | now rewrite <- Hname].
Qed.

Lemma group_members_by_name_witness :
  run (ui_create_group "Bobs" ["Bob"] "g" 9) Team.carol_after_bobs
  = (Stop RerunException,
     set_groups (dict_set "g" (Group.mk "g" "Bobs" "c" ["c"; "b1"; "b2"] 9))
       Team.carol_after_bobs).
Proof.
  set (s := Team.carol_after_bobs).
  assert (Hpage : current_page s <> "login") by (vm_compute; discriminate).
  assert (Hme : current_user s = Some (User.mk "c" "Carol" 32 "Other" true 0))
    by (vm_compute; reflexivity).
  exact (proj1 (group_members_by_name (ui_create_group "Bobs" ["Bob"] "g" 9) s _
                  Hpage Hme (fun k => eq_refl) eq_refl)).
Defined.

(** ** Opening and closing chat windows *)

Lemma quiet_login_page ui :
  form_submit_button ui "login_form" = false -> quiet (login_page ui).
Proof. intros H s. unfold login_page. now rewrite H. Qed.

Lemma open_chats_one me k (l : list string) s :
  open_chats
    (List.filter (fun k' => negb (String.eqb k' me) && String.eqb k' k) l) s
  = if negb (String.eqb k me) && str_in k l then open_chat k s else s.
Proof.
  assert (E : (list_to_set
                 (List.filter (fun k' => negb (String.eqb k' me) && String.eqb k' k) l)
               : gset string)
              = if negb (String.eqb k me) && str_in k l then {[k]} else ∅).
  { apply set_eq. intros x.
    rewrite elem_of_list_to_set, list_elem_of_In, List.filter_In, andb_true_iff.
    rewrite String.eqb_eq.
    destruct (negb (String.eqb k me) && str_in k l) eqn:Hc.
    - apply andb_true_iff in Hc as [Hne Hin]. apply str_in_In in Hin.
      rewrite elem_of_singleton. split; [now intros (_ & _ & ->)|].
      intros ->. now repeat split.
    - rewrite elem_of_empty. split; [|easy]. intros (Hin & Hne & ->).
      apply str_in_In in Hin. now rewrite Hne, Hin in Hc. }
  unfold open_chats, open_chat. rewrite E.
  destruct (negb (String.eqb k me) && str_in k l); [reflexivity|].
  apply set_active_chats_id. set_solver.
Qed.

Lemma sends_ui_button nest key c : sends (on_streamlit nest (ui_button key)) c = false.
Proof. unfold sends. cbn. now destruct (startswith c "group_"). Qed.

(** A chat button does the same on either kind of Streamlit. *)
Lemma openChatOn_spec nest k s :
  snd (run (on_streamlit nest (ui_open_chat k)) s)
  = if offers_chat s k then open_chat k s else s.
Proof.
  unfold offers_chat.
  destruct (String.eqb_spec (current_page s) "login") as [Hpage|Hpage]; cbn [negb andb].
  { rewrite (run_login_page _ _ Hpage). now apply quiet_login_page. }
  rewrite (run_main_page _ _ Hpage).
  destruct (current_user s) as [me|] eqn:Hme; [|now apply main_page_none].
  rewrite (main_page_sidebar_only _ s me Hme);
    [|reflexivity|reflexivity|reflexivity
     |intros c; split; [apply sends_ui_button | reflexivity]].
  unfold pressed_chats. apply open_chats_one.
Qed.

Lemma openChat_spec k s :
  openChat k s = if offers_chat s k then open_chat k s else s.
Proof. exact (openChatOn_spec true k s). Qed.

Lemma openChat_idempotent k s : openChat k (openChat k s) = openChat k s.
Proof.
  rewrite (openChat_spec k s). destruct (offers_chat s k) eqn:Ho.
  - rewrite openChat_spec. change (offers_chat (open_chat k s) k) with (offers_chat s k).
    rewrite Ho. unfold open_chat, set_active_chats. cbn. f_equal. set_solver.
  - rewrite openChat_spec. now rewrite Ho.
Qed.

Lemma close_chat_notin k s : k ∉ active_chats s -> close_chat k s = s.
Proof. intros H. apply set_active_chats_id. set_solver. Qed.

Lemma close_button_other nest c k :
  c <> k -> button (on_streamlit nest (ui_close_chat k)) ("close_" ++ c) = false.
Proof. intros H. change (String.eqb c k = false). now apply String.eqb_neq. Qed.

Lemma panels_close_cases nest k (l : list string) s :
  snd (for_each l (chat_panel (on_streamlit nest (ui_close_chat k))) s) = s
  \/ (k ∈ active_chats s
      /\ snd (for_each l (chat_panel (on_streamlit nest (ui_close_chat k))) s)
         = close_chat k s).
Proof.
  set (ui := on_streamlit nest (ui_close_chat k)).
  induction l as [|c l IH]; [now left|].
  cbn [for_each].
  assert (Hcases : snd (chat_panel ui c s) = s
                   \/ (k ∈ active_chats s
                       /\ chat_panel ui c s = (Stop RerunException, close_chat k s))).
  { destruct (String.eqb_spec c k) as [->|Hne].
    - destruct (chat_panel_cases ui k s (sends_ui_button _ _ _)) as [H|H];
        [now left|].
      destruct (decide (k ∈ active_chats s)) as [Hin|Hout]; [now right|].
      left. rewrite H. cbn. now apply close_chat_notin.
    - left. apply quiet_chat_panel;
        [apply sends_ui_button | now apply close_button_other]. }
  destruct Hcases as [Hq|[Hin Hclose]].
  - unfold bind. destruct (chat_panel ui c s) as [[[]|e] s'];
      cbn in Hq; subst s'; [exact IH | now left].
  - right. split; [exact Hin|]. now rewrite (bind_stop _ _ _ _ _ Hclose).
Qed.

Lemma closeChatOn_cases nest k s :
  closeChatOn nest k s = s
  \/ (k ∈ active_chats s /\ closeChatOn nest k s = close_chat k s).
Proof.
  unfold closeChatOn.
  destruct (String.eqb_spec (current_page s) "login") as [Hpage|Hpage].
  { left. rewrite (run_login_page _ _ Hpage). now apply quiet_login_page. }
  rewrite (run_main_page _ _ Hpage).
  destruct (current_user s) as [me|] eqn:Hme; [|left; now apply main_page_none].
  rewrite (main_page_some _ s me Hme). cbv zeta.
  change (group_request (on_streamlit nest (ui_close_chat k))) with false. cbv iota.
  rewrite pressed_chats_none, open_chats_nil by reflexivity.
  rewrite pressed_groups_none, open_chats_nil by reflexivity.
  change (button (on_streamlit nest (ui_close_chat k)) "🚪 Logout") with false.
  cbv iota.
  apply panels_close_cases.
Qed.

Lemma closeChatOn_idempotent nest k s :
  closeChatOn nest k (closeChatOn nest k s) = closeChatOn nest k s.
Proof.
  destruct (closeChatOn_cases nest k s) as [H|[_ H]]; rewrite H; [exact H|].
  destruct (closeChatOn_cases nest k (close_chat k s)) as [H'|[Hin _]]; [exact H'|].
  cbn in Hin. set_solver.
Qed.

Lemma closeChat_cases k s :
  closeChat k s = s \/ (k ∈ active_chats s /\ closeChat k s = close_chat k s).
Proof. exact (closeChatOn_cases true k s). Qed.

Lemma closeChat_idempotent k s : closeChat k (closeChat k s) = closeChat k s.
Proof. exact (closeChatOn_idempotent true k s). Qed.

Lemma panels_close_ok nest k (l : list string) s me :
  current_user s = Some me ->
  senders_known s ->
  (forall c, In c l -> panel_target s c) ->
  (forall c, In c l -> draws (on_streamlit nest (ui_close_chat k)) c = true) ->
  k ∈ active_chats s ->
  In k l ->
  for_each l (chat_panel (on_streamlit nest (ui_close_chat k))) s
  = (Stop RerunException, close_chat k s).
Proof.
  set (ui := on_streamlit nest (ui_close_chat k)).
  intros Hme Hknown Hl Hd Hk. induction l as [|c l IH]; intros Hin; [easy|].
  cbn [for_each]. destruct (String.eqb_spec c k) as [->|Hne].
  - rewrite (bind_stop _ _ _ _ _
               (chat_panel_close ui s me k Hme Hknown
                  (Hl k (or_introl eq_refl)) (Hd k (or_introl eq_refl))
                  (sends_ui_button _ _ _) (String.eqb_refl k) Hk)).
    reflexivity.
  - rewrite (bind_ok _ _ _ _ _
               (chat_panel_ok ui s me c Hme Hknown
                  (Hl c (or_introl eq_refl)) (Hd c (or_introl eq_refl))
                  (sends_ui_button _ _ _) (close_button_other nest c k Hne))).
    apply IH; [intros c' Hc'; apply Hl; now right
              |intros c' Hc'; apply Hd; now right|].
    destruct Hin as [E|Hin]; [congruence | exact Hin].
Qed.

Lemma draws_on_streamlit nest ui s c :
  nest = true \/ direct_only s ->
  c ∈ active_chats s ->
  draws (on_streamlit nest ui) c = true.
Proof.
  unfold draws. cbn [nested_expanders on_streamlit].
  intros [->|Hdirect] Hc; [reflexivity|].
  rewrite (Hdirect c Hc). apply orb_true_r.
Qed.

Lemma closeChatOn_run nest k s me :
  current_page s <> "login" ->
  current_user s = Some me ->
  renders s ->
  nest = true \/ direct_only s ->
  k ∈ active_chats s ->
  run (on_streamlit nest (ui_close_chat k)) s
  = (Stop RerunException, close_chat k s).
Proof.
  intros Hpage Hme [Hknown Htargets] Hnest Hk.
  rewrite (run_main_page _ _ Hpage), (main_page_some _ s me Hme). cbv zeta.
  change (group_request (on_streamlit nest (ui_close_chat k))) with false. cbv iota.
  rewrite pressed_chats_none, open_chats_nil by reflexivity.
  rewrite pressed_groups_none, open_chats_nil by reflexivity.
  change (button (on_streamlit nest (ui_close_chat k)) "🚪 Logout") with false.
  cbv iota.
  apply (panels_close_ok nest k _ s me Hme Hknown); [| |exact Hk|].
  - intros c Hc. apply Htargets. apply elem_of_elements. now apply list_elem_of_In.
  - intros c Hc. apply (draws_on_streamlit nest _ s c Hnest).
    apply elem_of_elements. now apply list_elem_of_In.
  - apply list_elem_of_In. now apply elem_of_elements.
Qed.

Lemma closeChat_run k s me :
  current_page s <> "login" ->
  current_user s = Some me ->
  renders s ->
  k ∈ active_chats s ->
  run (ui_close_chat k) s = (Stop RerunException, close_chat k s).
Proof.
  intros Hpage Hme Hr Hk.
  exact (closeChatOn_run true k s me Hpage Hme Hr (or_introl eq_refl) Hk).
Qed.

(** Where expanders do not nest, the close button of a group chat is
    never reached. *)
Lemma render_group_chat_stops ui gid s :
  nested_expanders ui = false ->
  exists e, render_group_chat ui gid s = (Stop e, s).
Proof.
  intros Hnest. destruct (dict_get gid (groups s)) as [g|] eqn:Hg.
  - eexists. now apply (render_group_chat_refused ui s gid g).
  - eexists. unfold render_group_chat. rewrite bind_get.
    now rewrite (bind_stop _ _ _ _ _ (getitem_none _ _ _ Hg)).
Qed.

Lemma chat_panel_group_quiet ui c s :
  nested_expanders ui = false ->
  startswith c "group_" = true ->
  snd (chat_panel ui c s) = s.
Proof.
  intros Hnest Hc. unfold chat_panel. rewrite bind_get, Hc. cbn [negb]. cbv iota.
  match goal with |- context [bind ?m ?f s] =>
    destruct (bind_quiet_cases m f s) as [[title ->]|H]; [| |exact H]
  end.
  { apply quiet_bind; intros; quiet_auto. }
  destruct (render_group_chat_stops ui (str_from 6 c) s Hnest) as (e & He).
  now rewrite (bind_stop _ _ _ _ _ He).
Qed.

Lemma closeChatOn_group_refused k s :
  startswith k "group_" = true -> closeChatOn false k s = s.
Proof.
  intros Hk. unfold closeChatOn.
  destruct (String.eqb_spec (current_page s) "login") as [Hpage|Hpage].
  { rewrite (run_login_page _ _ Hpage). now apply quiet_login_page. }
  rewrite (run_main_page _ _ Hpage).
  destruct (current_user s) as [me|] eqn:Hme; [|now apply main_page_none].
  rewrite (main_page_some _ s me Hme). cbv zeta.
  change (group_request (on_streamlit false (ui_close_chat k))) with false. cbv iota.
  rewrite pressed_chats_none, open_chats_nil by reflexivity.
  rewrite pressed_groups_none, open_chats_nil by reflexivity.
  change (button (on_streamlit false (ui_close_chat k)) "🚪 Logout") with false.
  cbv iota.
  apply quiet_for_each. intros c _ s'.
  destruct (String.eqb_spec c k) as [->|Hne].
  - now apply chat_panel_group_quiet.
  - apply quiet_chat_panel; [apply sends_ui_button | now apply close_button_other].
Qed.

Lemma renders_open_chat k s :
  renders s ->
  In k (dict_keys (users s)) ->
  startswith k "group_" = false ->
  renders (open_chat k s).
Proof.
  intros [Hknown Htargets] Hk Hprefix. split; [exact Hknown|].
  intros c Hc. cbn in Hc. apply elem_of_union in Hc as [Hc|Hc].
  - apply elem_of_singleton in Hc as ->. unfold panel_target. rewrite Hprefix.
    now apply dict_get_keys.
  - now apply Htargets.
Qed.

Lemma close_open_chat k s : k ∉ active_chats s -> close_chat k (open_chat k s) = s.
Proof.
  intros H. unfold close_chat, open_chat, set_active_chats. cbn.
  destruct s as [u cu m g a uc p]. cbn in *. f_equal. set_solver.
Qed.

(** ** Sessions the script can reach *)

Lemma dict_get_set_known {V} k (v : V) d k' :
  dict_get k' d <> None -> dict_get k' (dict_set k v d) <> None.
Proof. rewrite dict_get_set. now destruct (String.eqb k' k). Qed.

Lemma In_dict_get {V} k (v : V) d :
  In (k, v) d -> exists v', dict_get k d = Some v' /\ In (k, v') d.
Proof.
  induction d as [|[k0 v0] d IH]; [easy|]. cbn.
  destruct (String.eqb_spec k k0) as [->|Hne].
  - intros _. exists v0. split; [reflexivity | now left].
  - intros [[= E _]|H]; [congruence|].
    destruct (IH H) as (v' & Hv' & Hin). exists v'. split; [exact Hv' | now right].
Qed.

Lemma panel_target_users s s' c :
  groups s' = groups s ->
  (forall k, dict_get k (users s) <> None -> dict_get k (users s') <> None) ->
  panel_target s c -> panel_target s' c.
Proof.
  unfold panel_target. intros Hg Hu. rewrite Hg.
  destruct (startswith c "group_"); [|apply Hu].
  intros (g & Hget & Hmem). exists g. split; [exact Hget|].
  eapply List.Forall_impl; [|exact Hmem]. intros member. apply Hu.
Qed.

Lemma startswith_group gid : startswith ("group_" ++ gid) "group_" = true.
Proof. unfold startswith. cbn. now destruct gid. Qed.

Lemma str_from_group gid : str_from 6 ("group_" ++ gid) = gid.
Proof. reflexivity. Qed.

Lemma sent_message_sender ui me c : Message.sender_id (sent_message ui me c) = me.
Proof. unfold sent_message. now destruct (startswith c "group_"). Qed.

Lemma effect_well_formed ui s s' :
  plain_uuid ui -> effect ui s s' -> well_formed s -> well_formed s'.
Proof.
  intros Hplain Heff [Hkeys Hpl Hcur Hsend Hmem Htar].
  destruct Heff as [s Hpage|s me k Hme Hk Hne|s me Hme|s me gid g Hme Hg Hin
                   |s me Hme|s me c Hme Hc|s me c Hme Hc].
  - (* login *)
    assert (Hmono : forall k, dict_get k (users s) <> None ->
                      dict_get k (users (logged_in (new_user ui) s)) <> None).
    { intros k. apply dict_get_set_known. }
    split; cbn.
    + now apply Forall_dict_set.
    + now apply Forall_dict_set.
    + intros me [= <-]. rewrite dict_get_set. cbn. now rewrite String.eqb_refl.
    + intros msg Hmsg. apply Hmono. now apply Hsend.
    + eapply List.Forall_impl; [|exact Hmem]. intros item Hitem.
      eapply List.Forall_impl; [|exact Hitem]. intros member. apply Hmono.
    + intros c Hc. apply (panel_target_users s); [reflexivity | exact Hmono|].
      now apply Htar.
  - (* a chat button *)
    split; try assumption. cbn. intros c Hc.
    apply elem_of_union in Hc as [Hc|Hc]; [|now apply Htar].
    apply elem_of_singleton in Hc as ->. unfold panel_target.
    apply in_map_iff in Hk as ([k' u] & <- & Hitem).
    rewrite (proj1 (List.Forall_forall _ _) Hpl _ Hitem).
    apply dict_get_keys. now apply (in_map fst _ (k', u)).
  - (* the group form *)
    assert (Hnew : Forall (fun member => dict_get member (users s) <> None)
                     (resolved_members s (User.id me)
                        (multiselect ui "Add Members"))).
    { unfold resolved_members. constructor; [now apply Hcur|].
      apply List.Forall_forall. intros x Hx.
      apply in_map_iff in Hx as (u & <- & Hu).
      apply List.filter_In in Hu as [Hu _]. unfold available_users in Hu.
      apply in_map_iff in Hu as ([k u'] & E & Hitem). cbn in E. subst u'.
      apply List.filter_In in Hitem as [Hitem _].
      pose proof (proj1 (List.Forall_forall _ _) Hkeys _ Hitem) as E.
      cbn in E. rewrite E.
      apply dict_get_keys. now apply (in_map fst _ (k, u)). }
    split; try assumption; cbn.
    + now apply Forall_dict_set.
    + intros c Hc. specialize (Htar c Hc). unfold panel_target in *.
      destruct (startswith c "group_"); [|exact Htar].
      unfold set_groups. cbn [groups users]. destruct Htar as (g & Hget & Hg).
      destruct (String.eqb (str_from 6 c) (uuid4 ui)) eqn:E.
      * eexists. split; [rewrite dict_get_set, E; reflexivity | exact Hnew].
      * exists g. split; [rewrite dict_get_set, E; exact Hget | exact Hg].
  - (* a group button *)
    split; try assumption. intros c Hc. unfold set_active_chats in Hc.
    cbn [active_chats] in Hc.
    apply elem_of_union in Hc as [Hc|Hc]; [|now apply Htar].
    apply elem_of_singleton in Hc as ->. unfold panel_target.
    rewrite startswith_group, str_from_group.
    unfold set_active_chats. cbn [groups users].
    destruct (In_dict_get gid g (groups s) Hg) as (g' & Hget & Hin').
    exists g'. split; [exact Hget|].
    exact (proj1 (List.Forall_forall _ _) Hmem _ Hin').
  - (* logout *)
    split; try assumption. cbn. discriminate.
  - (* send *)
    split; try assumption. cbn. intros msg Hmsg.
    apply in_app_iff in Hmsg as [Hmsg|[<-|[]]]; [now apply Hsend|].
    rewrite sent_message_sender. now apply Hcur.
  - (* close *)
    split; try assumption. cbn. intros c' Hc'. apply Htar. set_solver.
Qed.

Lemma run_well_formed ui s :
  plain_uuid ui -> well_formed s -> well_formed (snd (run ui s)).
Proof.
  intros Hplain Hwf. pose proof (run_effects ui s) as Hrun.
  induction Hrun as [s|s s1 s2 Heff _ IH]; [exact Hwf|].
  apply IH. now apply (effect_well_formed ui s s1).
Qed.

Lemma initial_well_formed : well_formed initial.
Proof.
  split; cbn; try constructor; try easy.
Qed.

(** Every session reached from the initial one is well formed, so every
    lookup of its panels finds its key. *)
Theorem runs_well_formed (l : list UI) :
  Forall plain_uuid l -> well_formed (runs l initial) /\ renders (runs l initial).
Proof.
  intros Hl.
  assert (H : forall s, well_formed s -> well_formed (runs l s)).
  { induction Hl as [|ui l Hui _ IH]; intros s Hs; [exact Hs|].
    cbn. apply IH. now apply run_well_formed. }
  specialize (H initial initial_well_formed).
  split; [exact H|]. split; [apply (wf_senders _ H) | apply (wf_targets _ H)].
Qed.

Lemma runs_page_invariant (l : list UI) : page_invariant (runs l initial).
Proof.
  apply (runs_invariant _ effect_page_invariant). now split.
Qed.

(** In a session reached from the initial one and showing the main page,
    a user is logged in, and on a Streamlit that draws nested expanders
    closing any open chat removes its key. *)
Theorem reachable_close_chat (l : list UI) k :
  Forall plain_uuid l ->
  current_page (runs l initial) <> "login" ->
  k ∈ active_chats (runs l initial) ->
  run (ui_close_chat k) (runs l initial)
  = (Stop RerunException, close_chat k (runs l initial)).
Proof.
  intros Hl Hpage Hk.
  destruct (runs_well_formed l Hl) as [_ Hrenders].
  destruct (current_user (runs l initial)) as [me|] eqn:Hme.
  - now apply (closeChat_run k _ me).
  - now apply (runs_page_invariant l) in Hme.
Qed.

(** ** Sessions built with fresh ids *)

Lemma open_user_chats_opening ui me (ks : list string) s :
  current_user s = Some me ->
  (forall k, In k ks -> In k (dict_keys (users s)) /\ k <> User.id me) ->
  rtc (opening ui) s (open_chats ks s).
Proof.
  revert s. induction ks as [|k ks IH]; intros s Hme Hks.
  - rewrite open_chats_nil. apply rtc_refl.
  - rewrite <- open_chats_cons.
    destruct (Hks k (or_introl eq_refl)) as [Hk Hne].
    eapply rtc_l; [split; [now apply (eff_open_chat ui s me k) | now split]|].
    apply IH; [exact Hme|]. intros k' Hk'. apply Hks. now right.
Qed.

Lemma open_group_chats_opening ui me (items : dict Group.t) s :
  current_user s = Some me ->
  (forall item, In item items ->
     In item (groups s) /\ In (User.id me) (Group.members (snd item))) ->
  rtc (opening ui) s
    (open_chats (map (fun item => "group_" ++ fst item) items) s).
Proof.
  revert s. induction items as [|[gid g] items IH]; intros s Hme Hitems.
  - cbn. rewrite open_chats_nil. apply rtc_refl.
  - cbn [map fst]. rewrite <- open_chats_cons.
    destruct (Hitems (gid, g) (or_introl eq_refl)) as [Hin Hmem].
    eapply rtc_l; [split; [now apply (eff_open_group ui s me gid g) | now split]|].
    apply IH; [exact Hme|]. intros item Hitem. apply Hitems. now right.
Qed.

Lemma panels_effect_once ui me (l : list string) s :
  current_user s = Some me ->
  (forall c, In c l -> c ∈ active_chats s) ->
  snd (for_each l (chat_panel ui) s) = s
  \/ effect ui s (snd (for_each l (chat_panel ui) s)).
Proof.
  intros Hme. induction l as [|c l IH]; intros Hl; [now left|].
  cbn [for_each].
  assert (Hc : c ∈ active_chats s) by (apply Hl; now left).
  destruct (chat_panel_step ui s me c Hme) as [Hq|[Hclose|Hsend]].
  - unfold bind. destruct (chat_panel ui c s) as [[[]|e] s'] eqn:E;
      cbn in Hq; subst s'; cbn [snd].
    + apply IH. intros c' Hc'. apply Hl. now right.
    + now left.
  - right. rewrite (bind_stop _ _ _ _ _ Hclose). now apply (eff_close ui s me c).
  - right. rewrite (bind_stop _ _ _ _ _ Hsend). now apply (eff_send ui s me c).
Qed.

(** A run opens the chats whose buttons fired, and then has at most one
    more effect. *)
Lemma run_shape ui s :
  exists s2, rtc (opening ui) s s2
             /\ (snd (run ui s) = s2 \/ effect ui s2 (snd (run ui s))).
Proof.
  destruct (String.eqb_spec (current_page s) "login") as [Hpage|Hpage].
  { exists s. split; [apply rtc_refl|].
    rewrite (run_login_page ui s Hpage). unfold login_page.
    destruct (form_submit_button ui "login_form"
              && str_truthy (text_input ui "Full Name")
              && negb (String.eqb (selectbox ui "Gender") "Select Gender"));
      [right; now apply eff_login | now left]. }
  rewrite (run_main_page ui s Hpage).
  destruct (current_user s) as [me|] eqn:Hme;
    [|exists s; split; [apply rtc_refl | left; now apply main_page_none]].
  rewrite (main_page_some ui s me Hme). cbv zeta.
  set (s1 := open_chats (pressed_chats ui s (User.id me)) s).
  assert (H1 : rtc (opening ui) s s1).
  { apply (open_user_chats_opening ui me); [exact Hme|].
    intros k Hk. unfold pressed_chats in Hk. apply List.filter_In in Hk as [Hk Hb].
    split; [exact Hk|]. apply andb_true_iff in Hb as [Hb _].
    now destruct (String.eqb_spec k (User.id me)). }
  assert (Hme1 : current_user s1 = Some me) by exact Hme.
  destruct (group_request ui).
  { exists s1. split; [exact H1|]. right. now apply (eff_create_group ui s1 me). }
  set (s2 := open_chats (pressed_groups ui s1 (User.id me)) s1).
  assert (H2 : rtc (opening ui) s1 s2).
  { unfold s2, pressed_groups. apply (open_group_chats_opening ui me); [exact Hme1|].
    intros item Hitem. apply List.filter_In in Hitem as [Hitem Hb].
    split; [exact Hitem|]. apply andb_true_iff in Hb as [Hb _]. now apply str_in_In. }
  assert (Hme2 : current_user s2 = Some me) by exact Hme1.
  exists s2. split; [etrans; [exact H1 | exact H2]|].
  destruct (button ui "🚪 Logout"); [right; now apply (eff_logout ui s2 me)|].
  apply (panels_effect_once ui me); [exact Hme2|].
  intros c Hc. apply elem_of_elements. now apply list_elem_of_In.
Qed.

Lemma opening_fresh ui s s' : opening ui s s' -> fresh_uuid ui s -> fresh_uuid ui s'.
Proof. unfold fresh_uuid. intros (_ & -> & ->). easy. Qed.

Lemma effect_tidy ui s s' :
  fresh_uuid ui s -> effect ui s s' -> tidy s -> tidy s'.
Proof.
  intros (Hfu & Hfg & Hplain) Heff [Hwf Hids Hpeers Hmsgs].
  pose proof (effect_well_formed ui s s' Hplain Heff Hwf) as Hwf'.
  destruct Heff as [s Hpage|s me k Hme Hk Hne|s me Hme|s me gid g Hme Hg Hin
                   |s me Hme|s me c Hme Hc|s me c Hme Hc];
    split; try exact Hwf'; try exact Hids; try exact Hmsgs.
  - (* login: ids *)
    cbn. intros k. rewrite dict_get_set.
    destruct (String.eqb_spec k (uuid4 ui)) as [->|_]; [now intros _ | apply Hids].
  - (* login: peers *)
    cbn. intros c me Hc Hp [= <-]. cbn. intros ->.
    pose proof (wf_targets _ Hwf _ Hc) as Ht. unfold panel_target in Ht.
    rewrite Hp in Ht. now apply Ht.
  - (* a chat button: peers *)
    cbn. intros c me' Hc Hp Hme'. rewrite Hme in Hme'. injection Hme' as <-.
    apply elem_of_union in Hc as [Hc|Hc].
    + now apply elem_of_singleton in Hc as ->.
    + now apply (Hpeers c me).
  - (* the group form: ids *)
    cbn. intros k Hk. rewrite dict_get_set.
    destruct (String.eqb_spec k (uuid4 ui)) as [->|_]; [now destruct Hk | now apply Hids].
  - (* the group form: peers *)
    exact Hpeers.
  - (* a group button: peers *)
    cbn. intros c me' Hc Hp Hme'.
    apply elem_of_union in Hc as [Hc|Hc].
    + apply elem_of_singleton in Hc as ->. now rewrite startswith_group in Hp.
    + now apply (Hpeers c me').
  - (* logout: peers *)
    cbn. intros c me' _ _ [=].
  - (* send: peers *)
    exact Hpeers.
  - (* send: messages *)
    cbn. intros msg Hmsg.
    apply in_app_iff in Hmsg as [Hmsg|[<-|[]]]; [now apply Hmsgs|].
    pose proof (wf_targets _ Hwf _ Hc) as Ht.
    unfold panel_target in Ht. unfold sent_message.
    destruct (startswith c "group_") eqn:Hp;
      cbn [Message.sender_id Message.receiver_id].
    + destruct Ht as (g & Hg & _). intros E. rewrite <- E in Hg.
      rewrite (Hids (User.id me) (wf_current _ Hwf me Hme)) in Hg.
      discriminate Hg.
    + intros E. now apply (Hpeers c me Hc Hp Hme).
  - (* close: peers *)
    cbn. intros c' me' Hc' Hp Hme'. apply (Hpeers c' me'); [set_solver | easy | easy].
Qed.

Lemma run_tidy ui s : fresh_uuid ui s -> tidy s -> tidy (snd (run ui s)).
Proof.
  intros Hfresh Htidy.
  destruct (run_shape ui s) as (s2 & Hopen & Hlast).
  assert (H2 : fresh_uuid ui s2 /\ tidy s2).
  { clear Hlast. induction Hopen as [s|s s1 s2 Hstep _ IH]; [now split|].
    apply IH.
    - now apply (opening_fresh ui s s1).
    - apply (effect_tidy ui s s1); [exact Hfresh | apply Hstep | exact Htidy]. }
  destruct H2 as [Hfresh2 Htidy2].
  destruct Hlast as [-> | Hlast]; [exact Htidy2|].
  now apply (effect_tidy ui s2).
Qed.

Lemma runs_tidy (l : list UI) s : fresh_runs l s -> tidy s -> tidy (runs l s).
Proof.
  revert s. induction l as [|ui l IH]; intros s Hl Hs; [exact Hs|].
  destruct Hl as [Hfresh Hl]. cbn. apply IH; [exact Hl|]. now apply run_tidy.
Qed.

Lemma initial_tidy : tidy initial.
Proof. split; [apply initial_well_formed | easy | | easy]. intros c me Hc. easy. Qed.

(** What a chat window that is not sending shows, in any session. *)
Lemma chat_window_history ui s me other other_user :
  current_user s = Some me ->
  dict_get other (users s) = Some other_user ->
  senders_known s ->
  form_submit_button ui ("chat_form_" ++ other)
  && str_truthy (text_input ui ("message_input_" ++ other)) = false ->
  exists shown,
    render_chat_window ui other s = (Ok (map (row_of s) shown), s)
    /\ map snd (map (row_of s) shown) = shown
    /\ (forall msg, In msg shown <->
                    In msg (messages s) /\ between (User.id me) other msg = true)
    /\ StronglySorted
         (fun a b => Message.timestamp a <= Message.timestamp b) shown
    /\ (forall t,
          List.filter (fun msg => Message.timestamp msg =? t) shown
          = List.filter (fun msg => Message.timestamp msg =? t)
              (List.filter (between (User.id me) other) (messages s))).
Proof.
  intros Hme Hother Hknown Hquiet.
  exists (sorted Message.timestamp
            (List.filter (between (User.id me) other) (messages s))).
  split; [now apply (render_chat_window_show ui s me other other_user)|].
  split; [rewrite List.map_map; cbn; apply List.map_id|].
  split; [intros msg; now rewrite sorted_In, List.filter_In|].
  split; [apply sorted_sorted | intros t; apply sorted_stable].
Qed.

(** C1: in every session the script reaches while [uuid4()] hands out
    fresh ids, no stored message goes from a user to that same user, and
    the chat window of the current user [me] with a stored user [other]
    shows exactly the stored messages whose sender and receiver make up
    the set of [me] and [other], in ascending order of timestamp,
    messages with the same timestamp in the order in which they were
    stored. *)
Theorem direct_history (l : list UI) ui me other other_user :
  fresh_runs l initial ->
  current_user (runs l initial) = Some me ->
  dict_get other (users (runs l initial)) = Some other_user ->
  form_submit_button ui ("chat_form_" ++ other)
  && str_truthy (text_input ui ("message_input_" ++ other)) = false ->
  exists shown,
    render_chat_window ui other (runs l initial)
    = (Ok (map (row_of (runs l initial)) shown), runs l initial)
    /\ map snd (map (row_of (runs l initial)) shown) = shown
    /\ (forall msg,
          In msg shown <->
          In msg (messages (runs l initial)) /\ exact_pair (User.id me) other msg)
    /\ StronglySorted
         (fun a b => Message.timestamp a <= Message.timestamp b) shown
    /\ (forall t,
          List.filter (fun msg => Message.timestamp msg =? t) shown
          = List.filter (fun msg => Message.timestamp msg =? t)
              (List.filter (between (User.id me) other) (messages (runs l initial))))
    /\ (forall msg, In msg (messages (runs l initial)) ->
                    Message.sender_id msg <> Message.receiver_id msg).
Proof.
  intros Hl Hme Hother Hquiet.
  pose proof (runs_tidy l initial Hl initial_tidy) as [Hwf _ _ Hmsgs].
  destruct (chat_window_history ui (runs l initial) me other other_user
              Hme Hother (wf_senders _ Hwf) Hquiet)
    as (shown & H1 & H2 & H3 & H4 & H5).
  exists shown. repeat (split; [assumption|]). split; [|split; [|split]]; try assumption.
  intros msg. rewrite H3. split.
  - intros [Hin Hb]. split; [exact Hin|].
    now apply (between_exact _ _ _ (Hmsgs msg Hin)).
  - intros [Hin Hp]. split; [exact Hin|].
    now apply (between_exact _ _ _ (Hmsgs msg Hin)).
Qed.

Lemma direct_history_witness :
  exists shown,
    render_chat_window idle "u" (runs Scenario.two_peers initial)
    = (Ok (map (row_of (runs Scenario.two_peers initial)) shown),
       runs Scenario.two_peers initial)
    /\ In Scenario.one shown
    /\ In Scenario.two shown
    /\ ~ In Scenario.aside shown
    /\ StronglySorted
         (fun a b => Message.timestamp a <= Message.timestamp b) shown
    /\ List.filter (fun msg => Message.timestamp msg =? 5) shown
       = [Scenario.one; Scenario.three].
Proof.
  assert (Hfresh : fresh_runs Scenario.two_peers initial).
  { unfold Scenario.two_peers. cbn [fresh_runs].
    repeat apply conj; first [exact I | vm_compute; reflexivity]. }
  assert (Hme : current_user (runs Scenario.two_peers initial)
                = Some (User.mk "a" "A" 30 "Female" true 0))
    by (vm_compute; reflexivity).
  assert (Hu : dict_get "u" (users (runs Scenario.two_peers initial))
               = Some (User.mk "u" "U" 40 "Other" true 0))
    by (vm_compute; reflexivity).
  assert (Hmsgs : messages (runs Scenario.two_peers initial)
                  = [Scenario.one; Scenario.aside; Scenario.two; Scenario.three])
    by (vm_compute; reflexivity).
  destruct (direct_history Scenario.two_peers idle _ "u" _ Hfresh Hme Hu eq_refl)
    as (shown & H1 & _ & H3 & H4 & H5 & _).
  exists shown. rewrite Hmsgs in H3, H5.
  split; [exact H1|].
  split; [apply H3; split; [now left | reflexivity]|].
  split; [apply H3; split; [right; right; now left | reflexivity]|].
  split.
  { intros Hin. apply H3 in Hin as [_ E]. unfold exact_pair in E. cbn in E.
    assert (Hv : "v" ∈ ({["a"; "u"]} : gset string)).
    { rewrite <- E. apply elem_of_union_r. now apply elem_of_singleton. }
    apply elem_of_union in Hv as [Hv|Hv]; apply elem_of_singleton in Hv;
      discriminate Hv. }
  split; [exact H4 | exact (H5 5)].
Defined.

(** *** C7: a chat opened and closed again *)

Lemma plain_user_key s k :
  well_formed s -> In k (dict_keys (users s)) -> startswith k "group_" = false.
Proof.
  intros Hwf Hk. apply in_map_iff in Hk as (item & <- & Hitem).
  exact (proj1 (List.Forall_forall _ _) (wf_plain _ Hwf) _ Hitem).
Qed.

Lemma open_chats_same k (ks : list string) s :
  ks <> [] -> (forall x, In x ks -> x = k) -> open_chats ks s = open_chat k s.
Proof.
  intros Hne Hall. unfold open_chats, open_chat, set_active_chats.
  f_equal. f_equal.
  apply set_eq. intros x. rewrite elem_of_list_to_set, list_elem_of_In, elem_of_singleton.
  split; [apply Hall|]. intros ->.
  destruct ks as [|y ks]; [easy|]. left. apply Hall. now left.
Qed.

Lemma existsb_filter {A} (p : A -> bool) l :
  existsb p l = negb (match List.filter p l with [] => true | _ => false end).
Proof.
  induction l as [|x l IH]; [reflexivity|]. cbn. now destruct (p x).
Qed.

(** A group button does the same on either kind of Streamlit. *)
Lemma openGroupChatOn_spec nest gid s :
  snd (run (on_streamlit nest (ui_open_group gid)) s)
  = if offers_group s gid then open_chat ("group_" ++ gid) s else s.
Proof.
  unfold offers_group.
  destruct (String.eqb_spec (current_page s) "login") as [Hpage|Hpage]; cbn [negb andb].
  { rewrite (run_login_page _ _ Hpage). now apply quiet_login_page. }
  rewrite (run_main_page _ _ Hpage).
  destruct (current_user s) as [me|] eqn:Hme; [|now apply main_page_none].
  rewrite (main_page_some _ s me Hme). cbv zeta.
  change (group_request (on_streamlit nest (ui_open_group gid))) with false.
  cbv iota.
  rewrite pressed_chats_none, open_chats_nil by reflexivity.
  change (button (on_streamlit nest (ui_open_group gid)) "🚪 Logout") with false.
  cbv iota.
  rewrite quiet_panels
    by (intros c _; split; [apply sends_ui_button | reflexivity]).
  unfold pressed_groups.
  change (fun item : string * Group.t =>
            str_in (User.id me) (Group.members (snd item))
            && button (on_streamlit nest (ui_open_group gid))
                 ("group_btn_" ++ fst item))
    with (fun item : string * Group.t =>
            str_in (User.id me) (Group.members (snd item))
            && String.eqb (fst item) gid).
  rewrite existsb_filter.
  destruct (List.filter
              (fun item : string * Group.t =>
                 str_in (User.id me) (Group.members (snd item))
                 && String.eqb (fst item) gid) (groups s)) as [|item l] eqn:E.
  - cbn. apply open_chats_nil.
  - cbn [negb]. apply open_chats_same; [discriminate|].
    intros x Hx. apply in_map_iff in Hx as (item' & <- & Hitem).
    rewrite <- E in Hitem. apply List.filter_In in Hitem as [_ Hb].
    apply andb_true_iff in Hb as [_ Hb]. apply String.eqb_eq in Hb. now rewrite Hb.
Qed.

Lemma openGroupChat_spec gid s :
  openGroupChat gid s
  = if offers_group s gid then open_chat ("group_" ++ gid) s else s.
Proof. exact (openGroupChatOn_spec true gid s). Qed.

Lemma offers_group_member s gid me :
  current_user s = Some me ->
  offers_group s gid = true ->
  exists g, In (gid, g) (groups s) /\ In (User.id me) (Group.members g).
Proof.
  intros Hme. unfold offers_group. rewrite Hme, andb_true_iff, existsb_exists.
  intros (_ & [k g] & Hin & Hb). cbn in Hb.
  apply andb_true_iff in Hb as [Hm Hk]. apply String.eqb_eq in Hk. subst k.
  exists g. split; [exact Hin | now apply str_in_In].
Qed.

Lemma closeChatOn_removes nest k s :
  well_formed s -> page_invariant s ->
  current_page s <> "login" -> k ∈ active_chats s ->
  nest = true \/ direct_only s ->
  closeChatOn nest k s = close_chat k s.
Proof.
  intros Hwf Hinv Hpage Hk Hnest. unfold closeChatOn.
  destruct (current_user s) as [me|] eqn:Hme; [|now apply Hinv in Hme].
  rewrite (closeChatOn_run nest k s me Hpage Hme); [reflexivity| |exact Hnest|exact Hk].
  split; [apply (wf_senders _ Hwf) | apply (wf_targets _ Hwf)].
Qed.

Lemma open_chat_well_formed k s :
  well_formed s -> offers_chat s k = true -> well_formed (open_chat k s).
Proof.
  intros Hwf Ho. unfold offers_chat in Ho.
  apply andb_true_iff in Ho as [_ Ho].
  destruct (current_user s) as [me|] eqn:Hme; [|discriminate].
  apply andb_true_iff in Ho as [_ Hk]. apply str_in_In in Hk.
  destruct Hwf as [Hkeys Hpl Hcur Hsend Hmem Htar].
  split; try assumption.
  apply (renders_open_chat k s); [now split | exact Hk|].
  apply (plain_user_key s k); [now split | exact Hk].
Qed.

Lemma open_group_well_formed gid s :
  well_formed s -> offers_group s gid = true ->
  well_formed (open_chat ("group_" ++ gid) s).
Proof.
  intros Hwf Ho.
  destruct (current_user s) as [me|] eqn:Hme;
    [|unfold offers_group in Ho; rewrite Hme in Ho; now rewrite andb_false_r in Ho].
  destruct (offers_group_member s gid me Hme Ho) as (g & Hg & Hin).
  apply (effect_well_formed idle s); [reflexivity| |exact Hwf].
  now apply (eff_open_group idle s me gid g).
Qed.

Lemma offers_main_page s k : offers_chat s k = true -> current_page s <> "login".
Proof.
  unfold offers_chat. intros Ho. apply andb_true_iff in Ho as [Hpage _].
  now destruct (String.eqb_spec (current_page s) "login").
Qed.

Lemma offers_group_main_page s gid :
  offers_group s gid = true -> current_page s <> "login".
Proof.
  unfold offers_group. intros Ho. apply andb_true_iff in Ho as [Hpage _].
  now destruct (String.eqb_spec (current_page s) "login").
Qed.

Lemma offers_chat_plain s k :
  well_formed s -> offers_chat s k = true -> startswith k "group_" = false.
Proof.
  intros Hwf Ho. unfold offers_chat in Ho.
  apply andb_true_iff in Ho as [_ Ho].
  destruct (current_user s) as [me|]; [|discriminate].
  apply andb_true_iff in Ho as [_ Hk]. apply str_in_In in Hk.
  now apply (plain_user_key s k).
Qed.

Lemma close_after_open nest k s :
  well_formed s -> page_invariant s -> k ∉ active_chats s ->
  nest = true \/ direct_only s ->
  closeChatOn nest k (openChat k s) = s.
Proof.
  intros Hwf Hinv Hnew Hnest. rewrite openChat_spec.
  destruct (offers_chat s k) eqn:Ho.
  - rewrite (closeChatOn_removes nest k (open_chat k s)).
    + now apply close_open_chat.
    + now apply open_chat_well_formed.
    + exact Hinv.
    + exact (offers_main_page s k Ho).
    + cbn. set_solver.
    + destruct Hnest as [->|Hdirect]; [now left | right].
      intros c Hc. cbn in Hc. apply elem_of_union in Hc as [Hc|Hc].
      * apply elem_of_singleton in Hc as ->. now apply (offers_chat_plain s).
      * now apply Hdirect.
  - destruct (closeChatOn_cases nest k s) as [H|[Hin _]]; [exact H | easy].
Qed.

Lemma close_after_open_group gid s :
  well_formed s -> page_invariant s -> "group_" ++ gid ∉ active_chats s ->
  closeChatOn true ("group_" ++ gid) (openGroupChat gid s) = s.
Proof.
  intros Hwf Hinv Hnew. rewrite openGroupChat_spec.
  destruct (offers_group s gid) eqn:Ho.
  - rewrite (closeChatOn_removes true _ (open_chat ("group_" ++ gid) s)).
    + now apply close_open_chat.
    + now apply open_group_well_formed.
    + exact Hinv.
    + exact (offers_group_main_page s gid Ho).
    + cbn. set_solver.
    + now left.
  - destruct (closeChatOn_cases true ("group_" ++ gid) s) as [H|[Hin _]];
      [exact H | easy].
Qed.

Lemma open_chat_twice k s : open_chat k (open_chat k s) = open_chat k s.
Proof. unfold open_chat, set_active_chats. cbn. f_equal. set_solver. Qed.

(** Where expanders do not nest, no run takes an open group chat out of
    [active_chats], whatever the widgets return. *)
Lemma panels_keep_group ui me (l : list string) s c :
  current_user s = Some me ->
  nested_expanders ui = false ->
  startswith c "group_" = true ->
  c ∈ active_chats s ->
  c ∈ active_chats (snd (for_each l (chat_panel ui) s)).
Proof.
  intros Hme Hnest Hg Hc. induction l as [|c' l IH]; [exact Hc|].
  cbn [for_each].
  destruct (chat_panel_step ui s me c' Hme) as [Hq|[Hclose|Hsend]].
  - unfold bind. destruct (chat_panel ui c' s) as [[[]|e] s'] eqn:E;
      cbn in Hq; subst s'; [exact IH | exact Hc].
  - rewrite (bind_stop _ _ _ _ _ Hclose). cbn.
    apply elem_of_difference. split; [exact Hc|].
    intros Hc'. apply elem_of_singleton in Hc'. subst c'.
    pose proof (chat_panel_group_quiet ui c s Hnest Hg) as Hq.
    rewrite Hclose in Hq. cbn [snd] in Hq.
    assert (Hin : c ∈ active_chats (close_chat c s)) by now rewrite Hq.
    cbn in Hin. set_solver.
  - now rewrite (bind_stop _ _ _ _ _ Hsend).
Qed.

Lemma group_chat_stays_open ui s c :
  nested_expanders ui = false ->
  startswith c "group_" = true ->
  c ∈ active_chats s ->
  c ∈ active_chats (snd (run ui s)).
Proof.
  intros Hnest Hg Hc.
  destruct (String.eqb_spec (current_page s) "login") as [Hpage|Hpage].
  { rewrite (run_login_page ui s Hpage). unfold login_page.
    now destruct (form_submit_button ui "login_form"
                  && str_truthy (text_input ui "Full Name")
                  && negb (String.eqb (selectbox ui "Gender") "Select Gender")). }
  rewrite (run_main_page ui s Hpage).
  destruct (current_user s) as [me|] eqn:Hme;
    [|now rewrite (main_page_none ui s Hme)].
  rewrite (main_page_some ui s me Hme). cbv zeta.
  set (s1 := open_chats (pressed_chats ui s (User.id me)) s).
  assert (Hc1 : c ∈ active_chats s1) by (cbn; set_solver).
  destruct (group_request ui); [exact Hc1|].
  set (s2 := open_chats (pressed_groups ui s1 (User.id me)) s1).
  assert (Hc2 : c ∈ active_chats s2) by (cbn; set_solver).
  destruct (button ui "🚪 Logout"); [exact Hc2|].
  now apply (panels_keep_group ui me).
Qed.

(** C7, as stated, fails twice over.  With the chat with Bob already
    open, opening it again and closing it leaves no chat open.  And on a
    Streamlit that refuses nested expanders, Carol's group chat, once
    opened from a page with no chat open, is never closed again: its
    panel stops the run before the close button, so the key stays in
    [active_chats] after every run, whatever the widgets return. *)
Lemma open_then_close_differs :
  elements (active_chats Team.alice_chatting) = ["b"]
  /\ elements (active_chats (closeChat "b" (openChat "b" Team.alice_chatting))) = []
  /\ active_chats (closeChat "b" (openChat "b" Team.alice_chatting))
     <> active_chats Team.alice_chatting
  /\ elements (active_chats Lobby.session) = []
  /\ run (on_streamlit false (ui_open_group "g")) Lobby.session
     = (Stop StreamlitAPIException, open_chat "group_g" Lobby.session)
  /\ (forall ui,
        nested_expanders ui = false ->
        "group_g" ∈ active_chats (snd (run ui (open_chat "group_g" Lobby.session)))).
Proof.
  assert (H : elements (active_chats
                          (closeChat "b" (openChat "b" Team.alice_chatting))) = [])
    by now vm_compute.
  assert (H0 : elements (active_chats Team.alice_chatting) = ["b"])
    by now vm_compute.
  split; [exact H0|]. split; [exact H|].
  split; [intros E; rewrite E, H0 in H; discriminate H|].
  split; [now vm_compute|]. split; [now vm_compute|].
  intros ui Hnest. apply group_chat_stays_open; [exact Hnest | reflexivity|].
  cbn. set_solver.
Qed.

(** C7, amended: a chat button, and the button of a group, adds its key
    to [active_chats], on either kind of Streamlit; the close button of
    a panel removes its key or leaves the session as it is; doing any of
    them twice is the same as doing it once.  In a well-formed session,
    for a key that is not yet in [active_chats], opening its chat and
    closing it again gives back the session as it was, provided the
    Streamlit of the run draws every open panel: any Streamlit while no
    group chat is open, and one that draws nested expanders otherwise.
    On a Streamlit that refuses them no run takes the key of a group
    chat out of [active_chats]. *)
Theorem open_close_chat nest k s :
  well_formed s ->
  page_invariant s ->
  k ∉ active_chats s ->
  nest = true \/ direct_only s ->
  (forall n k' s',
     snd (run (on_streamlit n (ui_open_chat k')) s')
     = if offers_chat s' k' then open_chat k' s' else s')
  /\ (forall n gid s',
        snd (run (on_streamlit n (ui_open_group gid)) s')
        = if offers_group s' gid then open_chat ("group_" ++ gid) s' else s')
  /\ (forall n k' s',
        closeChatOn n k' s' = s' \/ closeChatOn n k' s' = close_chat k' s')
  /\ (forall k' s', openChat k' (openChat k' s') = openChat k' s')
  /\ (forall gid s',
        openGroupChat gid (openGroupChat gid s') = openGroupChat gid s')
  /\ (forall n k' s',
        closeChatOn n k' (closeChatOn n k' s') = closeChatOn n k' s')
  /\ (forall k', current_page s <> "login" -> k' ∈ active_chats s ->
                 closeChatOn nest k' s = close_chat k' s)
  /\ closeChatOn nest k (openChat k s) = s
  /\ (forall gid, k = "group_" ++ gid ->
                  closeChatOn true k (openGroupChat gid s) = s)
  /\ (forall k' s', startswith k' "group_" = true -> closeChatOn false k' s' = s')
  /\ (forall ui k' s',
        nested_expanders ui = false -> startswith k' "group_" = true ->
        k' ∈ active_chats s' -> k' ∈ active_chats (snd (run ui s'))).
Proof.
  intros Hwf Hinv Hnew Hnest.
  split; [apply openChatOn_spec|].
  split; [apply openGroupChatOn_spec|].
  split.
  { intros n k' s'. destruct (closeChatOn_cases n k' s') as [H|[_ H]]; auto. }
  split; [apply openChat_idempotent|].
  split.
  { intros gid s'. rewrite (openGroupChat_spec gid s').
    destruct (offers_group s' gid) eqn:Ho; rewrite openGroupChat_spec.
    - change (offers_group (open_chat ("group_" ++ gid) s') gid)
        with (offers_group s' gid).
      rewrite Ho. apply open_chat_twice.
    - now rewrite Ho. }
  split; [apply closeChatOn_idempotent|].
  split; [intros k' Hpage Hk'; now apply closeChatOn_removes|].
  split; [now apply close_after_open|].
  split; [intros gid ->; now apply close_after_open_group|].
  split; [apply closeChatOn_group_refused|].
  intros ui k' s'. apply group_chat_stays_open.
Qed.

Lemma open_close_chat_witness :
  active_chats (openChat "b" Team.alice_after_bob)
  = {["b"]} ∪ active_chats Team.alice_after_bob
  /\ closeChatOn false "b" (openChat "b" Team.alice_after_bob) = Team.alice_after_bob
  /\ closeChatOn true "group_g" (openGroupChat "g" (runs Team.alice_first initial))
     = runs Team.alice_first initial.
Proof.
  assert (Hplain : Forall plain_uuid
                     [ui_login "Bob" 31 "Male" "b"; ui_logout;
                      ui_login "Alice" 30 "Female" "a"]).
  { repeat constructor. }
  assert (Hplain' : Forall plain_uuid Team.alice_first) by (repeat constructor).
  assert (Hnew : "b" ∉ active_chats Team.alice_after_bob).
  { change (active_chats Team.alice_after_bob) with (∅ : gset string).
    apply not_elem_of_empty. }
  assert (Hdirect : direct_only Team.alice_after_bob).
  { intros c Hc. change (active_chats Team.alice_after_bob) with (∅ : gset string) in Hc.
    now apply not_elem_of_empty in Hc. }
  assert (Hnew' : "group_g" ∉ active_chats (runs Team.alice_first initial)).
  { change (active_chats (runs Team.alice_first initial)) with (∅ : gset string).
    apply not_elem_of_empty. }
  assert (Hoffer : offers_chat Team.alice_after_bob "b" = true)
    by (vm_compute; reflexivity).
  pose proof (open_close_chat false "b" Team.alice_after_bob
                (proj1 (runs_well_formed _ Hplain)) (runs_page_invariant _) Hnew
                (or_intror Hdirect))
    as (Hopen & _ & _ & _ & _ & _ & _ & Hround & _).
  pose proof (open_close_chat true "group_g" (runs Team.alice_first initial)
                (proj1 (runs_well_formed _ Hplain')) (runs_page_invariant _) Hnew'
                (or_introl eq_refl))
    as (_ & _ & _ & _ & _ & _ & _ & _ & Hgroup & _).
  split; [|split; [exact Hround | exact (Hgroup "g" eq_refl)]].
  unfold openChat. change (ui_open_chat "b") with (on_streamlit true (ui_open_chat "b")).
  rewrite Hopen, Hoffer. reflexivity.
Defined.

(** The round trip for every session the script reaches, on a Streamlit
    that draws nested expanders. *)
Theorem reachable_open_close (l : list UI) k :
  Forall plain_uuid l ->
  k ∉ active_chats (runs l initial) ->
  closeChat k (openChat k (runs l initial)) = runs l initial.
Proof.
  intros Hl Hnew.
  apply (close_after_open true);
    [apply (runs_well_formed l Hl) | apply runs_page_invariant | exact Hnew | now left].
Qed.

(** ** Errors *)

Lemma comprehension_if_stop {A} (x : A) l cond e s :
  cond x s = (Stop e, s) -> comprehension_if (x :: l) cond s = (Stop e, s).
Proof. intros H. cbn [comprehension_if]. now rewrite (bind_stop _ _ _ _ _ H). Qed.

(** X1: the main page drawn while nobody is logged in stops with an
    [AttributeError] on [current_user] before it has changed anything,
    whatever the widgets return. *)
Theorem main_page_without_user ui s :
  current_user s = None -> main_page ui s = (Stop AttributeError, s).
Proof.
  intros Hme. unfold main_page.
  assert (Hside : sidebar_users ui s = (Ok tt, s)
                  \/ sidebar_users ui s = (Stop AttributeError, s)).
  { unfold sidebar_users. rewrite bind_get.
    destruct (users s) as [|item l]; [now left|]. right.
    cbn [for_each]. unfold bind at 1 2.
    now rewrite (current_user_attr_none _ _ Hme). }
  destruct Hside as [Hside|Hside];
    [rewrite (bind_ok _ _ _ _ _ Hside) | now rewrite (bind_stop _ _ _ _ _ Hside)].
  assert (Hform : create_group_form ui s = (Ok tt, s)
                  \/ create_group_form ui s = (Stop AttributeError, s)).
  { unfold create_group_form. rewrite bind_get.
    destruct (users s) as [|item l].
    - cbn [comprehension_if]. rewrite bind_ret.
      destruct (form_submit_button ui "create_group_form"); [|now left].
      cbn [when].
      destruct (str_truthy (text_input ui "Group Name")
                && list_truthy (multiselect ui "Add Members")); [|now left].
      right. unfold bind at 1. now rewrite (current_user_attr_none _ _ Hme).
    - right. erewrite bind_stop; [reflexivity|].
      apply comprehension_if_stop.
      now rewrite (bind_stop _ _ _ _ _ (current_user_attr_none _ _ Hme)). }
  destruct Hform as [Hform|Hform];
    [rewrite (bind_ok _ _ _ _ _ Hform) | now rewrite (bind_stop _ _ _ _ _ Hform)].
  assert (Hgroups : sidebar_groups ui s = (Ok tt, s)
                    \/ sidebar_groups ui s = (Stop AttributeError, s)).
  { unfold sidebar_groups. rewrite bind_get.
    destruct (groups s) as [|item l]; [now left|]. right.
    cbn [list_truthy when for_each]. unfold bind at 1 2.
    now rewrite (current_user_attr_none _ _ Hme). }
  destruct Hgroups as [Hgroups|Hgroups];
    [rewrite (bind_ok _ _ _ _ _ Hgroups) | now rewrite (bind_stop _ _ _ _ _ Hgroups)].
  now rewrite (bind_stop _ _ _ _ _ (header_none ui s Hme)).
Qed.

Lemma main_page_without_user_witness :
  main_page ui_logout (logged_out Notebook.session)
  = (Stop AttributeError, logged_out Notebook.session).
Proof.
  exact (main_page_without_user ui_logout (logged_out Notebook.session) eq_refl).
Defined.

(** X2: a chat window for a user id that is not a key of [users], and a
    group chat for a group id that is not a key of [groups], stop with a
    [KeyError] on that id and leave the session as it is, also when
    their send form is submitted with a text: the text is not stored. *)
Theorem chat_window_unknown_key ui s k :
  dict_get k (users s) = None ->
  dict_get k (groups s) = None ->
  startswith k "group_" = false ->
  render_chat_window ui k s = (Stop (KeyError k), s)
  /\ render_group_chat ui k s = (Stop (KeyError k), s)
  /\ chat_panel ui k s = (Stop (KeyError k), s)
  /\ chat_panel ui ("group_" ++ k) s = (Stop (KeyError k), s).
Proof.
  intros Hu Hg Hp.
  split; [|split; [|split]].
  - unfold render_chat_window. rewrite bind_get.
    now rewrite (bind_stop _ _ _ _ _ (getitem_none _ _ _ Hu)).
  - unfold render_group_chat. rewrite bind_get.
    now rewrite (bind_stop _ _ _ _ _ (getitem_none _ _ _ Hg)).
  - unfold chat_panel. rewrite bind_get, Hp. cbn [negb]. cbv iota.
    unfold bind at 1 2. now rewrite (getitem_none _ _ _ Hu).
  - unfold chat_panel. rewrite bind_get, startswith_group, str_from_group.
    cbn [negb]. cbv iota.
    unfold bind at 1 2. now rewrite (getitem_none _ _ _ Hg).
Qed.

Lemma chat_window_unknown_key_witness :
  render_chat_window (ui_send "z" "hello" "m" 1) "z" Notebook.session
  = (Stop (KeyError "z"), Notebook.session)
  /\ chat_panel idle "group_z" Notebook.session
     = (Stop (KeyError "z"), Notebook.session).
Proof.
  pose proof (chat_window_unknown_key (ui_send "z" "hello" "m" 1)
                Notebook.session "z" eq_refl eq_refl eq_refl) as (H1 & _).
  pose proof (chat_window_unknown_key idle
                Notebook.session "z" eq_refl eq_refl eq_refl) as (_ & _ & _ & H4).
  split; [exact H1 | exact H4].
Defined.

(** ** What a reachable session guarantees *)

Lemma rtc_well_formed ui s s' :
  plain_uuid ui -> rtc (effect ui) s s' -> well_formed s -> well_formed s'.
Proof.
  intros Hplain Hrtc. induction Hrtc as [s|s s1 s2 Heff _ IH]; [easy|].
  intros Hwf. apply IH. now apply (effect_well_formed ui s s1).
Qed.

Lemma sidebar_well_formed ui s me :
  current_user s = Some me ->
  well_formed s ->
  well_formed
    (open_chats (pressed_groups ui (open_chats (pressed_chats ui s (User.id me)) s)
                   (User.id me))
       (open_chats (pressed_chats ui s (User.id me)) s)).
Proof.
  intros Hme Hwf.
  assert (Hplain : plain_uuid idle) by reflexivity.
  set (s1 := open_chats (pressed_chats ui s (User.id me)) s).
  assert (H1 : rtc (effect idle) s s1).
  { apply (open_user_chats idle me); [exact Hme|].
    intros k Hk. unfold pressed_chats in Hk. apply List.filter_In in Hk as [Hk Hb].
    split; [exact Hk|]. apply andb_true_iff in Hb as [Hb _].
    now destruct (String.eqb_spec k (User.id me)). }
  assert (H2 : rtc (effect idle) s1 (open_chats (pressed_groups ui s1 (User.id me)) s1)).
  { unfold pressed_groups. apply (open_group_chats idle me); [exact Hme|].
    intros item Hitem. apply List.filter_In in Hitem as [Hitem Hb].
    split; [exact Hitem|]. apply andb_true_iff in Hb as [Hb _]. now apply str_in_In. }
  apply (rtc_well_formed idle s1 _ Hplain H2).
  now apply (rtc_well_formed idle s s1 Hplain H1).
Qed.

Lemma draws_false ui c :
  draws ui c = false -> nested_expanders ui = false /\ startswith c "group_" = true.
Proof.
  unfold draws. intros H. apply orb_false_iff in H as [H1 H2].
  now apply negb_false_iff in H2.
Qed.

Lemma panels_no_raise ui me (l : list string) s :
  current_user s = Some me ->
  senders_known s ->
  (forall c, In c l -> panel_target s c /\ c ∈ active_chats s) ->
  fst (for_each l (chat_panel ui) s) = Ok tt
  \/ fst (for_each l (chat_panel ui) s) = Stop RerunException
  \/ (for_each l (chat_panel ui) s = (Stop StreamlitAPIException, s)
      /\ nested_expanders ui = false
      /\ exists c, In c l /\ startswith c "group_" = true).
Proof.
  intros Hme Hknown. induction l as [|c l IH]; intros Hl; [now left|].
  cbn [for_each]. destruct (Hl c (or_introl eq_refl)) as [Ht Hc].
  destruct (draws ui c) eqn:Hd.
  - destruct (sends ui c) eqn:Hs.
    + right. left.
      now rewrite (bind_stop _ _ _ _ _ (chat_panel_send ui s me c Hme Ht Hd Hs)).
    + destruct (button ui ("close_" ++ c)) eqn:Hb.
      * right. left.
        now rewrite (bind_stop _ _ _ _ _
                       (chat_panel_close ui s me c Hme Hknown Ht Hd Hs Hb Hc)).
      * rewrite (bind_ok _ _ _ _ _ (chat_panel_ok ui s me c Hme Hknown Ht Hd Hs Hb)).
        destruct IH as [H|[H|(H & Hnest & c' & Hc' & Hg)]];
          [intros c' Hc'; apply Hl; now right | now left | now right; left |].
        right. right. split; [exact H|]. split; [exact Hnest|].
        exists c'. split; [now right | exact Hg].
  - right. right. destruct (draws_false ui c Hd) as [Hnest Hg].
    rewrite (bind_stop _ _ _ _ _ (chat_panel_refused ui s c Ht Hd)).
    split; [reflexivity|]. split; [exact Hnest|].
    exists c. split; [now left | exact Hg].
Qed.

Lemma run_no_raise ui s :
  well_formed s -> page_invariant s ->
  fst (run ui s) = Ok tt
  \/ fst (run ui s) = Stop RerunException
  \/ (fst (run ui s) = Stop StreamlitAPIException
      /\ nested_expanders ui = false
      /\ exists c, c ∈ active_chats (snd (run ui s)) /\ startswith c "group_" = true).
Proof.
  intros Hwf Hinv.
  destruct (String.eqb_spec (current_page s) "login") as [Hpage|Hpage].
  { rewrite (run_login_page ui s Hpage). unfold login_page.
    destruct (form_submit_button ui "login_form"
              && str_truthy (text_input ui "Full Name")
              && negb (String.eqb (selectbox ui "Gender") "Select Gender"));
      [right; now left | now left]. }
  rewrite (run_main_page ui s Hpage).
  destruct (current_user s) as [me|] eqn:Hme; [|now apply Hinv in Hme].
  rewrite (main_page_some ui s me Hme). cbv zeta.
  destruct (group_request ui); [right; now left|].
  destruct (button ui "🚪 Logout"); [right; now left|].
  pose proof (sidebar_well_formed ui s me Hme Hwf) as Hwf2.
  match goal with |- context [for_each ?l _ ?s2] =>
    destruct (panels_no_raise ui me l s2 Hme (wf_senders _ Hwf2))
      as [H|[H|(H & Hnest & c & Hc & Hg)]]
  end.
  - intros c Hc. apply list_elem_of_In, elem_of_elements in Hc.
    split; [now apply (wf_targets _ Hwf2) | exact Hc].
  - now left.
  - right. now left.
  - right. right. rewrite H. cbn [fst snd]. split; [reflexivity|].
    split; [exact Hnest|]. exists c.
    split; [now apply elem_of_elements, list_elem_of_In | exact Hg].
Qed.

(** Where expanders do not nest, a page with a group chat open stops at
    that panel when nothing before it ends the run. *)
Lemma panels_refused ui me (l : list string) s :
  current_user s = Some me ->
  senders_known s ->
  (forall c, In c l -> panel_target s c) ->
  nested_expanders ui = false ->
  (forall c, In c l -> startswith c "group_" = false ->
     sends ui c = false /\ button ui ("close_" ++ c) = false) ->
  (exists c, In c l /\ startswith c "group_" = true) ->
  for_each l (chat_panel ui) s = (Stop StreamlitAPIException, s).
Proof.
  intros Hme Hknown Hl Hnest Hquiet. induction l as [|c l IH]; intros (g & Hg & Hp);
    [easy|].
  cbn [for_each]. destruct (startswith c "group_") eqn:Hc.
  - assert (Hd : draws ui c = false) by (unfold draws; now rewrite Hnest, Hc).
    now rewrite (bind_stop _ _ _ _ _
                   (chat_panel_refused ui s c (Hl c (or_introl eq_refl)) Hd)).
  - destruct (Hquiet c (or_introl eq_refl) Hc) as [Hs Hb].
    assert (Hd : draws ui c = true) by (unfold draws; rewrite Hc; apply orb_true_r).
    rewrite (bind_ok _ _ _ _ _
               (chat_panel_ok ui s me c Hme Hknown (Hl c (or_introl eq_refl))
                  Hd Hs Hb)).
    apply IH.
    + intros c' Hc'. apply Hl. now right.
    + intros c' Hc'. apply Hquiet. now right.
    + exists g. split; [|exact Hp]. destruct Hg as [->|Hg]; [congruence | exact Hg].
Qed.

(** X3: in every session reached from the initial one, no lookup of the
    script fails, whatever the widgets return: a run never ends in a
    [KeyError] or an [AttributeError].  It ends at its last line or in
    [st.rerun()], or else in the [StreamlitAPIException] of the nested
    expander, which takes a Streamlit that refuses such expanders and an
    open group chat; on such a Streamlit a page with a group chat open
    and no widget fired does end that way, every time it is drawn. *)
Theorem reachable_never_raises (l : list UI) ui :
  Forall plain_uuid l ->
  (fst (run ui (runs l initial)) = Ok tt
   \/ fst (run ui (runs l initial)) = Stop RerunException
   \/ fst (run ui (runs l initial)) = Stop StreamlitAPIException)
  /\ (fst (run ui (runs l initial)) = Stop StreamlitAPIException ->
      nested_expanders ui = false
      /\ exists c, c ∈ active_chats (snd (run ui (runs l initial)))
                   /\ startswith c "group_" = true)
  /\ (forall k, fst (run ui (runs l initial)) <> Stop (KeyError k))
  /\ fst (run ui (runs l initial)) <> Stop AttributeError
  /\ (forall c, c ∈ active_chats (runs l initial) ->
                startswith c "group_" = true ->
                current_page (runs l initial) <> "login" ->
                run (on_streamlit false idle) (runs l initial)
                = (Stop StreamlitAPIException, runs l initial)).
Proof.
  intros Hl.
  pose proof (proj1 (runs_well_formed l Hl)) as Hwf.
  pose proof (runs_page_invariant l) as Hinv.
  pose proof (run_no_raise ui (runs l initial) Hwf Hinv) as H.
  split; [|split; [|split; [|split]]].
  - destruct H as [H|[H|[H _]]]; auto.
  - intros E. destruct H as [H|[H|[_ H]]]; [congruence | congruence | exact H].
  - intros k E. destruct H as [H|[H|[H _]]]; congruence.
  - intros E. destruct H as [H|[H|[H _]]]; congruence.
  - intros c Hc Hg Hpage. set (s := runs l initial) in *.
    destruct (current_user s) as [me|] eqn:Hme; [|now apply Hinv in Hme].
    rewrite (run_main_page _ _ Hpage), (main_page_some _ s me Hme). cbv zeta.
    change (group_request (on_streamlit false idle)) with false. cbv iota.
    rewrite pressed_chats_none, open_chats_nil by reflexivity.
    rewrite pressed_groups_none, open_chats_nil by reflexivity.
    change (button (on_streamlit false idle) "🚪 Logout") with false. cbv iota.
    apply (panels_refused _ me); try easy.
    + apply (wf_senders _ Hwf).
    + intros c' Hc'. apply (wf_targets _ Hwf).
      now apply elem_of_elements, list_elem_of_In.
    + intros c' _ Hc'. split; [|reflexivity].
      unfold sends. rewrite Hc'. reflexivity.
    + exists c. split; [|exact Hg]. now apply list_elem_of_In, elem_of_elements.
Qed.

Lemma reachable_never_raises_witness :
  fst (run (on_streamlit false idle) (runs Lobby.chatter initial))
  = Stop StreamlitAPIException
  /\ fst (run (on_streamlit true idle) (runs Lobby.chatter initial))
     <> Stop StreamlitAPIException
  /\ fst (run (on_streamlit false (ui_send "a" "hm" "m4" 8))
            (runs Lobby.chatter initial))
     <> Stop AttributeError.
Proof.
  assert (Hplain : Forall plain_uuid Lobby.chatter) by (repeat constructor).
  assert (Hopen : "group_g" ∈ active_chats (runs Lobby.chatter initial)).
  { apply elem_of_elements. vm_compute. now left. }
  assert (Hstarts : startswith "group_g" "group_" = true) by reflexivity.
  assert (Hpage : current_page (runs Lobby.chatter initial) <> "login")
    by (vm_compute; discriminate).
  pose proof (reachable_never_raises Lobby.chatter (on_streamlit false idle) Hplain)
    as (_ & _ & _ & _ & Hstop).
  pose proof (reachable_never_raises Lobby.chatter (on_streamlit true idle) Hplain)
    as (_ & Hnest & _).
  pose proof (reachable_never_raises Lobby.chatter
                (on_streamlit false (ui_send "a" "hm" "m4" 8)) Hplain)
    as (_ & _ & _ & Hattr & _).
  specialize (Hstop "group_g" Hopen Hstarts Hpage).
  split; [|split].
  - rewrite Hstop. reflexivity.
  - intros E. destruct (Hnest E) as [E' _]. discriminate E'.
  - exact Hattr.
Defined.

(** X4: in every session reached from the initial one, each user is
    stored under its own id, the current user is stored, the sender of
    each message and the members of each group are stored users, and
    each key of [active_chats] names a stored user or, behind the prefix
    [group_], a stored group. *)
Theorem reachable_integrity (l : list UI) :
  Forall plain_uuid l ->
  Forall (fun item => User.id (snd item) = fst item) (users (runs l initial))
  /\ (forall me, current_user (runs l initial) = Some me ->
                 dict_get (User.id me) (users (runs l initial)) <> None)
  /\ (forall msg, In msg (messages (runs l initial)) ->
                  dict_get (Message.sender_id msg) (users (runs l initial)) <> None)
  /\ (forall gid g member,
        In (gid, g) (groups (runs l initial)) -> In member (Group.members g) ->
        dict_get member (users (runs l initial)) <> None)
  /\ (forall c, c ∈ active_chats (runs l initial) ->
        if startswith c "group_"
        then dict_get (str_from 6 c) (groups (runs l initial)) <> None
        else dict_get c (users (runs l initial)) <> None).
Proof.
  intros Hl. destruct (proj1 (runs_well_formed l Hl))
    as [Hkeys _ Hcur Hsend Hmem Htar].
  split; [exact Hkeys|]. split; [exact Hcur|]. split; [exact Hsend|]. split.
  - intros gid g member Hg Hm.
    pose proof (proj1 (List.Forall_forall _ _) Hmem _ Hg) as H. cbn in H.
    exact (proj1 (List.Forall_forall _ _) H _ Hm).
  - intros c Hc. specialize (Htar c Hc). unfold panel_target in Htar.
    destruct (startswith c "group_"); [|exact Htar].
    destruct Htar as (g & -> & _). discriminate.
Qed.

Lemma reachable_integrity_witness :
  Forall (fun item => User.id (snd item) = fst item)
    (users (runs Team.alice_first initial))
  /\ (forall msg, In msg (messages (runs Team.alice_first initial)) ->
                  dict_get (Message.sender_id msg)
                    (users (runs Team.alice_first initial)) <> None).
Proof.
  assert (Hplain : Forall plain_uuid Team.alice_first) by (repeat constructor).
  pose proof (reachable_integrity Team.alice_first Hplain) as (H1 & _ & H3 & _).
  split; [exact H1 | exact H3].
Defined.

(** ** The shape of a run *)

Lemma panels_outcome ui me (l : list string) s :
  current_user s = Some me ->
  snd (for_each l (chat_panel ui) s) = s
  \/ (exists c, for_each l (chat_panel ui) s
                = (Stop RerunException, close_chat c s))
  \/ (exists c, for_each l (chat_panel ui) s
                = (Stop RerunException,
                   append_message (sent_message ui (User.id me) c) s)).
Proof.
  intros Hme. induction l as [|c l IH]; [now left|].
  cbn [for_each].
  destruct (chat_panel_step ui s me c Hme) as [Hq|[Hclose|Hsend]].
  - unfold bind. destruct (chat_panel ui c s) as [[[]|e] s'] eqn:E;
      cbn in Hq; subst s'; [exact IH | now left].
  - right. left. exists c. now rewrite (bind_stop _ _ _ _ _ Hclose).
  - right. right. exists c. now rewrite (bind_stop _ _ _ _ _ Hsend).
Qed.

(** After the chats its sidebar buttons open, a run of the main page
    does at most one more thing, and then it ends in a rerun. *)
Lemma main_page_cases ui s me :
  current_user s = Some me ->
  exists ks,
    snd (main_page ui s) = open_chats ks s
    \/ (exists g, main_page ui s
                  = (Stop RerunException,
                     set_groups (dict_set (uuid4 ui) g) (open_chats ks s)))
    \/ main_page ui s = (Stop RerunException, logged_out (open_chats ks s))
    \/ (exists c, main_page ui s
                  = (Stop RerunException, close_chat c (open_chats ks s)))
    \/ (exists c, main_page ui s
                  = (Stop RerunException,
                     append_message (sent_message ui (User.id me) c)
                       (open_chats ks s))).
Proof.
  intros Hme. rewrite (main_page_some ui s me Hme). cbv zeta.
  set (k1 := pressed_chats ui s (User.id me)).
  destruct (group_request ui).
  { exists k1. right. left. now eexists. }
  set (k2 := pressed_groups ui (open_chats k1 s) (User.id me)).
  assert (E : open_chats k2 (open_chats k1 s) = open_chats (k1 ++ k2) s).
  { unfold open_chats, set_active_chats. cbn. f_equal.
    rewrite list_to_set_app_L. set_solver. }
  rewrite E. exists (k1 ++ k2)%list.
  destruct (button ui "🚪 Logout"); [right; right; now left|].
  destruct (panels_outcome ui me (elements (active_chats (open_chats (k1 ++ k2) s)))
              (open_chats (k1 ++ k2) s) Hme) as [H|[[c H]|[c H]]].
  - now left.
  - right. right. right. left. now exists c.
  - right. right. right. right. now exists c.
Qed.

(** X5: a run stores at most one message.  When it stores one, the
    message is unread and carries the id and the time of the run, the
    run ends in a rerun, and [users], [groups] and the current user are
    what they were. *)
Theorem one_message_per_run ui s :
  messages (snd (run ui s)) = messages s
  \/ exists msg,
       messages (snd (run ui s)) = (messages s ++ [msg])%list
       /\ Message.is_read msg = false
       /\ Message.id msg = uuid4 ui
       /\ Message.timestamp msg = now ui
       /\ current_user s <> None
       /\ (forall me, current_user s = Some me -> Message.sender_id msg = User.id me)
       /\ fst (run ui s) = Stop RerunException
       /\ users (snd (run ui s)) = users s
       /\ groups (snd (run ui s)) = groups s
       /\ current_user (snd (run ui s)) = current_user s.
Proof.
  destruct (String.eqb_spec (current_page s) "login") as [Hpage|Hpage].
  { left. rewrite (run_login_page ui s Hpage). unfold login_page.
    now destruct (form_submit_button ui "login_form"
                  && str_truthy (text_input ui "Full Name")
                  && negb (String.eqb (selectbox ui "Gender") "Select Gender")). }
  rewrite (run_main_page ui s Hpage).
  destruct (current_user s) as [me|] eqn:Hme;
    [|left; now rewrite (main_page_none ui s Hme)].
  destruct (main_page_cases ui s me Hme)
    as (ks & [H|[[g H]|[H|[[c H]|[c H]]]]]); rewrite H; try now left.
  right. exists (sent_message ui (User.id me) c). cbn.
  split; [reflexivity|]. unfold sent_message.
  destruct (startswith c "group_"); cbn; repeat split; try easy; now intros ? [= <-].
Qed.

(** X6: what a run can touch depends on the page it draws: on the login
    page [messages], [groups] and [active_chats] stay as they are, on
    the main page [users] stays as it is, and [unread_counts] is never
    written. *)
Theorem page_frames ui s :
  (current_page s = "login" ->
   messages (snd (run ui s)) = messages s
   /\ groups (snd (run ui s)) = groups s
   /\ active_chats (snd (run ui s)) = active_chats s)
  /\ (current_page s <> "login" -> users (snd (run ui s)) = users s)
  /\ unread_counts (snd (run ui s)) = unread_counts s.
Proof.
  assert (Hlogin : current_page s = "login" ->
                   snd (run ui s) = s \/ snd (run ui s) = logged_in (new_user ui) s).
  { intros Hpage. rewrite (run_login_page ui s Hpage). unfold login_page.
    destruct (form_submit_button ui "login_form"
              && str_truthy (text_input ui "Full Name")
              && negb (String.eqb (selectbox ui "Gender") "Select Gender"));
      [now right | now left]. }
  assert (Hmain : current_page s <> "login" ->
                  users (snd (run ui s)) = users s
                  /\ unread_counts (snd (run ui s)) = unread_counts s).
  { intros Hpage. rewrite (run_main_page ui s Hpage).
    destruct (current_user s) as [me|] eqn:Hme;
      [|now rewrite (main_page_none ui s Hme)].
    destruct (main_page_cases ui s me Hme)
      as (ks & [H|[[g H]|[H|[[c H]|[c H]]]]]); now rewrite H. }
  split; [|split].
  - intros Hpage. destruct (Hlogin Hpage) as [-> | ->]; now repeat split.
  - intros Hpage. now apply Hmain.
  - destruct (String.eqb_spec (current_page s) "login") as [Hpage|Hpage].
    + destruct (Hlogin Hpage) as [-> | ->]; reflexivity.
    + now apply Hmain.
Qed.

Lemma page_frames_witness :
  messages (snd (run (ui_login "Alice" 30 "Female" "a") initial)) = messages initial
  /\ users (snd (run (ui_send "b" "hi" "m" 3) Team.alice_chatting))
     = users Team.alice_chatting.
Proof.
  split.
  - exact (proj1 (proj1 (page_frames (ui_login "Alice" 30 "Female" "a") initial)
                    eq_refl)).
  - apply (proj1 (proj2 (page_frames (ui_send "b" "hi" "m" 3) Team.alice_chatting))).
    vm_compute. discriminate.
Defined.

Lemma unread_filter_new u (new : list Message.t) :
  Forall (fun msg => Message.is_read msg = false) new ->
  List.filter (fun msg => String.eqb (Message.receiver_id msg) u
                          && negb (Message.is_read msg)) new
  = List.filter (fun msg => String.eqb (Message.receiver_id msg) u) new.
Proof.
  induction 1 as [|msg new Hmsg _ IH]; [reflexivity|].
  cbn [List.filter]. rewrite Hmsg, IH. cbn [negb]. now rewrite andb_true_r.
Qed.

(** X7: no run lowers the unread count of any user: the count after the
    run is the count before plus the number of messages the run stored
    for that user. *)
Theorem unread_never_decreases ui s user_id :
  exists new,
    messages (snd (run ui s)) = (messages s ++ new)%list
    /\ get_unread_messages_count (snd (run ui s)) user_id
       = get_unread_messages_count s user_id
         + Z.of_nat (length (List.filter
                               (fun msg => String.eqb (Message.receiver_id msg) user_id)
                               new))
    /\ get_unread_messages_count s user_id
       <= get_unread_messages_count (snd (run ui s)) user_id.
Proof.
  destruct (run_messages ui s) as (new & E & Hnew). exists new.
  assert (Hcount : get_unread_messages_count (snd (run ui s)) user_id
       = get_unread_messages_count s user_id
         + Z.of_nat (length (List.filter
                               (fun msg => String.eqb (Message.receiver_id msg) user_id)
                               new))).
  { rewrite !unread_count_spec, E, List.filter_app, length_app.
    rewrite (unread_filter_new user_id new Hnew). lia. }
  split; [exact E|]. split; [exact Hcount|]. rewrite Hcount. lia.
Qed.

(** ** Histories *)

(** X8: on a Streamlit that draws nested expanders, a group chat that
    is not sending shows exactly the stored messages whose receiver is
    the group id, in ascending order of timestamp, messages with the
    same timestamp in the order of the store; it needs no logged-in
    user. *)
Theorem group_history ui s gid g :
  dict_get gid (groups s) = Some g ->
  Forall (fun member => dict_get member (users s) <> None) (Group.members g) ->
  senders_known s ->
  nested_expanders ui = true ->
  form_submit_button ui ("group_chat_form_" ++ gid)
  && str_truthy (text_input ui ("group_message_input_" ++ gid)) = false ->
  exists shown,
    render_group_chat ui gid s = (Ok (map (row_of s) shown), s)
    /\ (forall msg, In msg shown <->
                    In msg (messages s) /\ Message.receiver_id msg = gid)
    /\ StronglySorted (fun a b => Message.timestamp a <= Message.timestamp b) shown
    /\ (forall t,
          List.filter (fun msg => Message.timestamp msg =? t) shown
          = List.filter (fun msg => Message.timestamp msg =? t)
              (List.filter (fun msg => String.eqb (Message.receiver_id msg) gid)
                 (messages s))).
Proof.
  intros Hg Hmem Hknown Hnest Hquiet.
  exists (sorted Message.timestamp
            (List.filter (fun msg => String.eqb (Message.receiver_id msg) gid)
               (messages s))).
  split; [now apply (render_group_chat_show ui s gid g)|].
  split; [|split].
  - intros msg. now rewrite sorted_In, List.filter_In, String.eqb_eq.
  - apply sorted_sorted.
  - intros t. apply sorted_stable.
Qed.

Lemma group_history_witness :
  exists shown,
    render_group_chat idle "g" (runs Lobby.chatter initial)
    = (Ok (map (row_of (runs Lobby.chatter initial)) shown),
       runs Lobby.chatter initial)
    /\ In Lobby.hello shown
    /\ In Lobby.anyone shown
    /\ ~ In Lobby.psst shown
    /\ StronglySorted (fun a b => Message.timestamp a <= Message.timestamp b) shown
    /\ List.filter (fun msg => Message.timestamp msg =? 5) shown
       = [Lobby.anyone; Lobby.there].
Proof.
  assert (Hg : dict_get "g" (groups (runs Lobby.chatter initial))
               = Some (Group.mk "g" "Team" "c" ["c"; "a"; "b"] 9))
    by (vm_compute; reflexivity).
  assert (Hmembers :
            Forall (fun member =>
                      dict_get member (users (runs Lobby.chatter initial)) <> None)
              ["c"; "a"; "b"]).
  { repeat constructor; vm_compute; discriminate. }
  assert (Hmsgs : messages (runs Lobby.chatter initial)
                  = [Lobby.psst; Lobby.hello; Lobby.anyone; Lobby.there])
    by (vm_compute; reflexivity).
  assert (Hc : dict_get "c" (users (runs Lobby.chatter initial)) <> None)
    by (vm_compute; discriminate).
  assert (Hknown : senders_known (runs Lobby.chatter initial)).
  { intros msg Hmsg. rewrite Hmsgs in Hmsg.
    destruct Hmsg as [<-|[<-|[<-|[<-|[]]]]]; exact Hc. }
  destruct (group_history idle (runs Lobby.chatter initial) "g"
              (Group.mk "g" "Team" "c" ["c"; "a"; "b"] 9)
              Hg Hmembers Hknown eq_refl eq_refl) as (shown & H1 & H2 & H3 & H4).
  exists shown. rewrite Hmsgs in H2, H4.
  split; [exact H1|].
  split; [apply H2; split; [right; now left | reflexivity]|].
  split; [apply H2; split; [right; right; now left | reflexivity]|].
  split; [intros Hin; apply H2 in Hin as [_ E]; discriminate E|].
  split; [exact H3 | exact (H4 5)].
Defined.

Lemma between_swap a b msg : between a b msg = between b a msg.
Proof.
  unfold between. cbn [str_in]. rewrite !orb_false_r.
  now rewrite (orb_comm (String.eqb (Message.sender_id msg) a)),
              (orb_comm (String.eqb (Message.receiver_id msg) a)).
Qed.

Lemma filter_between_swap a b (l : list Message.t) :
  List.filter (between a b) l = List.filter (between b a) l.
Proof. apply List.filter_ext. intros msg. apply between_swap. Qed.

(** X9: the two sides of a conversation see the same history: the chat
    window user [a] has with [b] and the one [b] has with [a] show the
    same rows in the same order. *)
Theorem history_symmetric ui s a b :
  current_user s = Some a ->
  dict_get (User.id a) (users s) = Some a ->
  dict_get (User.id b) (users s) = Some b ->
  senders_known s ->
  form_submit_button ui ("chat_form_" ++ User.id b)
  && str_truthy (text_input ui ("message_input_" ++ User.id b)) = false ->
  form_submit_button ui ("chat_form_" ++ User.id a)
  && str_truthy (text_input ui ("message_input_" ++ User.id a)) = false ->
  exists rows,
    render_chat_window ui (User.id b) s = (Ok rows, s)
    /\ render_chat_window ui (User.id a) (set_current_user (Some b) s)
       = (Ok rows, set_current_user (Some b) s).
Proof.
  intros Hme Ha Hb Hknown Hqb Hqa. eexists. split.
  - now apply (render_chat_window_show ui s a (User.id b) b).
  - rewrite (render_chat_window_show ui (set_current_user (Some b) s) b (User.id a) a);
      try easy.
    cbn [messages set_current_user]. now rewrite filter_between_swap.
Qed.

Lemma history_symmetric_witness :
  exists rows,
    render_chat_window idle "b" Notebook.session = (Ok rows, Notebook.session)
    /\ render_chat_window idle "a"
         (set_current_user (Some Notebook.bob) Notebook.session)
       = (Ok rows, set_current_user (Some Notebook.bob) Notebook.session).
Proof.
  assert (Hknown : senders_known Notebook.session).
  { intros msg [<-|[<-|[]]]; discriminate. }
  exact (history_symmetric idle Notebook.session Notebook.alice Notebook.bob
           eq_refl eq_refl eq_refl Hknown eq_refl eq_refl).
Defined.

(** X10: a message sent in a chat window is in the history the same
    window shows on the next run, and the send raises the unread count
    of the peer by one and of nobody else. *)
Theorem sent_message_is_shown ui ui' s me other other_user :
  current_user s = Some me ->
  dict_get (User.id me) (users s) <> None ->
  dict_get other (users s) = Some other_user ->
  senders_known s ->
  form_submit_button ui ("chat_form_" ++ other)
  && str_truthy (text_input ui ("message_input_" ++ other)) = true ->
  form_submit_button ui' ("chat_form_" ++ other)
  && str_truthy (text_input ui' ("message_input_" ++ other)) = false ->
  exists rows,
    render_chat_window ui' other (snd (render_chat_window ui other s))
    = (Ok rows, snd (render_chat_window ui other s))
    /\ In (Message.mk (uuid4 ui) (User.id me) other
             (text_input ui ("message_input_" ++ other)) (now ui) false)
          (map snd rows)
    /\ (forall u,
          get_unread_messages_count (snd (render_chat_window ui other s)) u
          = get_unread_messages_count s u
            + (if String.eqb other u then 1 else 0)).
Proof.
  intros Hme Hreg Hother Hknown Hsend Hquiet.
  rewrite (render_chat_window_send ui s me other other_user Hme Hother Hsend).
  cbn [snd].
  set (msg := Message.mk (uuid4 ui) (User.id me) other
                (text_input ui ("message_input_" ++ other)) (now ui) false).
  assert (Hknown' : senders_known (append_message msg s)).
  { intros m Hm. cbn in Hm. apply in_app_iff in Hm as [Hm|[<-|[]]];
      [now apply Hknown | exact Hreg]. }
  eexists. split; [|split].
  - now apply (render_chat_window_show ui' (append_message msg s) me other other_user).
  - rewrite List.map_map. cbn [row_of snd]. rewrite List.map_id.
    apply sorted_In, List.filter_In. split.
    + cbn. apply in_app_iff. right. now left.
    + unfold between. cbn. now rewrite !String.eqb_refl, orb_true_r.
  - intros u. rewrite !unread_count_spec. cbn [messages append_message set_messages].
    rewrite List.filter_app, length_app. cbn [List.filter Message.receiver_id
      Message.is_read msg negb]. rewrite andb_true_r.
    destruct (String.eqb other u); cbn [length]; lia.
Qed.

Lemma sent_message_is_shown_witness :
  exists rows,
    render_chat_window idle "b"
      (snd (render_chat_window (ui_send "b" "hi" "m" 3) "b" Team.alice_chatting))
    = (Ok rows, snd (render_chat_window (ui_send "b" "hi" "m" 3) "b" Team.alice_chatting))
    /\ In (Message.mk "m" "a" "b" "hi" 3 false) (map snd rows).
Proof.
  assert (Hreg : dict_get "a" (users Team.alice_chatting) <> None)
    by (vm_compute; discriminate).
  assert (Hknown : senders_known Team.alice_chatting).
  { intros msg Hmsg. vm_compute in Hmsg. destruct Hmsg. }
  destruct (sent_message_is_shown (ui_send "b" "hi" "m" 3) idle Team.alice_chatting
              (User.mk "a" "Alice" 30 "Female" true 0) "b"
              (User.mk "b" "Bob" 31 "Male" true 0)
              eq_refl Hreg eq_refl Hknown eq_refl eq_refl) as (rows & H1 & H2 & _).
  exists rows. split; [exact H1 | exact H2].
Defined.

(** ** Group buttons, presence, and ids that come back *)

(** X11: the button of a group puts the key [group_] followed by the
    group id into [active_chats] exactly when the main page is shown and
    the current user is a member of a group stored under that id;
    otherwise it changes nothing, so a user cannot open a group that
    does not list them; pressing it twice is the same as pressing it
    once. *)
Theorem group_button gid s me :
  current_user s = Some me ->
  openGroupChat gid s
  = (if offers_group s gid then open_chat ("group_" ++ gid) s else s)
  /\ (offers_group s gid = true ->
      exists g, In (gid, g) (groups s) /\ In (User.id me) (Group.members g))
  /\ ((forall g, In (gid, g) (groups s) -> ~ In (User.id me) (Group.members g)) ->
      openGroupChat gid s = s)
  /\ openGroupChat gid (openGroupChat gid s) = openGroupChat gid s.
Proof.
  intros Hme. split; [apply openGroupChat_spec|].
  split; [now apply offers_group_member|]. split.
  - intros Hnot. rewrite openGroupChat_spec.
    destruct (offers_group s gid) eqn:Ho; [|reflexivity].
    destruct (offers_group_member s gid me Hme Ho) as (g & Hg & Hin).
    now destruct (Hnot g Hg).
  - rewrite (openGroupChat_spec gid s). destruct (offers_group s gid) eqn:Ho.
    + rewrite openGroupChat_spec.
      change (offers_group (open_chat ("group_" ++ gid) s) gid)
        with (offers_group s gid).
      rewrite Ho. unfold open_chat, set_active_chats. cbn. f_equal. set_solver.
    + rewrite openGroupChat_spec. now rewrite Ho.
Qed.

Lemma group_button_witness :
  openGroupChat "g" Lobby.session = open_chat "group_g" Lobby.session
  /\ openGroupChat "zz" Lobby.session = Lobby.session.
Proof.
  assert (Hme : current_user Lobby.session
                = Some (User.mk "c" "Carol" 32 "Other" true 0))
    by (vm_compute; reflexivity).
  assert (Hg : offers_group Lobby.session "g" = true) by (vm_compute; reflexivity).
  assert (Hz : offers_group Lobby.session "zz" = false) by (vm_compute; reflexivity).
  pose proof (group_button "g" Lobby.session _ Hme) as (H1 & _).
  pose proof (group_button "zz" Lobby.session _ Hme) as (H2 & _).
  rewrite Hg in H1. rewrite Hz in H2.
  split; [exact H1 | exact H2].
Defined.

Lemma effect_all_online ui s s' : effect ui s s' -> all_online s -> all_online s'.
Proof.
  unfold all_online. destruct 1; cbn; intros Hinv; try exact Hinv.
  now apply Forall_dict_set.
Qed.

(** X12: nothing ever clears the [online] flag: in every session
    reached from the initial one every stored user is online, also the
    users who have logged out. *)
Theorem everyone_stays_online (l : list UI) :
  all_online (runs l initial)
  /\ (forall ui s, all_online s -> all_online (snd (run ui s)))
  /\ (forall s, users (logged_out s) = users s).
Proof.
  split; [|split].
  - apply (runs_invariant _ effect_all_online). constructor.
  - intros ui s. apply (run_invariant _ effect_all_online).
  - reflexivity.
Qed.

(** X13: the login form does not check the id it is given: when
    [uuid4()] returns an id that is already a key of [users], the new
    user takes the place of the user stored under it, and the list of
    keys, with its order, is what it was; every other user is
    untouched. *)
Theorem login_reuses_id ui s old :
  current_page s = "login" ->
  form_submit_button ui "login_form" = true ->
  text_input ui "Full Name" <> "" ->
  selectbox ui "Gender" <> "Select Gender" ->
  dict_get (uuid4 ui) (users s) = Some old ->
  run ui s = (Stop RerunException, logged_in (new_user ui) s)
  /\ dict_keys (users (snd (run ui s))) = dict_keys (users s)
  /\ dict_get (uuid4 ui) (users (snd (run ui s))) = Some (new_user ui)
  /\ (forall k, k <> uuid4 ui ->
                dict_get k (users (snd (run ui s))) = dict_get k (users s)).
Proof.
  intros Hpage Hsub Hname Hgender Hold.
  assert (Hrun : run ui s = (Stop RerunException, logged_in (new_user ui) s)).
  { rewrite (run_login_page _ _ Hpage). now apply login_page_submit. }
  rewrite Hrun. cbn [snd logged_in users set_current_page set_current_user set_users].
  split; [reflexivity|]. split; [|split].
  - apply dict_set_present_keys. cbn. now rewrite Hold.
  - rewrite dict_get_set. cbn. now rewrite String.eqb_refl.
  - intros k Hk. rewrite dict_get_set. cbn.
    now destruct (String.eqb_spec k (uuid4 ui)).
Qed.

Lemma login_reuses_id_witness :
  dict_keys (users (snd (run (ui_login "Eve" 50 "Other" "b")
                           (logged_out Notebook.session))))
  = ["a"; "b"]
  /\ dict_get "b" (users (snd (run (ui_login "Eve" 50 "Other" "b")
                                 (logged_out Notebook.session))))
     = Some (User.mk "b" "Eve" 50 "Other" true 0).
Proof.
  assert (Hname : "Eve" <> "") by discriminate.
  assert (Hgender : "Other" <> "Select Gender") by discriminate.
  pose proof (login_reuses_id (ui_login "Eve" 50 "Other" "b")
                (logged_out Notebook.session) Notebook.bob
                eq_refl eq_refl Hname Hgender eq_refl) as (_ & H2 & H3 & _).
  split; [exact H2 | exact H3].
Defined.

(** X14: closing a chat touches nothing but its own key: every other
    key of [active_chats] stays or stays out, and [users], [messages],
    [groups], the current user and the page are what they were, so the
    history is there again when the chat is reopened. *)
Theorem close_touches_one_key k k' s :
  k' <> k ->
  (k' ∈ active_chats (closeChat k s) <-> k' ∈ active_chats s)
  /\ users (closeChat k s) = users s
  /\ messages (closeChat k s) = messages s
  /\ groups (closeChat k s) = groups s
  /\ current_user (closeChat k s) = current_user s
  /\ current_page (closeChat k s) = current_page s.
Proof.
  intros Hne. destruct (closeChat_cases k s) as [->|[_ ->]]; [easy|].
  cbn. repeat split; try easy; set_solver.
Qed.

Lemma close_touches_one_key_witness :
  elements (active_chats (runs Team.two_chats initial)) = ["b"; "d"]
  /\ elements (active_chats (closeChat "b" (runs Team.two_chats initial))) = ["d"]
  /\ ("d" ∈ active_chats (closeChat "b" (runs Team.two_chats initial))
      <-> "d" ∈ active_chats (runs Team.two_chats initial))
  /\ users (closeChat "b" (runs Team.two_chats initial))
     = users (runs Team.two_chats initial)
  /\ messages (closeChat "b" (runs Team.two_chats initial))
     = messages (runs Team.two_chats initial).
Proof.
  assert (Hne : "d" <> "b") by discriminate.
  pose proof (close_touches_one_key "b" "d" (runs Team.two_chats initial) Hne)
    as (H1 & H2 & H3 & _).
  split; [now vm_compute|]. split; [now vm_compute|].
  split; [exact H1|]. split; [exact H2 | exact H3].
Defined.

(** ** Sending from the main page *)

Lemma panels_send_ok ui me (l : list string) s c :
  current_user s = Some me ->
  senders_known s ->
  (forall c', In c' l -> panel_target s c') ->
  (forall c', In c' l -> draws ui c' = true) ->
  In c l ->
  sends ui c = true ->
  (forall c', In c' l -> c' <> c ->
     sends ui c' = false /\ button ui ("close_" ++ c') = false) ->
  for_each l (chat_panel ui) s
  = (Stop RerunException, append_message (sent_message ui (User.id me) c) s).
Proof.
  intros Hme Hknown Hl Hd Hin Hsend Hothers. induction l as [|c' l IH]; [easy|].
  cbn [for_each]. destruct (String.eqb_spec c' c) as [->|Hne].
  - now rewrite (bind_stop _ _ _ _ _
                   (chat_panel_send ui s me c Hme (Hl c (or_introl eq_refl))
                      (Hd c (or_introl eq_refl)) Hsend)).
  - destruct (Hothers c' (or_introl eq_refl) Hne) as [Hs Hb].
    rewrite (bind_ok _ _ _ _ _
               (chat_panel_ok ui s me c' Hme Hknown (Hl c' (or_introl eq_refl))
                  (Hd c' (or_introl eq_refl)) Hs Hb)).
    apply IH.
    + intros x Hx. apply Hl. now right.
    + intros x Hx. apply Hd. now right.
    + destruct Hin as [E|Hin]; [congruence | exact Hin].
    + intros x Hx. apply Hothers. now right.
Qed.

Lemma prefix_split p s :
  String.prefix p s = true -> s = p ++ str_from (String.length p) s.
Proof.
  revert s. induction p as [|a p IH]; intros s H; [reflexivity|].
  destruct s as [|b s]; [discriminate|].
  cbn [String.prefix] in H. destruct (ascii_dec a b) as [->|]; [|discriminate].
  change (String b s = String b (p ++ str_from (String.length p) s)).
  f_equal. now apply IH.
Qed.

Lemma group_key_split c :
  startswith c "group_" = true -> c = "group_" ++ str_from 6 c.
Proof. intros H. exact (prefix_split "group_" c H). Qed.

Lemma sends_ui_send other content uid t c :
  startswith other "group_" = false ->
  sends (ui_send other content uid t) c
  = String.eqb c other && str_truthy content.
Proof.
  intros Hother. unfold sends, ui_send, ui_form. cbn [form_submit_button text_input].
  destruct (startswith c "group_") eqn:Hc.
  - change (String.eqb ("group_chat_form_" ++ str_from 6 c) ("chat_form_" ++ other))
      with false.
    destruct (String.eqb_spec c other) as [->|_]; [congruence | reflexivity].
  - change (String.eqb ("chat_form_" ++ c) ("chat_form_" ++ other))
      with (String.eqb c other).
    change (String.eqb ("message_input_" ++ c) ("message_input_" ++ other))
      with (String.eqb c other).
    now destruct (String.eqb c other).
Qed.

Lemma sends_ui_send_group gid content uid t c :
  sends (ui_send_group gid content uid t) c
  = String.eqb c ("group_" ++ gid) && str_truthy content.
Proof.
  unfold sends, ui_send_group, ui_form. cbn [form_submit_button text_input].
  destruct (startswith c "group_") eqn:Hc.
  - change (String.eqb ("group_chat_form_" ++ str_from 6 c) ("group_chat_form_" ++ gid))
      with (String.eqb (str_from 6 c) gid).
    change (String.eqb ("group_message_input_" ++ str_from 6 c)
              ("group_message_input_" ++ gid))
      with (String.eqb (str_from 6 c) gid).
    rewrite (group_key_split c Hc) at 3.
    change (String.eqb ("group_" ++ str_from 6 c) ("group_" ++ gid))
      with (String.eqb (str_from 6 c) gid).
    now destruct (String.eqb (str_from 6 c) gid).
  - change (String.eqb ("chat_form_" ++ c) ("group_chat_form_" ++ gid)) with false.
    destruct (String.eqb_spec c ("group_" ++ gid)) as [->|_]; [|reflexivity].
    now rewrite startswith_group in Hc.
Qed.

Lemma send_run ui s me c :
  well_formed s ->
  current_page s <> "login" ->
  current_user s = Some me ->
  c ∈ active_chats s ->
  (forall c', c' ∈ active_chats s -> draws ui c' = true) ->
  group_request ui = false ->
  (forall k, button ui k = false) ->
  (forall c', sends ui c' = String.eqb c' c) ->
  run ui s
  = (Stop RerunException, append_message (sent_message ui (User.id me) c) s).
Proof.
  intros Hwf Hpage Hme Hc Hd Hreq Hbuttons Hsends.
  rewrite (run_main_page ui s Hpage), (main_page_some ui s me Hme). cbv zeta.
  rewrite Hreq, Hbuttons.
  rewrite pressed_chats_none, open_chats_nil by (intros; apply Hbuttons).
  rewrite pressed_groups_none, open_chats_nil by (intros; apply Hbuttons).
  apply (panels_send_ok ui me); try easy.
  - apply (wf_senders _ Hwf).
  - intros c' Hc'. apply (wf_targets _ Hwf).
    now apply elem_of_elements, list_elem_of_In.
  - intros c' Hc'. apply Hd. now apply elem_of_elements, list_elem_of_In.
  - now apply list_elem_of_In, elem_of_elements.
  - rewrite Hsends. apply String.eqb_refl.
  - intros c' _ Hne. split; [|apply Hbuttons].
    rewrite Hsends. now apply String.eqb_neq.
Qed.

(** X15: on the main page of a well-formed session, the send form of an
    open chat with a text appends one message from the current user to
    the peer, or to the group of a group chat, and reruns, whichever
    other panels are open, as long as the Streamlit of the run draws all
    of them; who opened the panel and whether the current user is a
    member of the group plays no part.  On a Streamlit that refuses
    nested expanders this holds for a direct chat while no group chat is
    open, and the send form of a group chat stores nothing: the run
    stops with the [StreamlitAPIException] of the first group panel. *)
Theorem send_from_main_page s me content uid t :
  well_formed s ->
  current_page s <> "login" ->
  current_user s = Some me ->
  str_truthy content = true ->
  (forall nest other,
     other ∈ active_chats s -> startswith other "group_" = false ->
     nest = true \/ direct_only s ->
     run (on_streamlit nest (ui_send other content uid t)) s
     = (Stop RerunException,
        append_message (Message.mk uid (User.id me) other content t false) s))
  /\ (forall gid,
        "group_" ++ gid ∈ active_chats s ->
        run (on_streamlit true (ui_send_group gid content uid t)) s
        = (Stop RerunException,
           append_message (Message.mk uid (User.id me) gid content t false) s))
  /\ (forall gid,
        "group_" ++ gid ∈ active_chats s ->
        run (on_streamlit false (ui_send_group gid content uid t)) s
        = (Stop StreamlitAPIException, s)).
Proof.
  intros Hwf Hpage Hme Hcontent. split; [|split].
  - intros nest other Hopen Hprefix Hnest.
    rewrite (send_run (on_streamlit nest (ui_send other content uid t)) s me other);
      try easy.
    + unfold sent_message. rewrite Hprefix. cbn. now rewrite String.eqb_refl.
    + intros c' Hc'. now apply (draws_on_streamlit nest _ s).
    + intros c'.
      change (sends (on_streamlit nest (ui_send other content uid t)) c')
        with (sends (ui_send other content uid t) c').
      rewrite (sends_ui_send _ _ _ _ _ Hprefix), Hcontent.
      apply andb_true_r.
  - intros gid Hopen.
    rewrite (send_run (on_streamlit true (ui_send_group gid content uid t)) s me
               ("group_" ++ gid)); try easy.
    + unfold sent_message. rewrite startswith_group, str_from_group. cbn.
      now rewrite String.eqb_refl.
    + intros c'.
      change (sends (on_streamlit true (ui_send_group gid content uid t)) c')
        with (sends (ui_send_group gid content uid t) c').
      rewrite sends_ui_send_group, Hcontent. apply andb_true_r.
  - intros gid Hopen.
    rewrite (run_main_page _ s Hpage), (main_page_some _ s me Hme). cbv zeta.
    change (group_request (on_streamlit false (ui_send_group gid content uid t)))
      with false. cbv iota.
    rewrite pressed_chats_none, open_chats_nil by reflexivity.
    rewrite pressed_groups_none, open_chats_nil by reflexivity.
    change (button (on_streamlit false (ui_send_group gid content uid t)) "🚪 Logout")
      with false. cbv iota.
    apply (panels_refused _ me); try easy.
    + apply (wf_senders _ Hwf).
    + intros c Hc. apply (wf_targets _ Hwf).
      now apply elem_of_elements, list_elem_of_In.
    + intros c _ Hc. split; [|reflexivity].
      change (sends (on_streamlit false (ui_send_group gid content uid t)) c)
        with (sends (ui_send_group gid content uid t) c).
      rewrite sends_ui_send_group.
      destruct (String.eqb_spec c ("group_" ++ gid)) as [->|_]; [|reflexivity].
      now rewrite startswith_group in Hc.
    + exists ("group_" ++ gid). split; [|apply startswith_group].
      now apply list_elem_of_In, elem_of_elements.
Qed.

Lemma send_from_main_page_witness :
  run (on_streamlit false (ui_send "b" "hi" "m" 3)) (runs Team.two_chats initial)
  = (Stop RerunException,
     append_message (Message.mk "m" "a" "b" "hi" 3 false)
       (runs Team.two_chats initial))
  /\ run (on_streamlit true (ui_send_group "g" "hi" "m" 9))
       (runs Lobby.chatter initial)
     = (Stop RerunException,
        append_message (Message.mk "m" "c" "g" "hi" 9 false)
          (runs Lobby.chatter initial))
  /\ run (on_streamlit false (ui_send_group "g" "hi" "m" 9))
       (runs Lobby.chatter initial)
     = (Stop StreamlitAPIException, runs Lobby.chatter initial).
Proof.
  assert (Hplain : Forall plain_uuid Team.two_chats) by (repeat constructor).
  assert (Hplain' : Forall plain_uuid Lobby.chatter) by (repeat constructor).
  assert (Hpage : current_page (runs Team.two_chats initial) <> "login")
    by (vm_compute; discriminate).
  assert (Hpage' : current_page (runs Lobby.chatter initial) <> "login")
    by (vm_compute; discriminate).
  assert (Hme : current_user (runs Team.two_chats initial)
                = Some (User.mk "a" "Alice" 30 "Female" true 0))
    by (vm_compute; reflexivity).
  assert (Hme' : current_user (runs Lobby.chatter initial)
                 = Some (User.mk "c" "Carol" 32 "Other" true 0))
    by (vm_compute; reflexivity).
  assert (Hchats : elements (active_chats (runs Team.two_chats initial)) = ["b"; "d"])
    by (vm_compute; reflexivity).
  assert (Hopen : "b" ∈ active_chats (runs Team.two_chats initial)).
  { apply elem_of_elements. rewrite Hchats. now left. }
  assert (Hdirect : direct_only (runs Team.two_chats initial)).
  { intros c Hc. apply elem_of_elements in Hc. rewrite Hchats in Hc.
    apply list_elem_of_In in Hc. destruct Hc as [<-|[<-|[]]]; reflexivity. }
  assert (Hopen' : "group_g" ∈ active_chats (runs Lobby.chatter initial)).
  { apply elem_of_elements. vm_compute. now left. }
  assert (Hb : startswith "b" "group_" = false) by reflexivity.
  assert (Hhi : str_truthy "hi" = true) by reflexivity.
  pose proof (send_from_main_page (runs Team.two_chats initial) _ "hi" "m" 3
                (proj1 (runs_well_formed _ Hplain)) Hpage Hme Hhi) as (H1 & _).
  pose proof (send_from_main_page (runs Lobby.chatter initial) _ "hi" "m" 9
                (proj1 (runs_well_formed _ Hplain')) Hpage' Hme' Hhi)
    as (_ & H2 & H3).
  split; [|split].
  - exact (H1 false "b" Hopen Hb (or_intror Hdirect)).
  - exact (H2 "g" Hopen').
  - exact (H3 "g" Hopen').
Defined.

Lemma everyone_stays_online_witness :
  all_online (snd (run ui_logout (runs Team.alice_first initial))).
Proof.
  destruct (everyone_stays_online Team.alice_first) as (Hall & Hstep & _).
  apply Hstep. exact Hall.
Defined.
